(** * Stock-Vision: the reverse search client (reverse_search.py)

    A shallow embedding of [format_date] and [search_adobe_stock] and the
    properties the specification states about them.

    Conventions of the embedding.
    - A Python [str] is a Rocq [string], one [ascii] per character (the
      characters U+0000 to U+00FF); indices and lengths are counted in
      characters.
    - A Python [int] is a [Z].
    - What [print] writes, what the HTTP client is asked and when it is closed
      are recorded, in program order, as a list of [event]s.
    - An exception is a value of type [exn]; code that can raise runs in the
      monad [run], which carries the events emitted so far. *)

From Stdlib Require Import ZArith List String Ascii Bool Lia.
From Stdlib Require Import DecimalString DecimalZ.
Import ListNotations.
Local Open Scope string_scope.

(** ** Python strings *)

Module PyStr.

(** The double quote and the line feed, which a literal cannot hold. *)
Definition dq : string := String "034" "".
Definition nl : string := String "010" "".

(** [s[:n]] and [s[n:]] for a non-negative [n]; both clamp at the end. *)
Fixpoint take (n : nat) (s : string) : string :=
  match n, s with
  | S n', String c s' => String c (take n' s')
  | _, _ => ""
  end.

Fixpoint drop (n : nat) (s : string) : string :=
  match n, s with
  | S n', String _ s' => drop n' s'
  | _, _ => s
  end.

(** [s[a:b]] for non-negative [a] and [b]. *)
Definition slice (a b : nat) (s : string) : string := take (b - a) (drop a s).

(** [s.startswith(sub)]. *)
Fixpoint startswith (sub s : string) : bool :=
  match sub, s with
  | "", _ => true
  | String a sub', String b s' => Ascii.eqb a b && startswith sub' s'
  | String _ _, "" => false
  end.

(** The lowest index at which [sub] occurs in [s], counted from [i]. *)
Fixpoint find_from (sub s : string) (i : nat) : option nat :=
  if startswith sub s then Some i
  else match s with
       | "" => None
       | String _ s' => find_from sub s' (S i)
       end.

(** [s.find(sub)]: the lowest index of an occurrence, or -1. *)
Definition find (sub s : string) : Z :=
  match find_from sub s 0 with
  | Some i => Z.of_nat i
  | None => (-1)%Z
  end.

(** [sub in s]. *)
Fixpoint contains (sub s : string) : bool :=
  startswith sub s
  || match s with
     | "" => false
     | String _ s' => contains sub s'
     end.

(** [all(p(c) for c in s)]. *)
Fixpoint all_chars (p : ascii -> bool) (s : string) : bool :=
  match s with
  | "" => true
  | String c s' => p c && all_chars p s'
  end.

(** [s.endswith(sub)]. *)
Definition endswith (sub s : string) : bool :=
  (length sub <=? length s)%nat && String.eqb (drop (length s - length sub) s) sub.

(** [c * n] for a one-character string [c]. *)
Fixpoint repeat_char (c : ascii) (n : nat) : string :=
  match n with
  | O => ""
  | S n' => String c (repeat_char c n')
  end.

(** [str(n)] for an [int]. *)
Definition of_Z (n : Z) : string := NilZero.string_of_int (Z.to_int n).

(** [sep.join(l)]. *)
Fixpoint join (sep : string) (l : list string) : string :=
  match l with
  | [] => ""
  | [x] => x
  | x :: l' => x ++ sep ++ join sep l'
  end.

End PyStr.

(** ** The stream decoder (lines 68 to 83) *)

Definition marker : string :=
  "{" ++ PyStr.dq ++ "query" ++ PyStr.dq ++ ":" ++ PyStr.dq.

(** The loop [for i in range(start_idx, len(content))] over the characters
    [rest = content[i:]], with the running [depth]; the result is the index
    [i] at which the loop reaches [depth == 0], if it does. *)
Fixpoint scan (rest : string) (i : nat) (depth : Z) : option nat :=
  match rest with
  | "" => None
  | String c rest' =>
      if Ascii.eqb c "{" then scan rest' (S i) (depth + 1)
      else if Ascii.eqb c "}" then
        let depth := (depth - 1)%Z in
        if (depth =? 0)%Z then Some i else scan rest' (S i) depth
      else scan rest' (S i) depth
  end.

(** The index of the closing brace the scan stops at, started at [start_idx]
    with [depth = 0]. *)
Definition scan_from (content : string) (start_idx : nat) : option nat :=
  scan (PyStr.drop start_idx content) start_idx 0.

(** [json_str], the text handed to [json.loads]; [None] when the marker is
    absent or the loop ends without reaching depth 0. *)
Definition extract_json_str (content : string) : option string :=
  let start_idx := PyStr.find marker content in
  if (start_idx =? -1)%Z then None
  else
    match scan_from content (Z.to_nat start_idx) with
    | Some i => Some (PyStr.slice (Z.to_nat start_idx) (i + 1) content)
    | None => None
    end.

(** The depth counter after the characters of [s]: opening braces minus
    closing braces. *)
Fixpoint brace_depth (s : string) : Z :=
  match s with
  | "" => 0
  | String c s' =>
      ((if Ascii.eqb c "{" then 1 else if Ascii.eqb c "}" then -1 else 0)
       + brace_depth s')%Z
  end.

(** Text whose braces are balanced: characters other than braces, and
    brace pairs around balanced text, in sequence. *)
Inductive Balanced : string -> Prop :=
| Balanced_nil : Balanced ""
| Balanced_char c s :
    c <> "{"%char -> c <> "}"%char -> Balanced s -> Balanced (String c s)
| Balanced_nest s1 s2 :
    Balanced s1 -> Balanced s2 -> Balanced ("{" ++ s1 ++ "}" ++ s2).

(** No character of [s] is an opening brace. *)
Fixpoint no_open_brace (s : string) : bool :=
  match s with
  | "" => true
  | String c s' => negb (Ascii.eqb c "{") && no_open_brace s'
  end.

(** ** Values, exceptions and effects *)

(** What [json.loads] returns.  A float is carried by the two observations
    the program makes on it: whether it is non-zero (its truth value) and
    its [repr] (what [print] shows). *)
#[local] Unset Elimination Schemes.
Inductive json : Type :=
| JNull
| JBool (b : bool)
| JInt (n : Z)
| JFloat (nonzero : bool) (repr : string)
| JStr (s : string)
| JArr (items : list json)
| JObj (fields : list (string * json)).
#[local] Set Elimination Schemes.

(** Python's truth value test, as [if data:] and [if keywords:] apply it. *)
Definition truthy (v : json) : bool :=
  match v with
  | JNull => false
  | JBool b => b
  | JInt n => negb (n =? 0)%Z
  | JFloat nonzero _ => nonzero
  | JStr s => negb (String.eqb s "")
  | JArr items => match items with [] => false | _ => true end
  | JObj fields => match fields with [] => false | _ => true end
  end.

(** [d.get(key, default)] on the fields of a dict (keys are distinct). *)
Fixpoint dict_get (fields : list (string * json)) (key : string) (default : json)
  : json :=
  match fields with
  | [] => default
  | (k, v) :: fields' =>
      if String.eqb k key then v else dict_get fields' key default
  end.

Inductive exn : Type :=
| RequestError (msg : string)            (* raised by [client.get] *)
| HTTPStatusError (status_code : Z) (text : string)
| JSONDecodeError (msg : string)
| AttributeError (v : json) (attr : string)
| TypeError (op : string) (v : json)
| KeyError (key : json)
| IndexError (v : json).

Inductive event : Type :=
| Print (line : string)                  (* [print(line)] *)
| ClientOpen (http2 : bool) (timeout : Z)
| Get (url : string) (headers cookies : list (string * string))
| ClientClose.

(** Computations that print and may raise: the events emitted, then the
    exception raised or the value returned. *)
Definition run (A : Type) : Type := (list event * (exn + A))%type.

Definition ret {A} (a : A) : run A := ([], inr a).

Definition raise {A} (e : exn) : run A := ([], inl e).

Definition bind {A B} (m : run A) (k : A -> run B) : run B :=
  match m with
  | (out, inl e) => (out, inl e)
  | (out, inr a) => let (out', r) := k a in ((out ++ out')%list, r)
  end.

Definition emit (e : event) : run unit := ([e], inr tt).

Definition print (line : string) : run unit := emit (Print line).

Declare Scope run_scope.
Delimit Scope run_scope with run.
Notation "x <- m ;; k" := (bind m (fun x => k))
  (at level 61, m at next level, right associativity) : run_scope.
Notation "m ;; k" := (bind m (fun _ => k))
  (at level 61, right associativity) : run_scope.
Local Open Scope run_scope.

(** [try: body / except ... / finally: ...]: [handler] stands for the
    [except] clauses in order and answers [None] for an exception none of
    them accepts, which is raised again after [finally_]. *)
Definition try_except_finally (body : run unit)
    (handler : exn -> option (run unit)) (finally_ : run unit) : run unit :=
  let handled : run unit :=
    match body with
    | (out, inr tt) => (out, inr tt)
    | (out, inl e) =>
        match handler e with
        | Some (out', res) => ((out ++ out')%list, res)
        | None => (out, inl e)
        end
    end in
  let (out, res) := handled in
  let (out', res') := finally_ in
  ((out ++ out')%list, match res' with inl e' => inl e' | inr tt => res end).

(** [img.get(key, default)]: an [AttributeError] on a value that is no dict. *)
Definition py_get (v : json) (key : string) (default : json) : run json :=
  match v with
  | JObj fields => ret (dict_get fields key default)
  | _ => raise (AttributeError v "get")
  end.

(** [len(v)]. *)
Definition py_len (v : json) : run Z :=
  match v with
  | JStr s => ret (Z.of_nat (String.length s))
  | JArr items => ret (Z.of_nat (List.length items))
  | JObj fields => ret (Z.of_nat (List.length fields))
  | _ => raise (TypeError "len" v)
  end.

(** The characters of a string as one-character strings. *)
Fixpoint chars (s : string) : list json :=
  match s with
  | "" => []
  | String c s' => JStr (String c "") :: chars s'
  end.

(** What [for ... in v] iterates over: the items of a list, the characters
    of a string, the keys of a dict. *)
Definition py_iter (v : json) : run (list json) :=
  match v with
  | JArr items => ret items
  | JStr s => ret (chars s)
  | JObj fields => ret (map (fun kv => JStr (fst kv)) fields)
  | _ => raise (TypeError "iter" v)
  end.

(** [v[0]]. *)
Definition py_first (v : json) : run json :=
  match v with
  | JArr (x :: _) => ret x
  | JStr (String c _) => ret (JStr (String c ""))
  | JArr [] | JStr "" => raise (IndexError v)
  | JObj _ => raise (KeyError (JInt 0))
  | _ => raise (TypeError "getitem" v)
  end.

(** A calendar date and time as [datetime] holds it; [utcoffset] in
    microseconds when the value is timezone-aware. *)
Record datetime : Type := {
  year : Z; month : Z; day : Z;
  hour : Z; minute : Z; second : Z; microsecond : Z;
  utcoffset : option Z
}.

(** The library functions the program calls whose results it only passes
    on: the JSON parser and printer, [repr] of lists and dicts, and [str] of
    an exception. *)
Class Runtime : Type := {
  json_loads : string -> string + json;   (* the error message, or the value *)
  json_dumps_indent2 : json -> string;    (* [json.dumps(v, indent=2)] *)
  container_repr : json -> string;        (* [repr] of a list or a dict *)
  exn_str : exn -> string                 (* [str(e)] *)
}.

(** ** The request builder (lines 24 to 59) *)

(** [urllib.parse.quote_plus]: letters, digits and [_.-~] are kept, a space
    becomes [+], every other character is replaced by the percent-escaped
    bytes of its UTF-8 encoding. *)
Module Urllib.

Definition always_safe (c : ascii) : bool :=
  let n := nat_of_ascii c in
  ((65 <=? n) && (n <=? 90) || (97 <=? n) && (n <=? 122)
   || (48 <=? n) && (n <=? 57)
   || (n =? 95) || (n =? 46) || (n =? 45) || (n =? 126))%nat.

Definition hex_digit (n : nat) : ascii :=
  match get n "0123456789ABCDEF" with Some c => c | None => "0"%char end.

Definition percent (byte : nat) : string :=
  String "%" (String (hex_digit (byte / 16)) (String (hex_digit (byte mod 16)) "")).

Definition utf8 (c : ascii) : list nat :=
  let n := nat_of_ascii c in
  if (n <? 128)%nat then [n] else [192 + n / 64; 128 + n mod 64]%nat.

Definition quote_char (c : ascii) : string :=
  if always_safe c then String c ""
  else if Ascii.eqb c " " then "+"
  else String.concat "" (map percent (utf8 c)).

Fixpoint quote_plus (s : string) : string :=
  match s with
  | "" => ""
  | String c s' => quote_char c ++ quote_plus s'
  end.

(** The characters an encoded query is made of. *)
Definition url_safe (c : ascii) : bool :=
  always_safe c || Ascii.eqb c "+" || Ascii.eqb c "%".

End Urllib.

Definition build_url (query : string) (page : Z) (ai_only : bool) : string :=
  let encoded_query := Urllib.quote_plus query in
  let url := "https://trackadobestock.com/search?q=" ++ encoded_query in
  let url := if ai_only then url ++ "&generative_ai=only" else url in
  let url := if (page >? 1)%Z then url ++ "&page=" ++ PyStr.of_Z page else url in
  url ++ "&_rsc=1gn38".

Definition cookies : list (string * string) :=
  [ ("__stripe_mid", "b4730762-4a41-47fc-85c9-53cdefb930113a0fb8");
    ("__Host-next-auth.csrf-token",
     "14fbdc7e18b633140ce99eb5ca6c8d2aa2504beef50ae53d13ed288fbafc696e%7Cfd754080b5ab4c4667f730c8d475564b8e7c2a9d76fc2b9cb966ac3d1da0de7b");
    ("__Secure-next-auth.callback-url", "https%3A%2F%2Ftrackadobestock.com");
    ("__Secure-next-auth.session-token",
     "eyJhbGciOiJkaXIiLCJlbmMiOiJBMjU2R0NNIn0..pyDITVjsut1EoIBD.jD1pgamUvITSjIU3E_DfRAKDezuQchgmqkc9vxQ42IpYjmolAqkpnJHssMG6sdZiCyhN96i9IxWFHE5Q8fz09oE6wgKEjRDfQrldwqf7adD0vW-TlK1EcltlnwV58ROlgLvCOdR0uJam7buw8x8g95VbgMGH75luy7x6CqmMMcdsHIaZVOY919oEHkUnhE-tuhUJY72x_8x2nCxutjNGrMN3WYni1u50Z2bfqmMYObK3EVDKKxK2jmSMo31KX26xBKi2kOB26BGmxyBtKYvyiEWwAgjqT2xAJEK8J4jB1PKJjWbjxoKrA-tIaWgIoGUKWkPIvWYN9BRRLjNWvjwnUyQ6pIdiSEFileLovlrWRfkt1g3sezoGaGvYWmrXSJ5RJiqUYdre_63NLRscyzMsfTZw4zg9VPBWUbv_WqMR7uWgqGnFLtbeWpsksT2DNt6M9IQ_92v6WSMT2v80w7lvPOpQMCl3d7Cn.6hdZTN0RhlJpGJTM-k2qqQ") ].

Definition headers : list (string * string) :=
  let q := PyStr.dq in
  [ ("accept", "*/*");
    ("accept-language", "en-GB,en;q=0.9,ur-PK;q=0.8,ur;q=0.7,en-US;q=0.6");
    ("cache-control", "no-cache");
    ("pragma", "no-cache");
    ("referer", "https://trackadobestock.com/search");
    ("rsc", "1");
    ("next-router-state-tree",
     "%5B%22%22%2C%7B%22children%22%3A%5B%22search%22%2C%7B%22children%22%3A%5B%22__PAGE__%22%2C%7B%7D%2Cnull%2Cnull%5D%7D%2Cnull%2Cnull%5D%7D%2Cnull%2Cnull%2Ctrue%5D");
    ("next-url", "/search");
    ("sec-ch-ua",
     q ++ "Not(A:Brand" ++ q ++ ";v=" ++ q ++ "8" ++ q ++ ", "
       ++ q ++ "Chromium" ++ q ++ ";v=" ++ q ++ "144" ++ q ++ ", "
       ++ q ++ "Google Chrome" ++ q ++ ";v=" ++ q ++ "144" ++ q);
    ("sec-ch-ua-mobile", "?0");
    ("sec-ch-ua-platform", q ++ "Windows" ++ q);
    ("sec-fetch-dest", "empty");
    ("sec-fetch-mode", "cors");
    ("sec-fetch-site", "same-origin");
    ("user-agent",
     "Mozilla/5.0 (Windows NT 10.0; Win64; x64) AppleWebKit/537.36 (KHTML, like Gecko) Chrome/144.0.0.0 Safari/537.36") ].

(** ** The session transport (lines 22, 62, 63 and 160) *)

(** What the network answers to one GET: the request fails, or a response
    with its status code and decoded body arrives. *)
Inductive reply : Type :=
| Failed (msg : string)
| Response (status_code : Z) (text : string).

Definition network : Type := string -> reply.

Definition client_get (net : network) (url : string) : run reply :=
  emit (Get url headers cookies) ;;
  match net url with
  | Failed msg => raise (RequestError msg)
  | r => ret r
  end.

(** [httpx.Response.is_success]: the status code is a 2xx one. *)
Definition is_success (status_code : Z) : bool :=
  ((200 <=? status_code) && (status_code <=? 299))%Z.

(** [response.raise_for_status()]. *)
Definition raise_for_status (response : reply) : run unit :=
  match response with
  | Response status_code text =>
      if is_success status_code then ret tt
      else raise (HTTPStatusError status_code text)
  | Failed msg => raise (RequestError msg)
  end.

Definition response_text (response : reply) : string :=
  match response with
  | Response _ text => text
  | Failed _ => ""
  end.

(** ** Dates (lines 8 to 16) *)

Module Datetime.

Definition opt_bind {A B} (o : option A) (k : A -> option B) : option B :=
  match o with Some a => k a | None => None end.

Notation "x <-? o ;; k" := (opt_bind o (fun x => k))
  (at level 61, o at next level, right associativity).
Notation "' pat <-? o ;; k" := (opt_bind o (fun x => let 'pat := x in k))
  (at level 61, pat pattern, o at next level, right associativity).

Definition guard (b : bool) : option unit := if b then Some tt else None.

Definition digit (c : ascii) : option Z :=
  let n := nat_of_ascii c in
  if ((48 <=? n) && (n <=? 57))%nat then Some (Z.of_nat (n - 48)) else None.

Fixpoint digits (s : string) (acc : Z) : option Z :=
  match s with
  | "" => Some acc
  | String c s' => d <-? digit c ;; digits s' (10 * acc + d)%Z
  end.

(** *** The calendar *)

Definition is_leap (y : Z) : bool :=
  ((y mod 4 =? 0) && (negb (y mod 100 =? 0) || (y mod 400 =? 0)))%Z.

Definition days_in_month (y m : Z) : Z :=
  match m with
  | 2 => if is_leap y then 29 else 28
  | 4 | 6 | 9 | 11 => 30
  | _ => 31
  end%Z.

(** The days of the year before the first of month [m]. *)
Definition days_before_month (y m : Z) : Z :=
  (match m with
   | 1 => 0 | 2 => 31 | 3 => 59 | 4 => 90 | 5 => 120 | 6 => 151 | 7 => 181
   | 8 => 212 | 9 => 243 | 10 => 273 | 11 => 304 | 12 => 334 | _ => 0
   end + (if (2 <? m) && is_leap y then 1 else 0))%Z.

(** The days before the first of January of year [y]; the divisions
    truncate, as C's do. *)
Definition days_before_year (y : Z) : Z :=
  let y := (y - 1)%Z in
  (y * 365 + Z.quot y 4 - Z.quot y 100 + Z.quot y 400)%Z.

(** The ordinal of a date: 1 for the first of January of year 1. *)
Definition ymd_to_ord (y m d : Z) : Z :=
  (days_before_year y + days_before_month y m + d)%Z.

(** The date of an ordinal, defined from ordinal 1 on. *)
Definition ord_to_ymd (ordinal : Z) : option (Z * Z * Z) :=
  _ <-? guard (1 <=? ordinal)%Z ;;
  let ordinal := (ordinal - 1)%Z in
  let n400 := Z.quot ordinal 146097 in
  let n := Z.rem ordinal 146097 in
  let n100 := Z.quot n 36524 in
  let n := Z.rem n 36524 in
  let n4 := Z.quot n 1461 in
  let n := Z.rem n 1461 in
  let n1 := Z.quot n 365 in
  let n := Z.rem n 365 in
  let y := (n400 * 400 + 1 + n100 * 100 + n4 * 4 + n1)%Z in
  if ((n1 =? 4) || (n100 =? 4))%Z then Some (y - 1, 12, 31)%Z
  else
    let leapyear := ((n1 =? 3) && (negb (n4 =? 24) || (n100 =? 3)))%Z in
    let m := Z.shiftr (n + 50) 5 in
    let preceding :=
      (days_before_month 1 m + (if (2 <? m) && leapyear then 1 else 0))%Z in
    if (n <? preceding)%Z
    then Some (y, m - 1, n - (preceding - days_in_month y (m - 1)) + 1)%Z
    else Some (y, m, n - preceding + 1)%Z.

(** The day of the week of a date, 0 for Monday. *)
Definition weekday (y m d : Z) : Z := Z.rem (ymd_to_ord y m d + 6) 7.

(** The ordinal of the Monday that starts ISO week 1 of year [y]. *)
Definition iso_week1_monday (y : Z) : Z :=
  let first_day := ymd_to_ord y 1 1 in
  let first_weekday := Z.rem (first_day + 6) 7 in
  let week1_monday := (first_day - first_weekday)%Z in
  if (3 <? first_weekday)%Z then (week1_monday + 7)%Z else week1_monday.

(** The date of day [iso_day] of week [iso_week] of ISO year [iso_year]. *)
Definition iso_to_ymd (iso_year iso_week iso_day : Z) : option (Z * Z * Z) :=
  let first_weekday := weekday iso_year 1 1 in
  _ <-? guard (((1 <=? iso_week) && (iso_week <=? 52))
               || ((iso_week =? 53)
                   && ((first_weekday =? 3)
                       || ((first_weekday =? 2) && is_leap iso_year))))%Z ;;
  _ <-? guard ((1 <=? iso_day) && (iso_day <=? 7))%Z ;;
  ord_to_ymd (iso_week1_monday iso_year + (iso_week - 1) * 7 + iso_day - 1)%Z.

(** *** Reading the text

    The parser reads the UTF-8 bytes of the string; a read at or past the
    end gives the zero byte that ends a C string. *)

Definition bytes (s : string) : list nat :=
  flat_map Urllib.utf8 (list_ascii_of_string s).

Definition byte_at (b : list nat) (p : nat) : nat := nth p b 0%nat.

Definition is_digit (c : nat) : bool := ((48 <=? c) && (c <=? 57))%nat.

Definition hyphen : nat := 45.
Definition colon : nat := 58.
Definition full_stop : nat := 46.
Definition comma : nat := 44.
Definition plus_sign : nat := 43.
Definition letter_W : nat := 87.
Definition letter_Z : nat := 90.

Fixpoint parse_digits_from (b : list nat) (p n : nat) (acc : Z) : option Z :=
  match n with
  | O => Some acc
  | S n' =>
      let c := byte_at b p in
      if is_digit c
      then parse_digits_from b (S p) n' (10 * acc + Z.of_nat (c - 48))%Z
      else None
  end.

(** The number written with the [n] digits at [p], and the position after
    them. *)
Definition parse_digits (b : list nat) (p n : nat) : option (Z * nat) :=
  v <-? parse_digits_from b p n 0 ;; Some (v, (p + n)%nat).

(** The position [p] moved past the digits at the head of [l], the bytes
    from [p] on. *)
Fixpoint skip_digits (l : list nat) (p : nat) : nat :=
  match l with
  | c :: l' => if is_digit c then skip_digits l' (S p) else p
  | [] => p
  end.

(** Where the date ends: the position of the character between the date
    and the time. *)
Definition find_isoformat_datetime_separator (b : list nat) : option nat :=
  let len := List.length b in
  if (len =? 7)%nat then Some 7%nat
  else if (byte_at b 4 =? hyphen)%nat then
    if (byte_at b 5 =? letter_W)%nat then
      if (len <? 8)%nat then None
      else if (8 <? len)%nat && (byte_at b 8 =? hyphen)%nat then
        if (len =? 9)%nat then None
        else if (10 <? len)%nat && is_digit (byte_at b 10) then Some 8%nat
        else Some 10%nat
      else Some 8%nat
    else Some 10%nat
  else if (byte_at b 4 =? letter_W)%nat then
    let idx := skip_digits (skipn 7 b) 7 in
    if (idx <? 9)%nat then Some idx
    else if Nat.even idx then Some 7%nat else Some 8%nat
  else Some 8%nat.

(** The date: [YYYY-MM-DD], [YYYYMMDD], or a week date [YYYY-Www[-D]],
    [YYYYWww[D]]; [len] is where the date ends. *)
Definition parse_isoformat_date (b : list nat) (len : nat)
  : option (Z * Z * Z) :=
  '(y, p) <-? parse_digits b 0 4 ;;
  let uses_separator := (byte_at b p =? hyphen)%nat in
  let p := if uses_separator then S p else p in
  if (byte_at b p =? letter_W)%nat then
    '(iso_week, p) <-? parse_digits b (S p) 2 ;;
    if (p <? len)%nat then
      _ <-? guard (negb uses_separator || (byte_at b p =? hyphen)%nat) ;;
      let p := if uses_separator then S p else p in
      '(iso_day, _) <-? parse_digits b p 1 ;;
      iso_to_ymd y iso_week iso_day
    else iso_to_ymd y iso_week 1
  else
    '(m, p) <-? parse_digits b p 2 ;;
    _ <-? guard (negb uses_separator || (byte_at b p =? hyphen)%nat) ;;
    let p := if uses_separator then S p else p in
    '(d, _) <-? parse_digits b p 2 ;;
    Some (y, m, d).

(** [HH[:MM[:SS]]] or [HH[MM[SS]]] from [p] on, [n] numbers at most: the
    numbers read, and either whether the character after the last one is
    not the end of the text, or the position where a fraction is read. *)
Fixpoint parse_hh_mm_ss (b : list nat) (p_end : nat) (n : nat)
    (first has_separator : bool) (p : nat) : option (list Z * (bool + nat)) :=
  match n with
  | O => Some ([], inr p)
  | S n' =>
      '(v, p) <-? parse_digits b p 2 ;;
      let c := byte_at b p in
      let p := S p in
      let has_separator := if first then (c =? colon)%nat else has_separator in
      if (p_end <=? p)%nat then Some ([v], inl (negb (c =? 0)%nat))
      else if has_separator && (c =? colon)%nat then
        '(vs, r) <-? parse_hh_mm_ss b p_end n' false has_separator p ;;
        Some (v :: vs, r)
      else if ((c =? full_stop) || (c =? comma))%nat then Some ([v], inr p)
      else if negb has_separator then
        '(vs, r) <-? parse_hh_mm_ss b p_end n' false has_separator (p - 1) ;;
        Some (v :: vs, r)
      else None
  end.

(** A time of day or an offset between [p] and [p_end]: hours, minutes,
    seconds, microseconds (the first six digits of the fraction), and
    whether text is left over. *)
Definition parse_hh_mm_ss_ff (b : list nat) (p p_end : nat)
  : option (Z * Z * Z * Z * bool) :=
  '(vs, r) <-? parse_hh_mm_ss b p_end 3 true true p ;;
  let hh := nth 0 vs 0%Z in
  let mm := nth 1 vs 0%Z in
  let ss := nth 2 vs 0%Z in
  match r with
  | inl left_over => Some (hh, mm, ss, 0%Z, left_over)
  | inr p =>
      let to_parse := Nat.min (p_end - p) 6 in
      '(us, p) <-? parse_digits b p to_parse ;;
      let us := (us * 10 ^ Z.of_nat (6 - to_parse))%Z in
      let p := skip_digits (skipn p b) p in
      Some (hh, mm, ss, us, negb (byte_at b p =? 0)%nat)
  end.

Definition is_tz (c : nat) : bool :=
  ((c =? letter_Z) || (c =? plus_sign) || (c =? hyphen))%nat.

(** The position of the first [Z], [+] or [-] of [l], the bytes from [p]
    on; the end when there is none. *)
Fixpoint find_tz (l : list nat) (p : nat) : nat :=
  match l with
  | c :: l' => if is_tz c then p else find_tz l' (S p)
  | [] => p
  end.

Definition day_us : Z := 86400000000.

(** The time from [p] to the end: the time of day and, when there is one,
    the offset in microseconds.  An offset of zero seconds is UTC whatever
    its fraction; any other must lie strictly within a day. *)
Definition parse_isoformat_time (b : list nat) (p : nat)
  : option (Z * Z * Z * Z * option Z) :=
  let p_end := List.length b in
  let tzinfo_pos := find_tz (skipn p b) p in
  '(hh, mm, ss, us, left_over) <-? parse_hh_mm_ss_ff b p tzinfo_pos ;;
  if (tzinfo_pos =? p_end)%nat then
    _ <-? guard (negb left_over) ;; Some (hh, mm, ss, us, None)
  else if (byte_at b tzinfo_pos =? letter_Z)%nat then
    _ <-? guard (byte_at b (S tzinfo_pos) =? 0)%nat ;;
    Some (hh, mm, ss, us, Some 0%Z)
  else
    let tzsign := if (byte_at b tzinfo_pos =? hyphen)%nat then (-1)%Z else 1%Z in
    '(tzhour, tzminute, tzsecond, tzus, left_over)
      <-? parse_hh_mm_ss_ff b (S tzinfo_pos) p_end ;;
    _ <-? guard (negb left_over) ;;
    let tzoffset := (tzsign * (tzhour * 3600 + tzminute * 60 + tzsecond))%Z in
    if (tzoffset =? 0)%Z then Some (hh, mm, ss, us, Some 0%Z)
    else
      let delta := (tzoffset * 1000000 + tzsign * tzus)%Z in
      _ <-? guard ((- day_us <? delta) && (delta <? day_us))%Z ;;
      Some (hh, mm, ss, us, Some delta).

(** The bytes the character at the separator's position takes. *)
Definition separator_width (c : nat) : nat :=
  if (c <? 128)%nat then 1%nat
  else if (c / 16 =? 14)%nat then 3%nat
  else if (c / 16 =? 15)%nat then 4%nat
  else 2%nat.

(** [datetime.fromisoformat] as CPython 3.11 implements it: a date, then,
    after any one character, a time of day with an optional fraction and
    an optional offset; the fields are range-checked as the [datetime]
    constructor does.  [None] stands for [ValueError]. *)
Definition fromisoformat (s : string) : option datetime :=
  let b := bytes s in
  separator_location <-? find_isoformat_datetime_separator b ;;
  '(y, m, d) <-? parse_isoformat_date b separator_location ;;
  '(hh, mm, ss, us, tz) <-?
    (if (separator_location <? List.length b)%nat
     then parse_isoformat_time b
            (separator_location
             + separator_width (byte_at b separator_location))%nat
     else Some (0, 0, 0, 0, None)%Z) ;;
  _ <-? guard ((1 <=? y) && (y <=? 9999) && (1 <=? m) && (m <=? 12)
               && (1 <=? d) && (d <=? days_in_month y m)
               && (hh <? 24) && (mm <? 60) && (ss <? 60))%Z ;;
  Some {| year := y; month := m; day := d; hour := hh; minute := mm;
          second := ss; microsecond := us; utcoffset := tz |}.

Definition month_abbr (m : Z) : string :=
  match m with
  | 1 => "Jan" | 2 => "Feb" | 3 => "Mar" | 4 => "Apr" | 5 => "May"
  | 6 => "Jun" | 7 => "Jul" | 8 => "Aug" | 9 => "Sep" | 10 => "Oct"
  | 11 => "Nov" | 12 => "Dec" | _ => ""
  end%Z.

(** A non-negative number zero-filled to [width] digits. *)
Definition zero_filled (width : nat) (n : Z) : string :=
  let s := PyStr.of_Z n in
  PyStr.repeat_char "0" (width - length s) ++ s.

(** [dt.strftime('%d %b %Y')] in the C locale: the day zero-filled to two
    digits, the month's English abbreviation, and the year as the C
    library prints it for [%Y], a plain number with no zero-filling (99
    for the year 99). *)
Definition strftime_d_b_Y (dt : datetime) : string :=
  zero_filled 2 (day dt) ++ " " ++ month_abbr (month dt) ++ " "
    ++ PyStr.of_Z (year dt).

End Datetime.

(** The ISO-8601 parser in use, [datetime.fromisoformat]. *)
Class DateParser : Type := fromisoformat : string -> option datetime.

(** [s.replace(old, new)] for a one-character [old]. *)
Fixpoint replace_char (old : ascii) (new s : string) : string :=
  match s with
  | "" => ""
  | String c s' =>
      (if Ascii.eqb c old then new else String c "") ++ replace_char old new s'
  end.

(** [format_date]: a value that is no string has no [replace], and the bare
    [except] returns it as it came. *)
Definition format_date `{DateParser} (date_str : json) : json :=
  if negb (truthy date_str) then JStr "N/A"
  else
    match date_str with
    | JStr s =>
        match fromisoformat (replace_char "Z" "+00:00" s) with
        | Some dt => JStr (Datetime.strftime_d_b_Y dt)
        | None => date_str
        end
    | _ => date_str
    end.

(** The parser of the interpreter, [datetime.fromisoformat]. *)
Definition documented_parser : DateParser := Datetime.fromisoformat.

(** ** Keywords (lines 137 to 141) *)

(** [s.split(sep)] for a one-character separator. *)
Fixpoint split (sep : ascii) (s : string) : list string :=
  match s with
  | "" => [""]
  | String c s' =>
      if Ascii.eqb c sep then "" :: split sep s'
      else match split sep s' with
           | x :: l => String c x :: l
           | [] => [String c ""]
           end
  end.

(** [c.isspace()]. *)
Definition isspace (c : ascii) : bool :=
  let n := nat_of_ascii c in
  ((9 <=? n) && (n <=? 13) || (28 <=? n) && (n <=? 32)
   || (n =? 133) || (n =? 160))%nat.

Fixpoint lstrip (s : string) : string :=
  match s with
  | "" => ""
  | String c s' => if isspace c then lstrip s' else s
  end.

Fixpoint rstrip (s : string) : string :=
  match s with
  | "" => ""
  | String c s' =>
      match rstrip s' with
      | "" => if isspace c then "" else String c ""
      | r => String c r
      end
  end.

(** [s.strip()]. *)
Definition strip (s : string) : string := lstrip (rstrip s).

(** [[k.strip() for k in keywords.split(',') if k.strip()]]. *)
Definition split_keywords (keywords : string) : list string :=
  map strip
    (filter (fun k => negb (String.eqb (strip k) "")) (split "," keywords)).

(** [kw_list]: the split of a string, any other value as it is. *)
Definition keyword_list (keywords : json) : json :=
  match keywords with
  | JStr s => JArr (map JStr (split_keywords s))
  | _ => keywords
  end.

(** [kw_list[:20]]. *)
Definition py_slice20 (v : json) : run json :=
  match v with
  | JArr items => ret (JArr (firstn 20 items))
  | JStr s => ret (JStr (PyStr.take 20 s))
  | _ => raise (TypeError "getitem" v)
  end.

(** The items of an iterable of strings, as [str.join] requires them. *)
Fixpoint strings_of (items : list json) : exn + list string :=
  match items with
  | [] => inr []
  | JStr s :: items' =>
      match strings_of items' with
      | inr l => inr (s :: l)
      | inl e => inl e
      end
  | v :: _ => inl (TypeError "join" v)
  end.

(** [sep.join(v)]. *)
Definition py_join (sep : string) (v : json) : run string :=
  items <- py_iter v ;;
  match strings_of items with
  | inr l => ret (PyStr.join sep l)
  | inl e => raise e
  end.

(** ** The presenter (lines 85 to 152) *)

Section Presenter.

Context `{Runtime} `{DateParser}.

(** [str(v)], as an f-string formats a value. *)
Definition py_str (v : json) : string :=
  match v with
  | JNull => "None"
  | JBool true => "True"
  | JBool false => "False"
  | JInt n => PyStr.of_Z n
  | JFloat _ repr => repr
  | JStr s => s
  | JArr _ | JObj _ => container_repr v
  end.

Definition rule : string := PyStr.repeat_char "=" 60.

(** The statement [if keywords:] (lines 138 to 141). *)
Definition show_keywords (keywords : json) : run unit :=
  if truthy keywords then
    let kw_list := keyword_list keywords in
    shown <- py_slice20 kw_list ;;
    joined <- py_join ", " shown ;;
    print ("  Keywords:     " ++ joined) ;;
    count <- py_len kw_list ;;
    print ("  KW Count:     " ++ PyStr.of_Z count)
  else ret tt.

(** The body of the loop over [images] (lines 101 to 148). *)
Definition show_image (idx : Z) (img : json) : run unit :=
  title <- py_get img "title" (JStr "N/A") ;;
  is_ai <- py_get img "isAI" (JBool false) ;;
  let ai_tag := if truthy is_ai then " [AI-Generated]" else "" in
  print rule ;;
  print ("  #" ++ PyStr.of_Z idx ++ " " ++ py_str title ++ ai_tag) ;;
  print rule ;;
  stock_id <- py_get img "id" (JStr "N/A") ;;
  downloads <- py_get img "downloads" (JStr "N/A") ;;
  premium <- py_get img "premium" (JStr "N/A") ;;
  print ("  Stock ID:     " ++ py_str stock_id) ;;
  print ("  Downloads:    " ++ py_str downloads) ;;
  print ("  Premium:      " ++ py_str premium) ;;
  creator <- py_get img "creator" (JStr "N/A") ;;
  creator_id <- py_get img "creatorId" (JStr "") ;;
  media_type <- py_get img "mediaType" (JStr "N/A") ;;
  category <- py_get img "category" (JStr "N/A") ;;
  content_type <- py_get img "contentType" (JStr "N/A") ;;
  dimensions <- py_get img "dimensions" (JStr "N/A") ;;
  creation_date <- py_get img "creationDate" (JStr "") ;;
  let creator_str :=
    if truthy creator_id
    then py_str creator ++ " (ID: " ++ py_str creator_id ++ ")"
    else py_str creator in
  print ("  Creator:      " ++ creator_str) ;;
  print ("  Type:         " ++ py_str media_type
           ++ " (" ++ py_str content_type ++ ")") ;;
  print ("  Category:     " ++ py_str category) ;;
  print ("  Dimensions:   " ++ py_str dimensions) ;;
  (if truthy creation_date
   then print ("  Upload Date:  " ++ py_str (format_date creation_date))
   else ret tt) ;;
  keywords <- py_get img "keywords" (JStr "") ;;
  show_keywords keywords ;;
  thumb <- py_get img "thumbnailUrl" (JStr "N/A") ;;
  print ("  Thumbnail:    " ++ py_str thumb) ;;
  print ("  Stock URL:    https://stock.adobe.com/" ++ py_str stock_id) ;;
  print "".

(** [for idx, img in enumerate(images, 1)], from the index [idx] on. *)
Fixpoint show_images (idx : Z) (images : list json) : run unit :=
  match images with
  | [] => ret tt
  | img :: images' => show_image idx img ;; show_images (idx + 1) images'
  end.

(** The em dash of the summary line (U+2014, the one character of the
    program beyond U+00FF), written as the bytes of its UTF-8 encoding. *)
Definition em_dash : string := String "226" (String "128" (String "148" "")).

(** The summary line and, with [--raw], the dump of the first image
    (lines 88 to 98). *)
Definition show_summary (page : Z) (raw : bool) (data images usage : json)
  : run unit :=
  found <- py_len images ;;
  plan <- py_get usage "plan" (JStr "N/A") ;;
  searches_used <- py_get usage "searchesUsed" (JStr "?") ;;
  searches_limit <- py_get usage "searchesLimit" (JStr "?") ;;
  print ("Page " ++ PyStr.of_Z page ++ " " ++ em_dash ++ " Found "
           ++ PyStr.of_Z found ++ " results (Plan: " ++ py_str plan
           ++ ", Searches: " ++ py_str searches_used ++ "/"
           ++ py_str searches_limit ++ ")" ++ PyStr.nl) ;;
  if raw && truthy images then
    print rule ;;
    print "RAW JSON - First Image (all available fields):" ;;
    print rule ;;
    first <- py_first images ;;
    print (json_dumps_indent2 first) ;;
    print rule ;;
    keys <- py_iter data ;;
    print (PyStr.nl ++ "Top-level data keys: " ++ container_repr (JArr keys)) ;;
    print ""
  else ret tt.

(** The branch [if data:] (lines 86 to 148). *)
Definition show_results (page : Z) (raw : bool) (data : json) : run unit :=
  images <- py_get data "images" (JArr []) ;;
  usage <- py_get data "usageData" (JObj []) ;;
  show_summary page raw data images usage ;;
  items <- py_iter images ;;
  show_images 1 items.

(** The branch [else:] (lines 150 to 152). *)
Definition show_preview (content : string) : run unit :=
  print "Could not find image data in the response. The RSC format might have changed." ;;
  print (PyStr.nl ++ "Response Preview (first 3000 chars):") ;;
  print (PyStr.take 3000 content).

(** Lines 68 to 83: [data] stays [None] unless the scan closes the object
    and [json.loads] accepts its text. *)
Definition decode (content : string) : run json :=
  match extract_json_str content with
  | Some json_str =>
      match json_loads json_str with
      | inr data => ret data
      | inl msg => raise (JSONDecodeError msg)
      end
  | None => ret JNull
  end.

(** The body of [try:] (lines 62 to 152). *)
Definition try_body (net : network) (url : string) (page : Z) (raw : bool)
  : run unit :=
  response <- client_get net url ;;
  raise_for_status response ;;
  let content := response_text response in
  data <- decode content ;;
  if truthy data then show_results page raw data else show_preview content.

(** The [except] clauses (lines 154 to 158). *)
Definition handler (e : exn) : option (run unit) :=
  match e with
  | HTTPStatusError status_code text =>
      Some (print ("HTTP Error: " ++ PyStr.of_Z status_code) ;;
            print ("Response: " ++ PyStr.take 1000 text))
  | _ => Some (print ("An error occurred: " ++ exn_str e))
  end.

Definition search_adobe_stock (net : network) (query : string) (page : Z)
    (ai_only raw : bool) : run unit :=
  print ("Searching for: " ++ query ++ " (Page " ++ PyStr.of_Z page ++ ")...") ;;
  emit (ClientOpen true 30) ;;
  let url := build_url query page ai_only in
  try_except_finally (try_body net url page raw) handler (emit ClientClose).

End Presenter.

(** The fields of a dict without the key [key]. *)
Definition dict_remove (key : string) (fields : list (string * json))
  : list (string * json) :=
  filter (fun kv => negb (String.eqb (fst kv) key)) fields.

(** ** What the specification says of the data *)

(** A keyword with no surrounding white space that is not empty. *)
Definition trimmed_nonempty (k : string) : Prop := k <> "" /\ strip k = k.

(** The keywords of the data model: one string, or a sequence of strings. *)
Inductive keywords_input : json -> Prop :=
| keywords_string (s : string) : keywords_input (JStr s)
| keywords_sequence (l : list string) : keywords_input (JArr (map JStr l)).

(** A value that is a sequence of trimmed, non-empty strings. *)
Definition normalized_keywords (v : json) : Prop :=
  exists l, v = JArr (map JStr l) /\ Forall trimmed_nonempty l.

(** An image record with every field read: the value of the source object
    where it has the field, the default of that field where it has not. *)
Module Img.

Record t : Type := {
  title : json; isAI : json; id : json; downloads : json; premium : json;
  creator : json; creatorId : json; mediaType : json; category : json;
  contentType : json; dimensions : json; creationDate : json;
  keywords : json; thumbnailUrl : json
}.

(** The defaults: the string [N/A], the boolean false, the empty string. *)
Definition defaults : t := {|
  title := JStr "N/A"; isAI := JBool false; id := JStr "N/A";
  downloads := JStr "N/A"; premium := JStr "N/A"; creator := JStr "N/A";
  creatorId := JStr ""; mediaType := JStr "N/A"; category := JStr "N/A";
  contentType := JStr "N/A"; dimensions := JStr "N/A"; creationDate := JStr "";
  keywords := JStr ""; thumbnailUrl := JStr "N/A"
|}.

(** Each field is read on its own, with its own default. *)
Definition read (fields : list (string * json)) : t := {|
  title := dict_get fields "title" (title defaults);
  isAI := dict_get fields "isAI" (isAI defaults);
  id := dict_get fields "id" (id defaults);
  downloads := dict_get fields "downloads" (downloads defaults);
  premium := dict_get fields "premium" (premium defaults);
  creator := dict_get fields "creator" (creator defaults);
  creatorId := dict_get fields "creatorId" (creatorId defaults);
  mediaType := dict_get fields "mediaType" (mediaType defaults);
  category := dict_get fields "category" (category defaults);
  contentType := dict_get fields "contentType" (contentType defaults);
  dimensions := dict_get fields "dimensions" (dimensions defaults);
  creationDate := dict_get fields "creationDate" (creationDate defaults);
  keywords := dict_get fields "keywords" (keywords defaults);
  thumbnailUrl := dict_get fields "thumbnailUrl" (thumbnailUrl defaults)
|}.

(** The keywords are absent or empty, a string, or a sequence of strings. *)
Definition keywords_typed (r : t) : Prop :=
  truthy (keywords r) = false \/ keywords_input (keywords r).

End Img.

(** An image of the data model: an object whose keywords are typed. *)
Definition image_object (img : json) : Prop :=
  exists fields, img = JObj fields /\ Img.keywords_typed (Img.read fields).

Section Presentation.

Context `{Runtime} `{DateParser}.

(** The lines of one record, from its fields. *)
Definition present_image (idx : Z) (r : Img.t) : list event :=
  [ Print rule;
    Print ("  #" ++ PyStr.of_Z idx ++ " " ++ py_str (Img.title r)
             ++ (if truthy (Img.isAI r) then " [AI-Generated]" else ""));
    Print rule;
    Print ("  Stock ID:     " ++ py_str (Img.id r));
    Print ("  Downloads:    " ++ py_str (Img.downloads r));
    Print ("  Premium:      " ++ py_str (Img.premium r));
    Print ("  Creator:      "
             ++ (if truthy (Img.creatorId r)
                 then py_str (Img.creator r) ++ " (ID: "
                        ++ py_str (Img.creatorId r) ++ ")"
                 else py_str (Img.creator r)));
    Print ("  Type:         " ++ py_str (Img.mediaType r)
             ++ " (" ++ py_str (Img.contentType r) ++ ")");
    Print ("  Category:     " ++ py_str (Img.category r));
    Print ("  Dimensions:   " ++ py_str (Img.dimensions r)) ]
  ++ (if truthy (Img.creationDate r)
      then [Print ("  Upload Date:  " ++ py_str (format_date (Img.creationDate r)))]
      else [])
  ++ fst (show_keywords (Img.keywords r))
  ++ [ Print ("  Thumbnail:    " ++ py_str (Img.thumbnailUrl r));
       Print ("  Stock URL:    https://stock.adobe.com/" ++ py_str (Img.id r));
       Print "" ].

(** The records presented for [images], numbered from [idx], in order. *)
Fixpoint present_images (idx : Z) (images : list json) : list (list event) :=
  match images with
  | [] => []
  | img :: images' =>
      fst (show_image idx img) :: present_images (idx + 1) images'
  end.

End Presentation.

(** [f] holds of the [n] integers from [from] on. *)
Fixpoint holds_upto (f : Z -> bool) (n : nat) (from : Z) : bool :=
  match n with
  | O => true
  | S n' => f from && holds_upto f n' (from + 1)%Z
  end.

(** The characters other than the separator of URL parameters. *)
Definition not_amp (c : ascii) : bool := negb (Ascii.eqb c "&").

(** ** Sample data for the examples *)

(** A runtime whose JSON parser accepts nothing. *)
Definition sample_runtime : Runtime := {|
  json_loads := fun _ => inl "Expecting value";
  json_dumps_indent2 := fun _ => "{}";
  container_repr := fun _ => "[]";
  exn_str := fun e =>
    match e with
    | RequestError msg | JSONDecodeError msg => msg
    | _ => "error"
    end
|}.

(** A network that answers every request with [r]. *)
Definition answering (r : reply) : network := fun _ => r.

Definition sample_pre : string := "1:I[noise] 2:".

Definition sample_inner : string :=
  let q := PyStr.dq in
  q ++ "query" ++ q ++ ":" ++ q ++ "cats" ++ q ++ "," ++ q ++ "images" ++ q
    ++ ":[{" ++ q ++ "id" ++ q ++ ":" ++ q ++ "1" ++ q ++ "}]".

Definition sample_post : string := " 3:trailing}".

(** A body whose object is never closed. *)
Definition sample_unclosed : string :=
  "0:" ++ marker ++ "cats" ++ PyStr.dq ++ "," ++ PyStr.dq ++ "images"
    ++ PyStr.dq ++ ":[{".

(** ** Observations on traces *)

Definition is_print (e : event) : bool :=
  match e with Print _ => true | _ => false end.

(** A computation that does nothing but print. *)
Definition prints_only {A} (m : run A) : Prop :=
  Forall (fun e => is_print e = true) (fst m).

Definition is_str (v : json) : bool :=
  match v with JStr _ => true | _ => false end.

Definition is_obj (v : json) : bool :=
  match v with JObj _ => true | _ => false end.

(** A payload with two images. *)
Definition sample_images : list json :=
  [ JObj [("id", JStr "1"); ("title", JStr "Cat")];
    JObj [("id", JStr "2"); ("keywords", JStr "a, b ,c")] ].

Definition sample_payload : list (string * json) :=
  [("query", JStr "cats"); ("images", JArr sample_images)].

Definition sample_body : string :=
  sample_pre ++ ("{" ++ sample_inner ++ "}") ++ sample_post.

(** The keywords values the presenter can show: those that test false,
    strings, and lists whose first 20 items are strings. *)
Definition keywords_ok (v : json) : bool :=
  negb (truthy v)
  || match v with
     | JStr _ => true
     | JArr items => forallb is_str (firstn 20 items)
     | _ => false
     end.

(** ** The command line (lines 162 to 182) *)

(** [int(s)]: the integer the text denotes, [None] where [int] raises
    [ValueError]. *)
Class IntParser : Type := py_int : string -> option Z.

(** [a in ('--raw', '--ai-only')]. *)
Definition is_flag (a : string) : bool :=
  String.eqb a "--raw" || String.eqb a "--ai-only".

(** The loop [while i < len(args)] over [args[i:]], with [page] and
    [clean_args] as they stand; [inl v] when [int(v)] raises. *)
Fixpoint parse_loop `{IntParser} (args : list string) (page : Z)
    (clean_args : list string) : string + (Z * list string) :=
  match args with
  | [] => inr (page, clean_args)
  | a :: rest =>
      match String.eqb a "--page", rest with
      | true, v :: rest' =>
          match py_int v with
          | Some n => parse_loop rest' n clean_args
          | None => inl v
          end
      | _, _ =>
          if is_flag a then parse_loop rest page clean_args
          else parse_loop rest page (clean_args ++ [a])
      end
  end.

(** Lines 163 to 181: the arguments of [search_adobe_stock], as query,
    page, [ai_only] and [raw], from [sys.argv]. *)
Definition parse_args `{IntParser} (argv : list string)
  : string + (string * Z * bool * bool) :=
  let raw := existsb (String.eqb "--raw") argv in
  let ai_only := existsb (String.eqb "--ai-only") argv in
  match parse_loop (tl argv) 1 [] with
  | inl v => inl v
  | inr (page, clean_args) =>
      let query := match clean_args with q :: _ => q | [] => "nature" end in
      inr (query, page, ai_only, raw)
  end.

(** What ends the program other than its last line. *)
Inductive uncaught : Type :=
| InvalidLiteral (text : string)          (* [ValueError] of [int(text)] *)
| Escaped (e : exn).

(** The block [if __name__ == "__main__":]. *)
Definition main `{Runtime} `{DateParser} `{IntParser} (net : network)
    (argv : list string) : list event * (uncaught + unit) :=
  match parse_args argv with
  | inl v => ([], inl (InvalidLiteral v))
  | inr (query, page, ai_only, raw) =>
      let (out, r) := search_adobe_stock net query page ai_only raw in
      (out, match r with inl e => inl (Escaped e) | inr tt => inr tt end)
  end.

(** The arguments that are no flag. *)
Definition positionals (args : list string) : list string :=
  filter (fun a => negb (is_flag a)) args.

(** [int] on plain decimal numerals, for the examples. *)
Definition decimal_int : IntParser :=
  fun s => match s with
           | "" => None
           | _ => Datetime.digits s 0
           end.

(** ** Reading an encoded query back *)

Module Unquote.

(** The value of a hexadecimal digit. *)
Definition hex_value (c : ascii) : option nat :=
  let n := nat_of_ascii c in
  if ((48 <=? n) && (n <=? 57))%nat then Some (n - 48)
  else if ((65 <=? n) && (n <=? 70))%nat then Some (n - 55)
  else None.

(** The byte written [%XY] at the head of [s], and what follows it. *)
Definition byte (s : string) : option (nat * string) :=
  match s with
  | String "%" (String x (String y r)) =>
      match hex_value x, hex_value y with
      | Some h, Some l => Some (16 * h + l, r)
      | _, _ => None
      end
  | _ => None
  end.

(** The character encoded at the head of [s], and what follows it. *)
Definition first (s : string) : option (ascii * string) :=
  match s with
  | "" => None
  | String "+" r => Some (" "%char, r)
  | String "%" _ =>
      match byte s with
      | Some (b, r) =>
          if (b <? 128)%nat then Some (ascii_of_nat b, r)
          else match byte r with
               | Some (b', r') =>
                   Some (ascii_of_nat ((b - 192) * 64 + (b' - 128)), r')
               | None => None
               end
      | None => None
      end
  | String c r => Some (c, r)
  end.

(** The text decoded character by character, at most [n] of them. *)
Fixpoint decode (n : nat) (s : string) : option string :=
  match n, first s with
  | S n', Some (c, r) =>
      match decode n' r with
      | Some t => Some (String c t)
      | None => None
      end
  | _, _ => match s with "" => Some "" | _ => None end
  end.

(** [urllib.parse.unquote_plus] on the text of an encoded query; [None]
    for a text that is no encoding. *)
Definition unquote_plus (s : string) : option string := decode (length s) s.

End Unquote.

(** [int] of the text [str] gives for an integer. *)
Definition read_Z (s : string) : option Z :=
  option_map Z.of_int (NilZero.int_of_string s).

(** The page a URL asks for: the page given when above 1, else the first. *)
Definition effective_page (page : Z) : Z := if (page >? 1)%Z then page else 1%Z.

(** The characters other than the comma. *)
Definition not_comma (c : ascii) : bool := negb (Ascii.eqb c ",").

(** * The prompt splitter (scripts/split-prompts-into-jsons.py) *)

Module SplitPrompts.

(** What ends the program early: [sys.exit(code)], an exception of the
    operating system or of the JSON parser (by its text), or the
    [AttributeError] of [metadata.get] on a value that is no dict. *)
Inductive failure : Type :=
| SystemExit (code : Z)
| Raised (text : string)
| NoGet (v : json).

(** What the program does to the outside, in program order. *)
Inductive action : Type :=
| Out (line : string)                     (* [print(line)] *)
| Err (line : string)                     (* [print(line, file=sys.stderr)] *)
| Ask (prompt : string)                   (* [input(prompt)] *)
| MakeDirs (path : string)                (* [mkdir(parents=True, exist_ok=True)] *)
| ReadJson (path : string)                (* [open(path)] and [json.load] *)
| WriteJson (path : string) (item : json) (* [open(path, "w")] and [json.dump] *).

(** The outside: paths (each by the text [str] gives for it), the file
    system and the user. *)
Class World : Type := {
  Path : string -> string;
  joinpath : string -> string -> string;
  home : string;
  platform : string;
  exists_ : string -> bool;
  input : string + string;                (* [inl]: the text of the exception *)
  mkdir : string -> option string;        (* the text of the exception, if any *)
  load : string -> string + json;
  open_w : string -> option string
}.

Definition act (A : Type) : Type := (list action * (failure + A))%type.

Definition done {A} (a : A) : act A := ([], inr a).

Definition fail {A} (f : failure) : act A := ([], inl f).

Definition perform (a : action) : act unit := ([a], inr tt).

Definition andthen {A B} (m : act A) (k : A -> act B) : act B :=
  match m with
  | (out, inl f) => (out, inl f)
  | (out, inr a) => let (out', r) := k a in ((out ++ out')%list, r)
  end.

Declare Scope act_scope.
Delimit Scope act_scope with act.
Notation "x <~ m ;; k" := (andthen m (fun x => k))
  (at level 61, m at next level, right associativity) : act_scope.
Notation "m ;;; k" := (andthen m (fun _ => k))
  (at level 61, right associativity) : act_scope.
Local Open Scope act_scope.

(** [s.zfill(width)]: zeros are put after a leading sign. *)
Definition zfill (width : nat) (s : string) : string :=
  let zeros := PyStr.repeat_char "0" (width - length s) in
  match s with
  | String c r =>
      if Ascii.eqb c "+" || Ascii.eqb c "-" then String c (zeros ++ r)
      else zeros ++ s
  | "" => zeros
  end.

Section Program.

Context `{Runtime} `{World}.

Definition default_source_path : string :=
  let downloads :=
    if String.eqb platform "win32" then joinpath home "Downloads"
    else joinpath home "Downloads" in
  joinpath downloads "nano-banana-pro-prompts-valentines-day.json".

(** Lines 57 to 63: the name of the file of the item at index [i]. *)
Definition file_name (i : Z) (fields : list (string * json))
  : act string :=
  let metadata := dict_get fields "metadata" JNull in
  let metadata := if truthy metadata then metadata else JObj [] in
  match metadata with
  | JObj mfields =>
      let scene_number := dict_get mfields "scene_number" JNull in
      let scene_number :=
        match scene_number with
        | JNull => zfill 2 (PyStr.of_Z (i + 1))
        | v => zfill 2 (py_str v)
        end in
      done ("valentines-prompt-" ++ scene_number ++ ".json")
  | v => fail (NoGet v)
  end.

(** The body of the loop (lines 54 to 66). *)
Definition write_item (output_dir : string) (i : Z) (item : json) : act unit :=
  match item with
  | JObj fields =>
      filename <~ file_name i fields ;;
      let out_path := joinpath output_dir filename in
      match open_w out_path with
      | Some text => fail (Raised text)
      | None => perform (WriteJson out_path item)
      end
  | _ =>
      perform (Err ("Warning: Skipping non-object at index "
                      ++ PyStr.of_Z i ++ "."))
  end.

(** [for i, item in enumerate(data)], from the index [i] on. *)
Fixpoint write_items (output_dir : string) (i : Z) (data : list json)
  : act unit :=
  match data with
  | [] => done tt
  | item :: data' =>
      write_item output_dir i item ;;; write_items output_dir (i + 1) data'
  end.

Definition exit_with (line : string) : act unit :=
  perform (Err line) ;;; fail (SystemExit 1).

(** Lines 26 to 29: the first argument, or the default path. *)
Definition chosen_source (argv : list string) : string :=
  match argv with
  | _ :: a :: _ => Path a
  | _ => default_source_path
  end.

Definition main (argv : list string) : act unit :=
  let source_path := chosen_source argv in
  (if exists_ source_path then done tt
   else exit_with ("Error: Source file not found: " ++ source_path)) ;;;
  perform (Ask "Enter output folder path: ") ;;;
  line <~ match input with
          | inl text => fail (Raised text)
          | inr line => done line
          end ;;
  let output_dir_input := strip line in
  (if String.eqb output_dir_input ""
   then exit_with "Error: Output folder path is required."
   else done tt) ;;;
  let output_dir := Path output_dir_input in
  perform (MakeDirs output_dir) ;;;
  match mkdir output_dir with Some text => fail (Raised text) | None => done tt end ;;;
  perform (ReadJson source_path) ;;;
  data <~ match load source_path with
          | inl text => fail (Raised text)
          | inr data => done data
          end ;;
  match data with
  | JArr items =>
      write_items output_dir 0 items ;;;
      perform (Out ("Wrote " ++ PyStr.of_Z (Z.of_nat (List.length items))
                      ++ " files to " ++ output_dir))
  | _ => exit_with "Error: Source JSON must be an array of prompt objects."
  end.

End Program.

(** The files written, in order. *)
Definition written (out : list action) : list (string * json) :=
  flat_map (fun a => match a with WriteJson p item => [(p, item)] | _ => [] end)
    out.

(** The entries that are written: the objects. *)
Definition objects (data : list json) : list json := filter is_obj data.

(** Fields whose metadata give no scene number: the metadata are absent
    or test false, or are an object with no [scene_number] or a null one. *)
Definition unnumbered (fields : list (string * json)) : bool :=
  let metadata := dict_get fields "metadata" JNull in
  if truthy metadata then
    match metadata with
    | JObj mfields =>
        match dict_get mfields "scene_number" JNull with
        | JNull => true
        | _ => false
        end
    | _ => false
    end
  else true.

(** An object whose metadata are absent, test false, or are an object. *)
Definition plain_metadata (item : json) : bool :=
  match item with
  | JObj fields =>
      let metadata := dict_get fields "metadata" JNull in
      negb (truthy metadata) || is_obj metadata
  | _ => true
  end.

(** A world for the examples: paths as typed, joined with a slash; the
    source exists and holds [data]; the user types [answer]. *)
Definition sample_world (data : json) (answer : string) : World := {|
  Path := fun s => s;
  joinpath := fun p name => p ++ "/" ++ name;
  home := "/home/user";
  platform := "linux";
  exists_ := fun _ => true;
  input := inr answer;
  mkdir := fun _ => None;
  load := fun _ => inr data;
  open_w := fun _ => None
|}.

End SplitPrompts.

(** ** What the specification says of dates *)

Definition is_digit_char (c : ascii) : bool :=
  let n := nat_of_ascii c in ((48 <=? n) && (n <=? 57))%nat.

Definition is_upper_char (c : ascii) : bool :=
  let n := nat_of_ascii c in ((65 <=? n) && (n <=? 90))%nat.

Definition is_lower_char (c : ascii) : bool :=
  let n := nat_of_ascii c in ((97 <=? n) && (n <=? 122))%nat.

(** The format [DD Mon YYYY]: two digits, a space, a capital and two small
    letters, a space, four digits. *)
Definition dd_Mon_YYYY (s : string) : bool :=
  (length s =? 11)%nat
  && PyStr.all_chars is_digit_char (PyStr.slice 0 2 s)
  && String.eqb (PyStr.slice 2 3 s) " "
  && PyStr.all_chars is_upper_char (PyStr.slice 3 4 s)
  && PyStr.all_chars is_lower_char (PyStr.slice 4 6 s)
  && String.eqb (PyStr.slice 6 7 s) " "
  && PyStr.all_chars is_digit_char (PyStr.slice 7 11 s).

(** The text [YYYY-MM-DD] of a date, each number zero-filled. *)
Definition iso_date (y m d : Z) : string :=
  Datetime.zero_filled 4 y ++ "-" ++ Datetime.zero_filled 2 m ++ "-"
    ++ Datetime.zero_filled 2 d.

(** The dates of the calendar the interpreter knows. *)
Definition valid_date (y m d : Z) : Prop :=
  (1 <= y <= 9999 /\ 1 <= m <= 12 /\ 1 <= d <= Datetime.days_in_month y m)%Z.

Definition option_Z_eqb (a : option Z) (z : Z) : bool :=
  match a with Some x => (x =? z)%Z | None => false end.

(** ** What the specification says of a record *)

(** An optional field: [v] is the object's value for [key], or the
    default when the object has no such key. *)
Definition reads (fields : list (string * json)) (key : string)
    (default v : json) : Prop :=
  In (key, v) fields \/ (~ In key (map fst fields) /\ v = default).

(** [r] is the record of the object [fields]: each field read on its own,
    with its documented default. *)
Definition record_of (fields : list (string * json)) (r : Img.t) : Prop :=
  reads fields "title" (JStr "N/A") (Img.title r)
  /\ reads fields "isAI" (JBool false) (Img.isAI r)
  /\ reads fields "id" (JStr "N/A") (Img.id r)
  /\ reads fields "downloads" (JStr "N/A") (Img.downloads r)
  /\ reads fields "premium" (JStr "N/A") (Img.premium r)
  /\ reads fields "creator" (JStr "N/A") (Img.creator r)
  /\ reads fields "creatorId" (JStr "") (Img.creatorId r)
  /\ reads fields "mediaType" (JStr "N/A") (Img.mediaType r)
  /\ reads fields "category" (JStr "N/A") (Img.category r)
  /\ reads fields "contentType" (JStr "N/A") (Img.contentType r)
  /\ reads fields "dimensions" (JStr "N/A") (Img.dimensions r)
  /\ reads fields "creationDate" (JStr "") (Img.creationDate r)
  /\ reads fields "keywords" (JStr "") (Img.keywords r)
  /\ reads fields "thumbnailUrl" (JStr "N/A") (Img.thumbnailUrl r).

(** The objects whose keywords are typed. *)
Definition typed_object (fields : list (string * json)) : Prop :=
  Img.keywords_typed (Img.read fields).

(** The keywords of a record as a sequence: the trimmed, non-empty pieces
    of a string, the strings of a sequence. *)
Definition keywords_of (keywords : json) : list string :=
  match keywords with
  | JStr s => split_keywords s
  | JArr items =>
      flat_map (fun v => match v with JStr k => [k] | _ => [] end) items
  | _ => []
  end.

(** The two keywords lines of a record: the first 20 keywords, and the
    count of them all; none when the keywords are empty. *)
Definition keyword_lines (keywords : json) : list event :=
  if truthy keywords then
    [ Print ("  Keywords:     "
               ++ PyStr.join ", " (firstn 20 (keywords_of keywords)));
      Print ("  KW Count:     "
               ++ PyStr.of_Z (Z.of_nat (List.length (keywords_of keywords)))) ]
  else [].

(** The values [len] accepts. *)
Definition has_len (v : json) : bool :=
  match v with
  | JStr _ | JArr _ | JObj _ => true
  | _ => false
  end.

Section Report.

Context `{Runtime} `{DateParser}.

(** The printed lines of record number [idx]. *)
Definition record_lines (idx : Z) (r : Img.t) : list event :=
  [ Print "============================================================";
    Print ("  #" ++ PyStr.of_Z idx ++ " " ++ py_str (Img.title r)
             ++ (if truthy (Img.isAI r) then " [AI-Generated]" else ""));
    Print "============================================================";
    Print ("  Stock ID:     " ++ py_str (Img.id r));
    Print ("  Downloads:    " ++ py_str (Img.downloads r));
    Print ("  Premium:      " ++ py_str (Img.premium r));
    Print ("  Creator:      " ++ py_str (Img.creator r)
             ++ (if truthy (Img.creatorId r)
                 then " (ID: " ++ py_str (Img.creatorId r) ++ ")"
                 else ""));
    Print ("  Type:         " ++ py_str (Img.mediaType r)
             ++ " (" ++ py_str (Img.contentType r) ++ ")");
    Print ("  Category:     " ++ py_str (Img.category r));
    Print ("  Dimensions:   " ++ py_str (Img.dimensions r)) ]
  ++ (if truthy (Img.creationDate r)
      then [Print ("  Upload Date:  "
                     ++ py_str (format_date (Img.creationDate r)))]
      else [])
  ++ keyword_lines (Img.keywords r)
  ++ [ Print ("  Thumbnail:    " ++ py_str (Img.thumbnailUrl r));
       Print ("  Stock URL:    https://stock.adobe.com/" ++ py_str (Img.id r));
       Print "" ].

(** The records of the objects [records], numbered from [idx], in the
    order of the list. *)
Fixpoint record_blocks (idx : Z) (records : list (list (string * json)))
  : list (list event) :=
  match records with
  | [] => []
  | fields :: records' =>
      record_lines idx (Img.read fields) :: record_blocks (idx + 1) records'
  end.

(** The summary line and, in raw mode with at least one record, the dump
    of the first record and of the payload's keys. *)
Definition summary_lines (page : Z) (raw : bool)
    (dfields : list (string * json)) (records : list (list (string * json)))
    (plan searches_used searches_limit : json) : list event :=
  Print ("Page " ++ PyStr.of_Z page ++ " " ++ em_dash ++ " Found "
           ++ PyStr.of_Z (Z.of_nat (List.length records))
           ++ " results (Plan: " ++ py_str plan ++ ", Searches: "
           ++ py_str searches_used ++ "/" ++ py_str searches_limit ++ ")"
           ++ PyStr.nl)
  :: match records with
     | first :: _ =>
         if raw then
           [ Print "============================================================";
             Print "RAW JSON - First Image (all available fields):";
             Print "============================================================";
             Print (json_dumps_indent2 (JObj first));
             Print "============================================================";
             Print (PyStr.nl ++ "Top-level data keys: "
                      ++ container_repr
                           (JArr (map (fun kv => JStr (fst kv)) dfields)));
             Print "" ]
         else []
     | [] => []
     end.

End Report.

(** ** The example of the specification *)

(** The object of the end-to-end example, its text, and a body around it. *)
Definition example_payload : list (string * json) :=
  [ ("query", JStr "cats");
    ("images", JArr [JObj [("id", JStr "1"); ("title", JStr "Cat")]]);
    ("usageData",
     JObj [("plan", JStr "free"); ("searchesUsed", JInt 1);
           ("searchesLimit", JInt 10)]) ].

Definition example_text : string :=
  let q := PyStr.dq in
  "{" ++ q ++ "query" ++ q ++ ":" ++ q ++ "cats" ++ q ++ ","
    ++ q ++ "images" ++ q ++ ":[{" ++ q ++ "id" ++ q ++ ":" ++ q ++ "1" ++ q
    ++ "," ++ q ++ "title" ++ q ++ ":" ++ q ++ "Cat" ++ q ++ "}],"
    ++ q ++ "usageData" ++ q ++ ":{" ++ q ++ "plan" ++ q ++ ":" ++ q ++ "free"
    ++ q ++ "," ++ q ++ "searchesUsed" ++ q ++ ":1," ++ q ++ "searchesLimit"
    ++ q ++ ":10}}".

Definition example_body : string := "noise..." ++ example_text ++ "...trailing".

(** A runtime whose JSON parser reads the text of the example. *)
Definition example_runtime : Runtime := {|
  json_loads := fun s =>
    if String.eqb s example_text then inr (JObj example_payload)
    else inl "Expecting value";
  json_dumps_indent2 := fun _ => "{}";
  container_repr := fun _ => "[]";
  exn_str := fun e =>
    match e with
    | RequestError msg | JSONDecodeError msg => msg
    | _ => "error"
    end
|}.

(** An image object with every field of the data model. *)
Definition example_image : list (string * json) :=
  [ ("id", JInt 123); ("title", JStr "Cat"); ("isAI", JBool true);
    ("downloads", JInt 42); ("premium", JBool false);
    ("creator", JStr "Ann"); ("creatorId", JInt 7);
    ("mediaType", JStr "photo"); ("category", JStr "Animals");
    ("contentType", JStr "image/jpeg"); ("dimensions", JStr "4000x3000");
    ("creationDate", JStr "2024-01-05T00:00:00Z");
    ("keywords", JStr "a, b ,c"); ("thumbnailUrl", JStr "https://t/1.jpg") ].

(** * Properties *)

(** ** Strings *)

Lemma append_nil_r (s : string) : s ++ "" = s.
Proof. induction s as [|c s IH]; simpl; [reflexivity | now rewrite IH]. Qed.

Lemma append_assoc (a b c : string) : (a ++ b) ++ c = a ++ (b ++ c).
Proof. induction a as [|x a IH]; simpl; [reflexivity | now rewrite IH]. Qed.

Lemma length_append (a b : string) : length (a ++ b) = length a + length b.
Proof. induction a as [|x a IH]; simpl; [reflexivity | now rewrite IH]. Qed.

Lemma drop_append (a b : string) : PyStr.drop (length a) (a ++ b) = b.
Proof. induction a as [|x a IH]; simpl; [now destruct b | exact IH]. Qed.

Lemma take_append (a b : string) : PyStr.take (length a) (a ++ b) = a.
Proof. induction a as [|x a IH]; simpl; [now destruct b | now rewrite IH]. Qed.

Lemma take_append_le (n : nat) (a b : string) :
  n <= length a -> PyStr.take n (a ++ b) = PyStr.take n a.
Proof.
  revert n; induction a as [|x a IH]; intros [|n] Hn; simpl in *;
    try reflexivity; try lia.
  now rewrite IH by lia.
Qed.

Lemma take_append_ge (n : nat) (a b : string) :
  length a <= n -> PyStr.take n (a ++ b) = a ++ PyStr.take (n - length a) b.
Proof.
  revert n; induction a as [|x a IH]; intros n Hn; simpl in *.
  - now rewrite Nat.sub_0_r.
  - destruct n as [|n]; [lia|]. simpl. now rewrite IH by lia.
Qed.

Lemma take_zero (s : string) : PyStr.take 0 s = "".
Proof. now destruct s. Qed.

Lemma startswith_append (sub rest : string) :
  PyStr.startswith sub (sub ++ rest) = true.
Proof.
  induction sub as [|c sub IH]; simpl; [reflexivity|].
  now rewrite Ascii.eqb_refl, IH.
Qed.

Lemma startswith_append_r (sub s rest : string) :
  PyStr.startswith sub s = true -> PyStr.startswith sub (s ++ rest) = true.
Proof.
  revert s; induction sub as [|c sub IH]; intros [|x s]; simpl; try easy.
  intros [-> Hs]%andb_prop. now rewrite IH.
Qed.

(** ** The stream decoder *)

Lemma brace_depth_append (a b : string) :
  brace_depth (a ++ b) = (brace_depth a + brace_depth b)%Z.
Proof. induction a as [|x a IH]; simpl; [reflexivity | rewrite IH; lia]. Qed.

Lemma Balanced_append (a b : string) :
  Balanced a -> Balanced b -> Balanced (a ++ b).
Proof.
  intros Ha Hb; induction Ha as [|c s Hc1 Hc2 _ IH|s1 s2 Hs1 _ _ IH2]; simpl.
  - exact Hb.
  - now apply Balanced_char.
  - replace (String "{" ((s1 ++ String "}" s2) ++ b))
      with ("{" ++ s1 ++ "}" ++ (s2 ++ b)).
    + now apply Balanced_nest.
    + simpl. now rewrite append_assoc.
Qed.

(** Balanced text leaves the depth where it was, whatever follows. *)
Lemma scan_balanced (s : string) :
  Balanced s ->
  forall (rest : string) (i : nat) (depth : Z),
    (0 < depth)%Z -> scan (s ++ rest) i depth = scan rest (i + length s) depth.
Proof.
  induction 1 as [|c s Hc1 Hc2 _ IH|s1 s2 _ IH1 _ IH2]; intros rest i depth Hd.
  - simpl. now rewrite Nat.add_0_r.
  - simpl. apply Ascii.eqb_neq in Hc1, Hc2. rewrite Hc1, Hc2, IH by assumption.
    f_equal; lia.
  - replace (("{" ++ s1 ++ "}" ++ s2) ++ rest)
      with (String "{" (s1 ++ String "}" (s2 ++ rest)))
      by (simpl; rewrite append_assoc; reflexivity).
    cbn [scan]. rewrite Ascii.eqb_refl, IH1 by lia.
    cbn [scan]. replace (Ascii.eqb "}" "{") with false by reflexivity.
    rewrite Ascii.eqb_refl.
    replace (depth + 1 - 1 =? 0)%Z with false by (symmetry; apply Z.eqb_neq; lia).
    replace (depth + 1 - 1)%Z with depth by lia.
    rewrite IH2 by assumption. f_equal. simpl. rewrite length_append. simpl. lia.
Qed.

(** No prefix of balanced text closes more braces than it opened. *)
Lemma Balanced_prefix_depth (s : string) :
  Balanced s ->
  brace_depth s = 0%Z /\ forall n, (0 <= brace_depth (PyStr.take n s))%Z.
Proof.
  induction 1 as [|c s Hc1 Hc2 _ [IHd IHp]|s1 s2 _ [IHd1 IHp1] _ [IHd2 IHp2]].
  - split; [reflexivity | intros [|n]; simpl; lia].
  - apply Ascii.eqb_neq in Hc1, Hc2. split.
    + simpl. rewrite Hc1, Hc2. lia.
    + intros [|n]; simpl; [lia|]. rewrite Hc1, Hc2. specialize (IHp n). lia.
  - split.
    + change ("{" ++ s1 ++ "}" ++ s2) with (String "{" (s1 ++ String "}" s2)).
      cbn [brace_depth]. rewrite brace_depth_append. cbn [brace_depth].
      rewrite !Ascii.eqb_refl. replace (Ascii.eqb "}" "{") with false by reflexivity.
      lia.
    + intros [|n]; [simpl; lia|].
      change (PyStr.take (S n) ("{" ++ s1 ++ "}" ++ s2))
        with (String "{" (PyStr.take n (s1 ++ String "}" s2))).
      cbn [brace_depth]. rewrite Ascii.eqb_refl.
      destruct (Nat.le_gt_cases n (length s1)) as [Hn|Hn].
      * rewrite take_append_le by assumption. specialize (IHp1 n). lia.
      * rewrite take_append_ge, brace_depth_append, IHd1 by lia.
        destruct (n - length s1) as [|k] eqn:Hk; [lia|].
        cbn [PyStr.take brace_depth].
        replace (Ascii.eqb "}" "{") with false by reflexivity.
        rewrite Ascii.eqb_refl. specialize (IHp2 k). lia.
Qed.

(** The marker opens with a brace and holds no other one, so no occurrence
    of it can begin before an opening brace and run across it. *)

Lemma startswith_before_brace (m p r : string) :
  no_open_brace m = true ->
  PyStr.startswith m (p ++ String "{" r) = true -> PyStr.startswith m p = true.
Proof.
  revert p; induction m as [|a m IH]; intros p Hm; [reflexivity|].
  simpl in Hm. apply andb_prop in Hm as [Ha Hm].
  destruct p as [|b p]; simpl.
  - intros [Hb _]%andb_prop. rewrite Hb in Ha. discriminate Ha.
  - intros [-> Hp]%andb_prop. simpl. now apply IH.
Qed.

Lemma marker_not_across (p r : string) :
  p <> "" ->
  PyStr.startswith marker (p ++ String "{" r) = true ->
  PyStr.startswith marker p = true.
Proof.
  destruct p as [|b p]; [congruence | intros _].
  change marker with (String "{" (PyStr.drop 1 marker)).
  cbn [PyStr.startswith append]. intros [-> Hp]%andb_prop. simpl andb.
  now apply startswith_before_brace in Hp.
Qed.

Lemma find_from_skip (pre r : string) :
  forall i j,
    PyStr.find_from marker pre j = None ->
    PyStr.find_from marker (pre ++ String "{" r) i
    = PyStr.find_from marker (String "{" r) (i + length pre).
Proof.
  induction pre as [|c pre IH]; intros i j Hpre.
  - simpl append. simpl length. now rewrite Nat.add_0_r.
  - cbn [PyStr.find_from] in Hpre.
    destruct (PyStr.startswith marker (String c pre)) eqn:Hs; [discriminate|].
    change (String c pre ++ String "{" r) with (String c (pre ++ String "{" r)).
    cbn [PyStr.find_from].
    destruct (PyStr.startswith marker (String c (pre ++ String "{" r))) eqn:Hs'.
    + apply (marker_not_across (String c pre)) in Hs'; congruence.
    + rewrite (IH (S i) (S j) Hpre). simpl length.
      now replace (i + S (length pre)) with (S i + length pre) by lia.
Qed.

Lemma find_marker_at (pre obj post : string) :
  PyStr.startswith marker obj = true ->
  PyStr.find marker pre = (-1)%Z ->
  PyStr.find marker (pre ++ obj ++ post) = Z.of_nat (length pre).
Proof.
  intros Hobj Hpre. unfold PyStr.find in *.
  destruct (PyStr.find_from marker pre 0) eqn:Hf; [lia|].
  destruct obj as [|c obj]; [discriminate|].
  assert (c = "{"%char) as ->.
  { change marker with (String "{" (PyStr.drop 1 marker)) in Hobj.
    simpl in Hobj. apply andb_prop in Hobj as [Hc _].
    symmetry. now apply Ascii.eqb_eq. }
  change (String "{" obj ++ post) with (String "{" (obj ++ post)).
  rewrite (find_from_skip pre (obj ++ post) 0 0 Hf).
  change (String "{" (obj ++ post)) with (String "{" obj ++ post).
  unfold PyStr.find_from at 1.
  destruct (String "{" obj ++ post) eqn:E; [discriminate|].
  rewrite <- E, (startswith_append_r _ _ post Hobj). reflexivity.
Qed.

(** C1. For a body [pre ++ obj ++ post] in which [obj] opens with the marker
    and is a brace pair around balanced text, and [pre] holds no marker: the
    marker is found where [obj] begins; the scan stops at the last
    character of [obj]; the depth is positive after every shorter prefix of
    [obj] and 0 after [obj]; the text extracted is [obj], whatever [pre]
    and [post] are; and it is this text that [json.loads] is given. *)
Theorem decoder_extracts_balanced_object (pre inner post : string) :
  let obj := "{" ++ inner ++ "}" in
  let content := pre ++ obj ++ post in
  Balanced inner ->
  PyStr.startswith marker obj = true ->
  PyStr.find marker pre = (-1)%Z ->
  PyStr.find marker content = Z.of_nat (length pre)
  /\ scan_from content (length pre) = Some (length pre + length obj - 1)
  /\ (forall j, j < length obj - 1 ->
        (0 < brace_depth (PyStr.slice (length pre) (length pre + S j) content))%Z)
  /\ brace_depth (PyStr.slice (length pre) (length pre + length obj) content) = 0%Z
  /\ extract_json_str content = Some obj
  /\ (forall R : Runtime,
         decode content
         = match json_loads obj with
           | inr data => ret data
           | inl msg => raise (JSONDecodeError msg)
           end).
Proof.
  intros obj content Hbal Hobj Hpre.
  assert (Hlen : length obj = S (S (length inner))).
  { unfold obj. simpl. rewrite length_append. simpl. lia. }
  assert (Hfind : PyStr.find marker content = Z.of_nat (length pre))
    by now apply find_marker_at.
  assert (Hscan : scan_from content (length pre)
                  = Some (length pre + length obj - 1)).
  { unfold scan_from, content. rewrite drop_append.
    change (obj ++ post) with (String "{" ((inner ++ "}") ++ post)).
    rewrite append_assoc. cbn [scan]. rewrite Ascii.eqb_refl.
    rewrite scan_balanced by (assumption || lia).
    cbn [append scan]. replace (Ascii.eqb "}" "{") with false by reflexivity.
    rewrite Ascii.eqb_refl. simpl Z.eqb. cbv iota. f_equal. lia. }
  assert (Hslice : forall n, PyStr.slice (length pre) (length pre + n) content
                             = PyStr.take n (obj ++ post)).
  { intros n. unfold PyStr.slice, content. rewrite drop_append. f_equal. lia. }
  destruct (Balanced_prefix_depth inner Hbal) as [Hd Hp].
  assert (Hextract : extract_json_str content = Some obj).
  { unfold extract_json_str. rewrite Hfind.
    replace (Z.of_nat (length pre) =? -1)%Z with false
      by (symmetry; apply Z.eqb_neq; lia).
    rewrite Nat2Z.id, Hscan.
    replace (length pre + length obj - 1 + 1) with (length pre + length obj) by lia.
    now rewrite Hslice, take_append. }
  repeat split; try assumption.
  - intros j Hj. rewrite Hslice, take_append_le by lia.
    change (PyStr.take (S j) obj) with (String "{" (PyStr.take j (inner ++ "}"))).
    cbn [brace_depth]. rewrite Ascii.eqb_refl.
    rewrite take_append_le by lia. specialize (Hp j). lia.
  - rewrite Hslice, take_append.
    change obj with (String "{" (inner ++ "}")).
    cbn [brace_depth]. rewrite Ascii.eqb_refl, brace_depth_append, Hd.
    reflexivity.
  - intros R. unfold decode. now rewrite Hextract.
Qed.

(** ** Keywords *)

Lemma lstrip_idempotent (s : string) : lstrip (lstrip s) = lstrip s.
Proof.
  induction s as [|c s IH]; simpl; [reflexivity|].
  destruct (isspace c) eqn:Hc; [exact IH|]. simpl. now rewrite Hc.
Qed.

Lemma rstrip_idempotent (s : string) : rstrip (rstrip s) = rstrip s.
Proof.
  induction s as [|c s IH]; simpl; [reflexivity|].
  destruct (rstrip s) as [|x r] eqn:Hr.
  - destruct (isspace c) eqn:Hc; simpl; [reflexivity | now rewrite Hc].
  - cbn [rstrip]. cbn [rstrip] in IH. now rewrite IH.
Qed.

Lemma rstrip_lstrip (s : string) : rstrip (lstrip s) = lstrip (rstrip s).
Proof.
  induction s as [|c s IH]; simpl; [reflexivity|].
  destruct (isspace c) eqn:Hc.
  - rewrite IH. destruct (rstrip s) as [|x r]; simpl; now rewrite ?Hc.
  - cbn [rstrip]. destruct (rstrip s) as [|x r]; simpl; now rewrite Hc.
Qed.

Lemma strip_idempotent (s : string) : strip (strip s) = strip s.
Proof.
  unfold strip.
  now rewrite rstrip_lstrip, rstrip_idempotent, lstrip_idempotent.
Qed.

Lemma split_keywords_trimmed (s : string) :
  Forall trimmed_nonempty (split_keywords s).
Proof.
  unfold split_keywords. apply Forall_forall. intros k Hk.
  apply in_map_iff in Hk as [k0 [<- Hk0]].
  apply filter_In in Hk0 as [_ Hne]. split.
  - intros E. rewrite E in Hne. discriminate.
  - apply strip_idempotent.
Qed.

Lemma split_not_nil (sep : ascii) (s : string) : split sep s <> [].
Proof.
  destruct s as [|c s]; simpl; [discriminate|].
  destruct (Ascii.eqb c sep); [discriminate|].
  destruct (split sep s); discriminate.
Qed.

(** The pieces of [split] are the text between the separators, in order. *)
Lemma join_split (s : string) : PyStr.join "," (split "," s) = s.
Proof.
  induction s as [|c s IH]; [reflexivity|].
  pose proof (split_not_nil "," s) as Hne.
  cbn [split]. destruct (Ascii.eqb_spec c ",") as [->|Hc];
    destruct (split "," s) as [|x l]; try congruence.
  - change (PyStr.join "," ("" :: x :: l)) with ("," ++ PyStr.join "," (x :: l)).
    now rewrite IH.
  - destruct l as [|y l]; simpl in *; now rewrite <- IH.
Qed.

Lemma strings_of_map (l : list string) : strings_of (map JStr l) = inr l.
Proof. induction l as [|x l IH]; simpl; [reflexivity | now rewrite IH]. Qed.

Lemma show_keywords_sequence (keywords : json) (l : list string) :
  truthy keywords = true ->
  keyword_list keywords = JArr (map JStr l) ->
  show_keywords keywords
  = ([Print ("  Keywords:     " ++ PyStr.join ", " (firstn 20 l));
      Print ("  KW Count:     " ++ PyStr.of_Z (Z.of_nat (List.length l)))],
     inr tt).
Proof.
  intros Ht Hl. unfold show_keywords. rewrite Ht, Hl.
  unfold py_slice20, py_join, py_iter, py_len, bind, ret, print, emit.
  rewrite firstn_map, strings_of_map, length_map. reflexivity.
Qed.

(** C2, as stated, fails for a sequence: its entries are kept as they are,
    here one with surrounding spaces and an empty one. *)
Lemma keywords_sequence_not_normalized :
  keywords_input (JArr (map JStr [" a "; ""]))
  /\ ~ normalized_keywords (keyword_list (JArr (map JStr [" a "; ""]))).
Proof.
  split; [constructor|].
  intros [l [E Hl]]. simpl in E.
  destruct l as [|k l]; [discriminate|].
  injection E as Ek _. subst k.
  apply Forall_inv in Hl. destruct Hl as [_ Hs].
  vm_compute in Hs. discriminate.
Qed.

(** C2, amended. A keywords string is split at its commas into its trimmed,
    non-empty pieces, in the order of the text; a sequence of strings is
    used as it is; ["a, b ,c"] gives [["a"; "b"; "c"]]; for a non-empty
    value the line shown joins the first 20 entries and the count is the
    length of the whole sequence; for an empty value nothing is shown. *)
Theorem keywords_normalization :
  (forall s,
      keyword_list (JStr s) = JArr (map JStr (split_keywords s))
      /\ Forall trimmed_nonempty (split_keywords s)
      /\ split_keywords s
         = map strip (filter (fun k => negb (String.eqb (strip k) ""))
                        (split "," s))
      /\ PyStr.join "," (split "," s) = s)
  /\ (forall l, keyword_list (JArr (map JStr l)) = JArr (map JStr l))
  /\ split_keywords "a, b ,c" = ["a"; "b"; "c"]
  /\ (forall keywords l,
         truthy keywords = true ->
         keyword_list keywords = JArr (map JStr l) ->
         show_keywords keywords
         = ([Print ("  Keywords:     " ++ PyStr.join ", " (firstn 20 l));
             Print ("  KW Count:     " ++ PyStr.of_Z (Z.of_nat (List.length l)))],
            inr tt))
  /\ (forall keywords, truthy keywords = false -> show_keywords keywords = ret tt).
Proof.
  repeat split.
  - apply split_keywords_trimmed.
  - apply join_split.
  - intros keywords l. apply show_keywords_sequence.
  - intros keywords Hk. unfold show_keywords. now rewrite Hk.
Qed.

Lemma keywords_normalization_witness :
  truthy (JStr "a, b ,c") = true
  /\ keyword_list (JStr "a, b ,c") = JArr (map JStr ["a"; "b"; "c"])
  /\ show_keywords (JStr "a, b ,c")
     = ([Print "  Keywords:     a, b, c"; Print "  KW Count:     3"], inr tt).
Proof.
  split; [reflexivity|]. split; [reflexivity|].
  exact (proj1 (proj2 (proj2 (proj2 keywords_normalization)))
           (JStr "a, b ,c") ["a"; "b"; "c"] eq_refl eq_refl).
Defined.

(** ** Records *)

Section PresenterFacts.

Context `{Runtime} `{DateParser}.

Lemma dict_get_missing (fields : list (string * json)) (key : string)
    (default : json) :
  ~ In key (map fst fields) -> dict_get fields key default = default.
Proof.
  induction fields as [|[k v] fields IH]; simpl; [reflexivity|].
  intros Hk. destruct (String.eqb_spec k key) as [->|_].
  - exfalso. apply Hk. now left.
  - apply IH. intros Hin. apply Hk. now right.
Qed.

Lemma show_keywords_typed (keywords : json) :
  truthy keywords = false \/ keywords_input keywords ->
  show_keywords keywords = (fst (show_keywords keywords), inr tt).
Proof.
  intros [Hf|Hk].
  - unfold show_keywords. now rewrite Hf.
  - destruct (truthy keywords) eqn:Ht.
    + destruct Hk as [s|l].
      * now rewrite (show_keywords_sequence (JStr s) (split_keywords s) Ht).
      * now rewrite (show_keywords_sequence (JArr (map JStr l)) l Ht).
    + unfold show_keywords. now rewrite Ht.
Qed.

Lemma show_image_typed (idx : Z) (fields : list (string * json)) :
  Img.keywords_typed (Img.read fields) ->
  show_image idx (JObj fields) = (present_image idx (Img.read fields), inr tt).
Proof.
  intros Hk. apply show_keywords_typed in Hk.
  unfold show_image, present_image, py_get.
  cbn [Img.read Img.title Img.isAI Img.id Img.downloads Img.premium
       Img.creator Img.creatorId Img.mediaType Img.category Img.contentType
       Img.dimensions Img.creationDate Img.keywords Img.thumbnailUrl
       Img.defaults] in *.
  unfold bind, ret, print, emit. rewrite Hk.
  destruct (truthy (dict_get fields "creationDate" (JStr ""))); reflexivity.
Qed.

Lemma dict_get_remove (fields : list (string * json)) (key k : string)
    (default : json) :
  dict_get (dict_remove key fields) k default
  = if String.eqb k key then default else dict_get fields k default.
Proof.
  induction fields as [|[k' v] fields IH]; cbn [dict_remove filter dict_get fst].
  - now destruct (String.eqb k key).
  - fold (dict_remove key fields).
    destruct (String.eqb_spec k' key) as [->|Hk']; cbn [negb dict_get].
    + rewrite IH. rewrite (String.eqb_sym key k).
      now destruct (String.eqb k key).
    + rewrite IH. destruct (String.eqb_spec k' k) as [->|Hk]; [|reflexivity].
      destruct (String.eqb_spec k key); [contradiction | reflexivity].
Qed.

(** An object is presented to its end unless its keywords raise. *)
Lemma show_image_result (idx : Z) (fields : list (string * json)) :
  snd (show_image idx (JObj fields))
  = snd (show_keywords (dict_get fields "keywords" (JStr ""))).
Proof.
  unfold show_image, py_get, bind, ret, print, emit.
  destruct (show_keywords _) as [o [e|[]]];
    destruct (truthy (dict_get fields "creationDate" (JStr ""))); reflexivity.
Qed.

Lemma show_image_without (idx : Z) (fields : list (string * json))
    (key : string) :
  snd (show_image idx (JObj fields)) = inr tt ->
  snd (show_image idx (JObj (dict_remove key fields))) = inr tt.
Proof.
  rewrite !show_image_result, dict_get_remove.
  destruct (String.eqb "keywords" key); [reflexivity | trivial].
Qed.

Lemma dict_get_present (fields : list (string * json)) (key : string)
    (v default : json) :
  NoDup (map fst fields) -> In (key, v) fields ->
  dict_get fields key default = v.
Proof.
  induction fields as [|[k w] fields IH]; cbn [map fst dict_get In];
    [contradiction|].
  intros Hnd [E|Hin].
  - injection E as -> ->. now rewrite String.eqb_refl.
  - apply NoDup_cons_iff in Hnd as [Hk Hnd].
    destruct (String.eqb_spec k key) as [->|_]; [|now apply IH].
    exfalso. apply Hk. apply (in_map fst) in Hin. exact Hin.
Qed.

Lemma reads_dict_get (fields : list (string * json)) (key : string)
    (default v : json) :
  NoDup (map fst fields) -> reads fields key default v ->
  dict_get fields key default = v.
Proof.
  intros Hnd [Hin|[Hout ->]].
  - now apply dict_get_present.
  - now apply dict_get_missing.
Qed.

Lemma dict_get_reads (fields : list (string * json)) (key : string)
    (default : json) :
  reads fields key default (dict_get fields key default).
Proof.
  unfold reads. induction fields as [|[k w] fields IH]; cbn [dict_get map fst In].
  - right. split; [tauto | reflexivity].
  - destruct (String.eqb_spec k key) as [->|Hk]; [left; now left|].
    destruct IH as [Hin|[Hout E]]; [left; now right|].
    right. split; [|exact E]. intros [E'|Hin]; [contradiction | tauto].
Qed.

Lemma read_record_of (fields : list (string * json)) :
  record_of fields (Img.read fields).
Proof. unfold record_of. repeat split; apply dict_get_reads. Qed.

Lemma record_of_read (fields : list (string * json)) (r : Img.t) :
  NoDup (map fst fields) -> record_of fields r -> Img.read fields = r.
Proof.
  intros Hnd Hr. destruct r. unfold record_of in Hr.
  cbn [Img.title Img.isAI Img.id Img.downloads Img.premium Img.creator
       Img.creatorId Img.mediaType Img.category Img.contentType
       Img.dimensions Img.creationDate Img.keywords Img.thumbnailUrl] in Hr.
  decompose [and] Hr. unfold Img.read.
  cbn [Img.defaults Img.title Img.isAI Img.id Img.downloads Img.premium
       Img.creator Img.creatorId Img.mediaType Img.category Img.contentType
       Img.dimensions Img.creationDate Img.keywords Img.thumbnailUrl].
  repeat match goal with
         | Hx : reads fields ?k ?d ?v |- _ =>
             rewrite (reads_dict_get fields k d v Hnd Hx); clear Hx
         end.
  reflexivity.
Qed.

Lemma keywords_of_strings (l : list string) :
  keywords_of (JArr (map JStr l)) = l.
Proof.
  cbn [keywords_of]. induction l as [|k l IH]; [reflexivity|].
  cbn [map flat_map app]. now rewrite IH.
Qed.

Lemma keyword_lines_typed (keywords : json) :
  truthy keywords = false \/ keywords_input keywords ->
  fst (show_keywords keywords) = keyword_lines keywords.
Proof.
  unfold keyword_lines. intros Hk.
  destruct (truthy keywords) eqn:Ht.
  - destruct Hk as [Hf|Hk]; [discriminate|]. destruct Hk as [s|l].
    + now rewrite (show_keywords_sequence (JStr s) (split_keywords s) Ht).
    + rewrite (show_keywords_sequence (JArr (map JStr l)) l Ht) by reflexivity.
      now rewrite keywords_of_strings.
  - unfold show_keywords. now rewrite Ht.
Qed.

Lemma present_image_lines (idx : Z) (r : Img.t) :
  Img.keywords_typed r -> present_image idx r = record_lines idx r.
Proof.
  intros Hk. unfold present_image, record_lines.
  rewrite (keyword_lines_typed _ Hk).
  destruct (truthy (Img.creatorId r)); [|now rewrite append_nil_r].
  reflexivity.
Qed.

Lemma show_image_lines (idx : Z) (fields : list (string * json)) :
  typed_object fields ->
  show_image idx (JObj fields) = (record_lines idx (Img.read fields), inr tt).
Proof.
  intros Hk. rewrite (show_image_typed idx fields Hk).
  now rewrite (present_image_lines idx _ Hk).
Qed.

(** The loop prints the records of the typed objects at its head, in
    their order, and goes on with what follows them. *)
Lemma show_images_front (front : list (list (string * json)))
    (rest : list json) :
  Forall typed_object front ->
  forall idx,
    show_images idx (map JObj front ++ rest)
    = ((List.concat (record_blocks idx front)
        ++ fst (show_images (idx + Z.of_nat (List.length front)) rest))%list,
       snd (show_images (idx + Z.of_nat (List.length front)) rest)).
Proof.
  induction 1 as [|fields front Hk _ IH]; intros idx.
  - cbn [map app record_blocks List.concat List.length Z.of_nat].
    rewrite Z.add_0_r. now destruct (show_images idx rest).
  - cbn [map app show_images record_blocks List.concat].
    rewrite (show_image_lines idx fields Hk), IH.
    replace (idx + 1 + Z.of_nat (List.length front))%Z
      with (idx + Z.of_nat (List.length (fields :: front)))%Z
      by (cbn [List.length]; lia).
    unfold bind. now rewrite app_assoc.
Qed.

Lemma show_images_blocks (records : list (list (string * json))) :
  Forall typed_object records ->
  forall idx,
    show_images idx (map JObj records)
    = (List.concat (record_blocks idx records), inr tt).
Proof.
  intros Hk idx. rewrite <- (app_nil_r (map JObj records)).
  rewrite (show_images_front records [] Hk idx).
  cbn [show_images ret fst snd]. now rewrite app_nil_r.
Qed.

Lemma record_blocks_length (records : list (list (string * json))) :
  forall idx, List.length (record_blocks idx records) = List.length records.
Proof. induction records as [|f records IH]; intros idx; simpl; auto. Qed.

Lemma record_blocks_nth (records : list (list (string * json))) :
  forall idx k fields,
    nth_error records k = Some fields ->
    nth_error (record_blocks idx records) k
    = Some (record_lines (idx + Z.of_nat k) (Img.read fields)).
Proof.
  induction records as [|x records IH]; intros idx [|k] fields Hk;
    try discriminate; cbn [nth_error record_blocks] in *.
  - injection Hk as ->. now rewrite Z.add_0_r.
  - rewrite (IH _ _ _ Hk). do 2 f_equal. lia.
Qed.

Lemma show_summary_lines (page : Z) (raw : bool)
    (dfields ufields : list (string * json))
    (records : list (list (string * json)))
    (plan searches_used searches_limit : json) :
  NoDup (map fst ufields) ->
  reads ufields "plan" (JStr "N/A") plan ->
  reads ufields "searchesUsed" (JStr "?") searches_used ->
  reads ufields "searchesLimit" (JStr "?") searches_limit ->
  show_summary page raw (JObj dfields) (JArr (map JObj records)) (JObj ufields)
  = (summary_lines page raw dfields records plan searches_used searches_limit,
     inr tt).
Proof.
  intros Hnd Hp Hu Hl. unfold show_summary, summary_lines, py_get, py_len.
  cbn [bind ret].
  rewrite (reads_dict_get _ _ _ _ Hnd Hp), (reads_dict_get _ _ _ _ Hnd Hu),
    (reads_dict_get _ _ _ _ Hnd Hl), length_map.
  destruct raw, records; reflexivity.
Qed.

(** What the branch [if data:] prints for a payload of the data model. *)
Lemma show_results_lines (page : Z) (raw : bool)
    (dfields ufields : list (string * json))
    (records : list (list (string * json)))
    (plan searches_used searches_limit : json) :
  NoDup (map fst dfields) ->
  reads dfields "images" (JArr []) (JArr (map JObj records)) ->
  reads dfields "usageData" (JObj []) (JObj ufields) ->
  NoDup (map fst ufields) ->
  reads ufields "plan" (JStr "N/A") plan ->
  reads ufields "searchesUsed" (JStr "?") searches_used ->
  reads ufields "searchesLimit" (JStr "?") searches_limit ->
  Forall typed_object records ->
  show_results page raw (JObj dfields)
  = ((summary_lines page raw dfields records plan searches_used searches_limit
      ++ List.concat (record_blocks 1 records))%list, inr tt).
Proof.
  intros Hnd Hi Hu Hnu Hp Hsu Hsl Hk. unfold show_results, py_get.
  cbn [bind ret].
  rewrite (reads_dict_get _ _ _ _ Hnd Hi), (reads_dict_get _ _ _ _ Hnd Hu).
  rewrite (show_summary_lines page raw dfields ufields records _ _ _ Hnu Hp Hsu Hsl).
  cbn [py_iter bind ret app].
  rewrite (show_images_blocks records Hk). reflexivity.
Qed.

(** C3. Each field is read on its own: a field the object has reads as
    the object's value, a field it lacks as the default given for it, so
    every object has a record.  An object whose keywords, if any, are a
    string or a sequence of strings is presented whole, from that record,
    and raises nothing; taking a field away from an object that is
    presented without exception never makes it raise; the object with no
    field at all is presented with every default in place, the object of
    the specification's example with its id and title and the defaults
    elsewhere, an object with every field with the values of them all; and
    a batch of such objects is presented to its end, one record per
    object. *)
Theorem image_fields_default :
  (forall fields key v default,
      NoDup (map fst fields) -> In (key, v) fields ->
      dict_get fields key default = v)
  /\ (forall fields key default,
         ~ In key (map fst fields) -> dict_get fields key default = default)
  /\ (forall fields, record_of fields (Img.read fields))
  /\ (forall idx fields r,
         NoDup (map fst fields) -> record_of fields r -> Img.keywords_typed r ->
         show_image idx (JObj fields) = (record_lines idx r, inr tt))
  /\ (forall idx fields,
         Img.keywords_typed (Img.read fields) ->
         show_image idx (JObj fields)
         = (present_image idx (Img.read fields), inr tt))
  /\ (forall idx fields key,
         snd (show_image idx (JObj fields)) = inr tt ->
         snd (show_image idx (JObj (dict_remove key fields))) = inr tt)
  /\ Img.read [] = Img.defaults
  /\ (forall idx,
         show_image idx (JObj [])
         = ([ Print rule;
              Print ("  #" ++ PyStr.of_Z idx ++ " N/A");
              Print rule;
              Print "  Stock ID:     N/A";
              Print "  Downloads:    N/A";
              Print "  Premium:      N/A";
              Print "  Creator:      N/A";
              Print "  Type:         N/A (N/A)";
              Print "  Category:     N/A";
              Print "  Dimensions:   N/A";
              Print "  Thumbnail:    N/A";
              Print "  Stock URL:    https://stock.adobe.com/N/A";
              Print "" ], inr tt))
  /\ show_image 1 (JObj [("id", JStr "1"); ("title", JStr "Cat")])
     = ([ Print "============================================================";
          Print "  #1 Cat";
          Print "============================================================";
          Print "  Stock ID:     1";
          Print "  Downloads:    N/A";
          Print "  Premium:      N/A";
          Print "  Creator:      N/A";
          Print "  Type:         N/A (N/A)";
          Print "  Category:     N/A";
          Print "  Dimensions:   N/A";
          Print "  Thumbnail:    N/A";
          Print "  Stock URL:    https://stock.adobe.com/1";
          Print "" ], inr tt)
  /\ @show_image _ documented_parser 7 (JObj example_image)
     = ([ Print "============================================================";
          Print "  #7 Cat [AI-Generated]";
          Print "============================================================";
          Print "  Stock ID:     123";
          Print "  Downloads:    42";
          Print "  Premium:      False";
          Print "  Creator:      Ann (ID: 7)";
          Print "  Type:         photo (image/jpeg)";
          Print "  Category:     Animals";
          Print "  Dimensions:   4000x3000";
          Print "  Upload Date:  05 Jan 2024";
          Print "  Keywords:     a, b, c";
          Print "  KW Count:     3";
          Print "  Thumbnail:    https://t/1.jpg";
          Print "  Stock URL:    https://stock.adobe.com/123";
          Print "" ], inr tt)
  /\ (forall idx records,
         Forall typed_object records ->
         show_images idx (map JObj records)
         = (List.concat (record_blocks idx records), inr tt)
         /\ List.length (record_blocks idx records) = List.length records).
Proof.
  split; [exact dict_get_present|].
  split; [exact dict_get_missing|].
  split; [exact read_record_of|].
  split.
  { intros idx fields r Hnd Hr Hk.
    rewrite <- (record_of_read fields r Hnd Hr) in Hk |- *.
    now apply show_image_lines. }
  split; [exact show_image_typed|].
  split; [exact show_image_without|].
  split; [reflexivity|].
  split; [reflexivity|].
  split; [reflexivity|].
  split; [vm_compute; reflexivity|].
  intros idx records Hk. split.
  - now apply show_images_blocks.
  - apply record_blocks_length.
Qed.


End PresenterFacts.

(** ** Dates *)

Lemma days_in_month_le (y m : Z) : (Datetime.days_in_month y m <= 31)%Z.
Proof.
  unfold Datetime.days_in_month.
  repeat match goal with
         | |- context [match ?x with _ => _ end] => destruct x
         end; lia.
Qed.

(** The dates the parser returns are calendar dates. *)
Lemma fromisoformat_date_range (s : string) (dt : datetime) :
  Datetime.fromisoformat s = Some dt ->
  (1 <= year dt <= 9999 /\ 1 <= month dt <= 12 /\ 1 <= day dt <= 31)%Z.
Proof.
  unfold Datetime.fromisoformat, Datetime.opt_bind, Datetime.guard.
  destruct (Datetime.find_isoformat_datetime_separator _); [|discriminate].
  destruct (Datetime.parse_isoformat_date _ _) as [[[y m] d]|]; [|discriminate].
  destruct (if (_ <? _)%nat then _ else _) as [[[[[hh mm] ss] us] tz]|];
    [|discriminate].
  destruct (_ && _)%bool eqn:Hr; [|discriminate].
  intros [= <-]. cbn [year month day].
  pose proof (days_in_month_le y m).
  repeat (apply andb_prop in Hr as [Hr ?]). lia.
Qed.

Lemma holds_upto_spec (f : Z -> bool) (n : nat) :
  forall from,
    holds_upto f n from = true ->
    forall z, (from <= z < from + Z.of_nat n)%Z -> f z = true.
Proof.
  induction n as [|n IH]; intros from Hf z Hz; [lia|].
  cbn [holds_upto] in Hf. apply andb_prop in Hf as [H0 Hn].
  destruct (Z.eq_dec z from) as [->|Hne]; [exact H0|].
  apply (IH (from + 1)%Z Hn). lia.
Qed.

Lemma option_Z_eqb_eq (a : option Z) (z : Z) :
  option_Z_eqb a z = true -> a = Some z.
Proof.
  destruct a as [x|]; [|discriminate]. cbn. intros H.
  apply Z.eqb_eq in H. now subst.
Qed.

(** The two digits of a zero-filled number below 100. *)
Lemma zero_filled_2 (n : Z) :
  (0 <= n <= 99)%Z ->
  exists a b,
    Datetime.zero_filled 2 n = String a (String b "")
    /\ is_digit_char a = true /\ is_digit_char b = true
    /\ Datetime.digits (String a (String b "")) 0 = Some n.
Proof.
  intros Hn.
  pose (f := fun n =>
            match Datetime.zero_filled 2 n with
            | String a (String b "") =>
                is_digit_char a && is_digit_char b
                && option_Z_eqb (Datetime.digits (String a (String b "")) 0) n
            | _ => false
            end).
  assert (Hc : f n = true).
  { apply (holds_upto_spec f (Z.to_nat 100) 0%Z); [vm_compute; reflexivity|].
    rewrite Z2Nat.id; lia. }
  subst f. cbv beta in Hc.
  destruct (Datetime.zero_filled 2 n) as [|a [|b [|]]]; try discriminate.
  apply andb_prop in Hc as [Hc H3]. apply andb_prop in Hc as [H1 H2].
  exists a, b. repeat split; try assumption. now apply option_Z_eqb_eq.
Qed.

(** The four digits of a year from 1000 on. *)
Lemma of_Z_4 (y : Z) :
  (1000 <= y <= 9999)%Z ->
  exists a b c d,
    PyStr.of_Z y = String a (String b (String c (String d "")))
    /\ PyStr.all_chars is_digit_char (PyStr.of_Z y) = true
    /\ Datetime.digits (PyStr.of_Z y) 0 = Some y.
Proof.
  intros Hy.
  pose (f := fun y =>
            match PyStr.of_Z y with
            | String a (String b (String c (String d ""))) =>
                PyStr.all_chars is_digit_char (PyStr.of_Z y)
                && option_Z_eqb (Datetime.digits (PyStr.of_Z y) 0) y
            | _ => false
            end).
  assert (Hc : f y = true).
  { apply (holds_upto_spec f (Z.to_nat 9000) 1000%Z); [vm_compute; reflexivity|].
    rewrite Z2Nat.id; lia. }
  subst f. cbv beta in Hc.
  destruct (PyStr.of_Z y) as [|a [|b [|c [|d [|]]]]]; try discriminate.
  apply andb_prop in Hc as [H1 H2].
  exists a, b, c, d. repeat split; try assumption. now apply option_Z_eqb_eq.
Qed.

(** A year below 1000 is written with fewer than four characters. *)
Lemma of_Z_short (y : Z) :
  (1 <= y <= 999)%Z -> (length (PyStr.of_Z y) < 4)%nat.
Proof.
  intros Hy. apply Nat.ltb_lt.
  apply (holds_upto_spec (fun y => (length (PyStr.of_Z y) <? 4)%nat)
           (Z.to_nat 999) 1%Z); [vm_compute; reflexivity|].
  rewrite Z2Nat.id; lia.
Qed.

Lemma month_abbr_shape (m : Z) :
  (1 <= m <= 12)%Z ->
  exists a b c,
    Datetime.month_abbr m = String a (String b (String c ""))
    /\ is_upper_char a = true /\ is_lower_char b = true
    /\ is_lower_char c = true.
Proof.
  intros Hm. assert (Hc : In m [1; 2; 3; 4; 5; 6; 7; 8; 9; 10; 11; 12]%Z)
    by (simpl; lia).
  simpl in Hc.
  repeat (destruct Hc as [<-|Hc];
          [do 3 eexists; repeat split; reflexivity|]).
  contradiction.
Qed.

(** What [strftime] gives for a year of four digits: the format of the
    specification, from which day, month and year are read back. *)
Lemma strftime_four_digit_year (dt : datetime) :
  (1000 <= year dt <= 9999 /\ 1 <= month dt <= 12 /\ 1 <= day dt <= 31)%Z ->
  let out := Datetime.strftime_d_b_Y dt in
  dd_Mon_YYYY out = true
  /\ Datetime.digits (PyStr.slice 0 2 out) 0 = Some (day dt)
  /\ PyStr.slice 3 6 out = Datetime.month_abbr (month dt)
  /\ Datetime.digits (PyStr.slice 7 11 out) 0 = Some (year dt).
Proof.
  intros [Hy [Hm Hd]] out. subst out. unfold Datetime.strftime_d_b_Y.
  destruct (zero_filled_2 (day dt)) as (d1 & d2 & -> & Hd1 & Hd2 & Hday); [lia|].
  destruct (month_abbr_shape (month dt) Hm) as (m1 & m2 & m3 & -> & Hm1 & Hm2 & Hm3).
  destruct (of_Z_4 (year dt) Hy) as (y1 & y2 & y3 & y4 & Hyear & Hys & Hval).
  rewrite Hyear in *.
  split; [|split; [|split]].
  - unfold dd_Mon_YYYY. cbn in Hys |- *.
    rewrite Hd1, Hd2, Hm1, Hm2, Hm3. exact Hys.
  - exact Hday.
  - reflexivity.
  - exact Hval.
Qed.

(** For a year below 1000 the text is shorter than [DD Mon YYYY]. *)
Lemma strftime_short_year (dt : datetime) :
  (1 <= year dt <= 999 /\ 1 <= month dt <= 12 /\ 1 <= day dt <= 31)%Z ->
  (length (Datetime.strftime_d_b_Y dt) < 11)%nat.
Proof.
  intros [Hy [Hm Hd]]. unfold Datetime.strftime_d_b_Y.
  destruct (zero_filled_2 (day dt)) as (d1 & d2 & -> & _); [lia|].
  destruct (month_abbr_shape (month dt) Hm) as (m1 & m2 & m3 & -> & _).
  pose proof (of_Z_short (year dt) Hy) as Hl.
  cbn [append length]. lia.
Qed.

Lemma digit_char_facts (c : ascii) :
  is_digit_char c = true ->
  Urllib.utf8 c = [nat_of_ascii c]
  /\ Datetime.is_digit (nat_of_ascii c) = true
  /\ Ascii.eqb c "Z" = false
  /\ (nat_of_ascii c =? Datetime.letter_W)%nat = false
  /\ (nat_of_ascii c =? Datetime.hyphen)%nat = false.
Proof.
  destruct c as [[] [] [] [] [] [] [] []]; try discriminate;
    intros _; repeat split; reflexivity.
Qed.

(** The digits of a zero-filled number, as the parser reads them. *)
Lemma zero_filled_2_read (n : Z) :
  (0 <= n <= 99)%Z ->
  exists a b,
    Datetime.zero_filled 2 n = String a (String b "")
    /\ is_digit_char a = true /\ is_digit_char b = true
    /\ Datetime.parse_digits_from [nat_of_ascii a; nat_of_ascii b] 0 2 0
       = Some n.
Proof.
  intros Hn.
  pose (f := fun n =>
            match Datetime.zero_filled 2 n with
            | String a (String b "") =>
                is_digit_char a && is_digit_char b
                && option_Z_eqb
                     (Datetime.parse_digits_from
                        [nat_of_ascii a; nat_of_ascii b] 0 2 0) n
            | _ => false
            end).
  assert (Hc : f n = true).
  { apply (holds_upto_spec f (Z.to_nat 100) 0%Z); [vm_compute; reflexivity|].
    rewrite Z2Nat.id; lia. }
  subst f. cbv beta in Hc.
  destruct (Datetime.zero_filled 2 n) as [|a [|b [|]]]; try discriminate.
  apply andb_prop in Hc as [Hc H3]. apply andb_prop in Hc as [H1 H2].
  exists a, b. repeat split; try assumption. now apply option_Z_eqb_eq.
Qed.

Lemma zero_filled_4_read (n : Z) :
  (0 <= n <= 9999)%Z ->
  exists a b c d,
    Datetime.zero_filled 4 n = String a (String b (String c (String d "")))
    /\ is_digit_char a = true /\ is_digit_char b = true
    /\ is_digit_char c = true /\ is_digit_char d = true
    /\ Datetime.parse_digits_from
         [nat_of_ascii a; nat_of_ascii b; nat_of_ascii c; nat_of_ascii d]
         0 4 0
       = Some n.
Proof.
  intros Hn.
  pose (f := fun n =>
            match Datetime.zero_filled 4 n with
            | String a (String b (String c (String d ""))) =>
                is_digit_char a && is_digit_char b
                && is_digit_char c && is_digit_char d
                && option_Z_eqb
                     (Datetime.parse_digits_from
                        [nat_of_ascii a; nat_of_ascii b; nat_of_ascii c;
                         nat_of_ascii d] 0 4 0) n
            | _ => false
            end).
  assert (Hc : f n = true).
  { apply (holds_upto_spec f (Z.to_nat 10000) 0%Z); [vm_compute; reflexivity|].
    rewrite Z2Nat.id; lia. }
  subst f. cbv beta in Hc.
  destruct (Datetime.zero_filled 4 n) as [|a [|b [|c [|d [|]]]]];
    try discriminate.
  do 4 (apply andb_prop in Hc as [Hc ?]).
  exists a, b, c, d. repeat split; try assumption. now apply option_Z_eqb_eq.
Qed.

Lemma separator_of_date (y1 y2 y3 y4 m1 m2 d1 d2 : nat) (rest : list nat) :
  Datetime.is_digit m1 = true ->
  Datetime.find_isoformat_datetime_separator
    (y1 :: y2 :: y3 :: y4 :: 45 :: m1 :: m2 :: 45 :: d1 :: d2 :: rest)%nat
  = Some 10%nat.
Proof.
  intros Hm1. unfold Datetime.find_isoformat_datetime_separator.
  cbn [List.length Nat.eqb Datetime.byte_at nth].
  change (45 =? Datetime.hyphen)%nat with true. cbv iota.
  destruct (Nat.eqb_spec m1 Datetime.letter_W) as [->|_]; [discriminate|].
  reflexivity.
Qed.

Lemma date_of_digits (y1 y2 y3 y4 m1 m2 d1 d2 : nat) (rest : list nat)
    (y m d : Z) :
  Datetime.parse_digits_from [y1; y2; y3; y4] 0 4 0 = Some y ->
  Datetime.parse_digits_from [m1; m2] 0 2 0 = Some m ->
  Datetime.parse_digits_from [d1; d2] 0 2 0 = Some d ->
  Datetime.is_digit m1 = true ->
  Datetime.parse_isoformat_date
    (y1 :: y2 :: y3 :: y4 :: 45 :: m1 :: m2 :: 45 :: d1 :: d2 :: rest)%nat 10
  = Some (y, m, d).
Proof.
  intros Hy Hm Hd Hm1.
  unfold Datetime.parse_isoformat_date, Datetime.parse_digits.
  change (Datetime.parse_digits_from
            (y1 :: y2 :: y3 :: y4 :: 45 :: m1 :: m2 :: 45 :: d1 :: d2 :: rest)%nat
            0 4 0)
    with (Datetime.parse_digits_from [y1; y2; y3; y4] 0 4 0).
  rewrite Hy. cbn [Datetime.opt_bind Nat.add Datetime.byte_at nth].
  change (45 =? Datetime.hyphen)%nat with true. cbv iota.
  cbn [nth].
  destruct (Nat.eqb_spec m1 Datetime.letter_W) as [->|_]; [discriminate|].
  change (Datetime.parse_digits_from
            (y1 :: y2 :: y3 :: y4 :: 45 :: m1 :: m2 :: 45 :: d1 :: d2 :: rest)%nat
            5 2 0)
    with (Datetime.parse_digits_from [m1; m2] 0 2 0).
  rewrite Hm. cbn [Datetime.opt_bind Nat.add Datetime.byte_at nth negb orb].
  change (45 =? Datetime.hyphen)%nat with true.
  cbn [Datetime.guard Datetime.opt_bind].
  change (Datetime.parse_digits_from
            (y1 :: y2 :: y3 :: y4 :: 45 :: m1 :: m2 :: 45 :: d1 :: d2 :: rest)%nat
            8 2 0)
    with (Datetime.parse_digits_from [d1; d2] 0 2 0).
  rewrite Hd. reflexivity.
Qed.

Lemma bytes_app (a b : string) :
  Datetime.bytes (a ++ b) = (Datetime.bytes a ++ Datetime.bytes b)%list.
Proof.
  unfold Datetime.bytes. induction a as [|c a IH]; [reflexivity|].
  cbn [append list_ascii_of_string flat_map]. rewrite IH.
  now rewrite app_assoc.
Qed.

Lemma replace_char_app (old : ascii) (new a b : string) :
  replace_char old new (a ++ b)
  = replace_char old new a ++ replace_char old new b.
Proof.
  induction a as [|c a IH]; [reflexivity|].
  cbn [append replace_char]. rewrite IH. now rewrite append_assoc.
Qed.

(** The text of a calendar date: ten characters, none of them [Z], which
    the parser reads as that date whatever follows. *)
Lemma iso_date_read (y m d : Z) :
  valid_date y m d ->
  exists y1 y2 y3 y4 m1 m2 d1 d2 : nat,
    (forall rest,
        Datetime.bytes (iso_date y m d ++ rest)
        = y1 :: y2 :: y3 :: y4 :: 45 :: m1 :: m2 :: 45 :: d1 :: d2
             :: Datetime.bytes rest)%nat
    /\ replace_char "Z" "+00:00" (iso_date y m d) = iso_date y m d
    /\ iso_date y m d <> ""
    /\ Datetime.is_digit m1 = true
    /\ Datetime.parse_digits_from [y1; y2; y3; y4] 0 4 0 = Some y
    /\ Datetime.parse_digits_from [m1; m2] 0 2 0 = Some m
    /\ Datetime.parse_digits_from [d1; d2] 0 2 0 = Some d.
Proof.
  intros (Hy & Hm & Hd). pose proof (days_in_month_le y m) as Hle.
  destruct (zero_filled_4_read y) as (a & b & c & e & Hys & Ha & Hb & Hc & He & Hyv);
    [lia|].
  destruct (zero_filled_2_read m) as (f & g & Hms & Hf & Hg & Hmv); [lia|].
  destruct (zero_filled_2_read d) as (h & i & Hds & Hh & Hi & Hdv); [lia|].
  exists (nat_of_ascii a), (nat_of_ascii b), (nat_of_ascii c), (nat_of_ascii e),
    (nat_of_ascii f), (nat_of_ascii g), (nat_of_ascii h), (nat_of_ascii i).
  unfold iso_date. rewrite Hys, Hms, Hds.
  destruct (digit_char_facts a Ha) as (Ua & _ & Za & _).
  destruct (digit_char_facts b Hb) as (Ub & _ & Zb & _).
  destruct (digit_char_facts c Hc) as (Uc & _ & Zc & _).
  destruct (digit_char_facts e He) as (Ue & _ & Ze & _).
  destruct (digit_char_facts f Hf) as (Uf & Df & Zf & _).
  destruct (digit_char_facts g Hg) as (Ug & _ & Zg & _).
  destruct (digit_char_facts h Hh) as (Uh & _ & Zh & _).
  destruct (digit_char_facts i Hi) as (Ui & _ & Zi & _).
  repeat split; try assumption.
  - intros rest. unfold Datetime.bytes.
    cbn [append list_ascii_of_string flat_map].
    rewrite Ua, Ub, Uc, Ue, Uf, Ug, Uh, Ui. reflexivity.
  - cbn [append replace_char]. rewrite Za, Zb, Zc, Ze, Zf, Zg, Zh, Zi.
    reflexivity.
  - discriminate.
Qed.

(** A calendar date in the text [YYYY-MM-DD], followed by a time the
    parser accepts, is read as that date. *)
Lemma fromisoformat_iso_date (y m d : Z) (rest : string)
    (hh mm ss us : Z) (tz : option Z) :
  valid_date y m d ->
  (forall b : list nat,
      List.length b = 10%nat ->
      (if (10 <? List.length (b ++ Datetime.bytes rest))%nat
       then Datetime.parse_isoformat_time (b ++ Datetime.bytes rest)
              (10 + Datetime.separator_width
                      (Datetime.byte_at (b ++ Datetime.bytes rest) 10))
       else Some (0, 0, 0, 0, None)%Z)
      = Some (hh, mm, ss, us, tz)) ->
  ((hh <? 24) && (mm <? 60) && (ss <? 60))%Z = true ->
  Datetime.fromisoformat (iso_date y m d ++ rest)
  = Some {| year := y; month := m; day := d; hour := hh; minute := mm;
            second := ss; microsecond := us; utcoffset := tz |}.
Proof.
  intros Hv Ht Hr.
  destruct (iso_date_read y m d Hv)
    as (y1 & y2 & y3 & y4 & m1 & m2 & d1 & d2 & Hb & _ & _ & Hm1 & Hy & Hm & Hd).
  destruct Hv as (Hyr & Hmr & Hdr).
  unfold Datetime.fromisoformat. rewrite Hb.
  rewrite separator_of_date by assumption.
  cbn [Datetime.opt_bind].
  rewrite (date_of_digits _ _ _ _ _ _ _ _ _ y m d) by assumption.
  cbn [Datetime.opt_bind].
  specialize (Ht [y1; y2; y3; y4; 45; m1; m2; 45; d1; d2]%nat eq_refl).
  cbn [app] in Ht. rewrite Ht. cbn [Datetime.opt_bind].
  replace ((1 <=? y) && (y <=? 9999) && (1 <=? m) && (m <=? 12) && (1 <=? d)
           && (d <=? Datetime.days_in_month y m))%Z with true.
  - cbn [andb]. rewrite Hr. reflexivity.
  - symmetry. repeat (apply andb_true_intro; split); apply Z.leb_le; lia.
Qed.




(** C10. A date that tests false, the empty string among them, gives [N/A],
    whatever the parser would have answered. *)
Theorem format_date_falsy (P : DateParser) (date_str : json) :
  truthy date_str = false -> format_date date_str = JStr "N/A".
Proof. intros Hf. unfold format_date. now rewrite Hf. Qed.

Lemma format_date_falsy_witness :
  truthy (JStr "") = false
  /\ @format_date documented_parser (JStr "") = JStr "N/A".
Proof.
  split; [reflexivity|].
  apply (format_date_falsy documented_parser (JStr "")). reflexivity.
Defined.

(** ** The invocation *)

Lemma extract_marker_absent (content : string) :
  PyStr.find marker content = (-1)%Z -> extract_json_str content = None.
Proof. intros Hf. unfold extract_json_str. now rewrite Hf. Qed.

Lemma extract_unclosed (content : string) :
  scan_from content (Z.to_nat (PyStr.find marker content)) = None ->
  extract_json_str content = None.
Proof.
  intros Hs. unfold extract_json_str. rewrite Hs.
  now destruct (PyStr.find marker content =? -1)%Z.
Qed.

Section InvocationFacts.

Context `{Runtime} `{DateParser}.

Variables (net : network) (query : string) (page : Z) (ai_only raw : bool).

Lemma decode_nothing (content : string) :
  extract_json_str content = None -> decode content = ([], inr JNull).
Proof. intros He. unfold decode. now rewrite He. Qed.

(** With no text extracted, the body of the response is previewed. *)
Lemma search_previews (status_code : Z) (text : string) :
  net (build_url query page ai_only) = Response status_code text ->
  is_success status_code = true ->
  extract_json_str text = None ->
  search_adobe_stock net query page ai_only raw
  = ([ Print ("Searching for: " ++ query ++ " (Page " ++ PyStr.of_Z page ++ ")...");
       ClientOpen true 30;
       Get (build_url query page ai_only) headers cookies;
       Print "Could not find image data in the response. The RSC format might have changed.";
       Print (PyStr.nl ++ "Response Preview (first 3000 chars):");
       Print (PyStr.take 3000 text);
       ClientClose ], inr tt).
Proof.
  intros Hnet Hok He.
  unfold search_adobe_stock, try_body, client_get. rewrite Hnet.
  cbv beta iota delta [bind emit ret raise_for_status response_text].
  rewrite Hok, (decode_nothing text He). reflexivity.
Qed.


(** C9. When the marker is found but the scan reaches the end of the body
    without coming back to depth 0, no text is extracted, [json.loads] is
    not called, decoding gives [None], and the invocation ends exactly as
    when the marker is absent: the preview, no exception. *)
Theorem unclosed_object_preview (status_code : Z) (text : string) :
  net (build_url query page ai_only) = Response status_code text ->
  is_success status_code = true ->
  PyStr.find marker text <> (-1)%Z ->
  scan_from text (Z.to_nat (PyStr.find marker text)) = None ->
  extract_json_str text = None
  /\ decode text = ([], inr JNull)
  /\ search_adobe_stock net query page ai_only raw
     = ([ Print ("Searching for: " ++ query ++ " (Page " ++ PyStr.of_Z page ++ ")...");
          ClientOpen true 30;
          Get (build_url query page ai_only) headers cookies;
          Print "Could not find image data in the response. The RSC format might have changed.";
          Print (PyStr.nl ++ "Response Preview (first 3000 chars):");
          Print (PyStr.take 3000 text);
          ClientClose ], inr tt).
Proof.
  intros Hnet Hok _ Hscan. pose proof (extract_unclosed text Hscan) as He.
  split; [exact He|]. split; [now apply decode_nothing|].
  now rewrite (search_previews status_code text Hnet Hok He).
Qed.


End InvocationFacts.

(** ** The request builder *)

Lemma all_chars_append (p : ascii -> bool) (a b : string) :
  PyStr.all_chars p (a ++ b) = PyStr.all_chars p a && PyStr.all_chars p b.
Proof.
  induction a as [|c a IH]; simpl; [reflexivity|].
  now rewrite IH, andb_assoc.
Qed.

Lemma all_chars_impl (p q : ascii -> bool) (s : string) :
  (forall c, p c = true -> q c = true) ->
  PyStr.all_chars p s = true -> PyStr.all_chars q s = true.
Proof.
  intros Hpq. induction s as [|c s IH]; simpl; [reflexivity|].
  intros [Hc Hs]%andb_prop. now rewrite (Hpq c Hc), IH.
Qed.

Lemma quote_char_safe (c : ascii) :
  PyStr.all_chars Urllib.url_safe (Urllib.quote_char c) = true.
Proof. destruct c as [[] [] [] [] [] [] [] []]; reflexivity. Qed.

Lemma quote_plus_safe (s : string) :
  PyStr.all_chars Urllib.url_safe (Urllib.quote_plus s) = true.
Proof.
  induction s as [|c s IH]; simpl; [reflexivity|].
  now rewrite all_chars_append, quote_char_safe, IH.
Qed.

Lemma url_safe_not_amp (c : ascii) : Urllib.url_safe c = true -> not_amp c = true.
Proof. destruct c as [[] [] [] [] [] [] [] []]; vm_compute; congruence. Qed.

Lemma uint_not_amp (d : Decimal.uint) :
  PyStr.all_chars not_amp (NilEmpty.string_of_uint d) = true.
Proof. induction d; simpl; auto. Qed.

Lemma of_Z_not_amp (n : Z) : PyStr.all_chars not_amp (PyStr.of_Z n) = true.
Proof.
  unfold PyStr.of_Z, NilZero.string_of_int, NilZero.string_of_uint.
  destruct (Z.to_int n) as [d|d]; (destruct d eqn:E; [reflexivity| ..]);
    rewrite <- E; try apply (uint_not_amp d);
    change (PyStr.all_chars not_amp ("-" ++ NilEmpty.string_of_uint d) = true);
    rewrite all_chars_append; apply uint_not_amp.
Qed.

(** No occurrence of a text that opens with [&] begins in text without [&]. *)
Lemma contains_skip (sub a b : string) :
  PyStr.all_chars not_amp a = true ->
  PyStr.contains (String "&" sub) (a ++ b) = PyStr.contains (String "&" sub) b.
Proof.
  induction a as [|c a IH]; [reflexivity|].
  intros [Hc Ha]%andb_prop. cbn [append PyStr.contains PyStr.startswith].
  unfold not_amp in Hc. rewrite Ascii.eqb_sym in Hc.
  destruct (Ascii.eqb "&" c); [discriminate|]. cbn [andb orb]. now apply IH.
Qed.

Lemma contains_append_r (sub a s : string) :
  PyStr.contains sub s = true -> PyStr.contains sub (a ++ s) = true.
Proof.
  intros Hs. induction a as [|c a IH]; [exact Hs|].
  cbn [append PyStr.contains]. rewrite IH. apply orb_true_r.
Qed.

Lemma contains_here (sub rest : string) :
  PyStr.contains sub (sub ++ rest) = true.
Proof.
  destruct (sub ++ rest) eqn:E; cbn [PyStr.contains]; rewrite <- E;
    now rewrite startswith_append.
Qed.

Lemma endswith_append (a sub : string) : PyStr.endswith sub (a ++ sub) = true.
Proof.
  unfold PyStr.endswith. rewrite length_append.
  replace (length a + length sub - length sub) with (length a) by lia.
  rewrite drop_append, String.eqb_refl, andb_true_r. apply Nat.leb_le. lia.
Qed.

Lemma build_url_parts (query : string) (page : Z) (ai_only : bool) :
  build_url query page ai_only
  = "https://trackadobestock.com/search?q=" ++ Urllib.quote_plus query
      ++ (if ai_only then "&generative_ai=only" else "")
      ++ (if (page >? 1)%Z then "&page=" ++ PyStr.of_Z page else "")
      ++ "&_rsc=1gn38".
Proof.
  unfold build_url. destruct ai_only, (page >? 1)%Z;
    rewrite ?append_assoc; cbn [append]; rewrite ?append_assoc; reflexivity.
Qed.

Lemma startswith_shorter (sub x s : string) :
  PyStr.startswith (sub ++ x) s = true -> PyStr.startswith sub s = true.
Proof.
  revert s; induction sub as [|c sub IH]; intros [|b s]; simpl; try easy.
  intros [-> Hs]%andb_prop. now apply IH.
Qed.

Lemma contains_shorter (sub x s : string) :
  PyStr.contains (sub ++ x) s = true -> PyStr.contains sub s = true.
Proof.
  induction s as [|b s IH]; cbn [PyStr.contains].
  - rewrite !orb_false_r. apply startswith_shorter.
  - intros [Hs|Hs]%orb_prop.
    + now rewrite (startswith_shorter _ _ _ Hs).
    + rewrite (IH Hs). apply orb_true_r.
Qed.

Lemma head_not_amp (query : string) :
  PyStr.all_chars not_amp (Urllib.quote_plus query) = true.
Proof.
  apply all_chars_impl with Urllib.url_safe;
    [exact url_safe_not_amp | apply quote_plus_safe].
Qed.

Ltac scan_literal :=
  cbn [PyStr.contains PyStr.startswith append Ascii.eqb Bool.eqb andb orb].

Lemma contains_ai_filter (query : string) (page : Z) (ai_only : bool) :
  PyStr.contains "&generative_ai=only" (build_url query page ai_only) = ai_only.
Proof.
  rewrite build_url_parts.
  rewrite contains_skip by reflexivity.
  rewrite contains_skip by apply head_not_amp.
  destruct ai_only; [apply contains_here|].
  destruct (page >? 1)%Z; scan_literal;
    rewrite ?contains_skip by apply of_Z_not_amp; reflexivity.
Qed.

Lemma contains_page (query : string) (page : Z) (ai_only : bool) :
  PyStr.contains "&page=" (build_url query page ai_only) = (page >? 1)%Z.
Proof.
  rewrite build_url_parts.
  rewrite contains_skip by reflexivity.
  rewrite contains_skip by apply head_not_amp.
  destruct ai_only, (page >? 1)%Z; scan_literal; reflexivity.
Qed.

Lemma contains_page_number (query : string) (page : Z) (ai_only : bool) :
  PyStr.contains ("&page=" ++ PyStr.of_Z page ++ "&")
    (build_url query page ai_only) = (page >? 1)%Z.
Proof.
  destruct (page >? 1)%Z eqn:Hp.
  - rewrite build_url_parts, Hp. do 3 apply contains_append_r.
    replace (("&page=" ++ PyStr.of_Z page) ++ "&_rsc=1gn38")
      with (("&page=" ++ PyStr.of_Z page ++ "&") ++ "_rsc=1gn38")
      by (rewrite !append_assoc; reflexivity).
    apply contains_here.
  - destruct (PyStr.contains _ _) eqn:Hc; [|reflexivity].
    apply contains_shorter in Hc. rewrite contains_page, Hp in Hc.
    discriminate.
Qed.

Lemma endswith_marker_param (query : string) (page : Z) (ai_only : bool) :
  PyStr.endswith "&_rsc=1gn38" (build_url query page ai_only) = true.
Proof.
  rewrite build_url_parts.
  rewrite <- (append_assoc _ _ "&_rsc=1gn38").
  rewrite <- (append_assoc _ _ "&_rsc=1gn38").
  rewrite <- (append_assoc _ _ "&_rsc=1gn38").
  apply endswith_append.
Qed.

Lemma bind_head {A B} (e0 : event) (out : list event) (r : exn + A)
    (k : A -> run B) :
  exists out' r', bind (e0 :: out, r) k = (e0 :: out', r').
Proof.
  unfold bind. destruct r as [e|a]; [do 2 eexists; reflexivity|].
  destruct (k a) as [o r']. do 2 eexists. reflexivity.
Qed.

Lemma try_except_finally_head (e0 : event) (out : list event)
    (r : exn + unit) (h : exn -> option (run unit)) (f : run unit) :
  exists out', fst (try_except_finally (e0 :: out, r) h f) = e0 :: out'.
Proof.
  unfold try_except_finally.
  destruct r as [e|[]]; [destruct (h e) as [[o r']|]|];
    destruct f as [o' r'']; eexists; reflexivity.
Qed.

Lemma request_sent (R : Runtime) (D : DateParser) (net : network)
    (query : string) (page : Z) (ai_only raw : bool) :
  exists rest,
    fst (search_adobe_stock net query page ai_only raw)
    = Print ("Searching for: " ++ query ++ " (Page " ++ PyStr.of_Z page ++ ")...")
        :: ClientOpen true 30
        :: Get (build_url query page ai_only) headers cookies :: rest.
Proof.
  unfold search_adobe_stock, try_body, client_get.
  set (url := build_url query page ai_only).
  assert (Hget : exists out r,
             bind (emit (Get url headers cookies))
               (fun _ => match net url with
                         | Failed msg => raise (RequestError msg)
                         | r => ret r
                         end) = (Get url headers cookies :: out, r)).
  { unfold bind, emit. destruct (net url); do 2 eexists; reflexivity. }
  destruct Hget as [out [r ->]].
  match goal with
  | |- context [bind (_ :: out, r) ?k] =>
      destruct (bind_head (Get url headers cookies) out r k) as [out' [r' ->]]
  end.
  destruct (try_except_finally_head (Get url headers cookies) out' r' handler
              (emit ClientClose)) as [rest Hrest].
  exists rest. unfold bind, print, emit.
  destruct (try_except_finally _ _ _) as [o res]. cbn [fst] in *.
  now rewrite Hrest.
Qed.

Lemma unquote_first_quote_char (c : ascii) (r : string) :
  Unquote.first (Urllib.quote_char c ++ r) = Some (c, r).
Proof. destruct c as [[] [] [] [] [] [] [] []]; reflexivity. Qed.

Lemma quote_plus_injective (a : string) :
  forall b, Urllib.quote_plus a = Urllib.quote_plus b -> a = b.
Proof.
  induction a as [|c a IH]; intros [|d b] E; cbn [Urllib.quote_plus] in E.
  - reflexivity.
  - apply (f_equal Unquote.first) in E.
    rewrite unquote_first_quote_char in E. discriminate.
  - apply (f_equal Unquote.first) in E.
    rewrite unquote_first_quote_char in E. discriminate.
  - apply (f_equal Unquote.first) in E.
    rewrite !unquote_first_quote_char in E. injection E as -> E.
    f_equal. now apply IH.
Qed.

Lemma quote_char_length (c : ascii) : (1 <= length (Urllib.quote_char c))%nat.
Proof.
  destruct c as [[] [] [] [] [] [] [] []]; apply Nat.leb_le; reflexivity.
Qed.

(** Decoding an encoded query gives the query back. *)
Lemma unquote_quote_plus (query : string) :
  Unquote.unquote_plus (Urllib.quote_plus query) = Some query.
Proof.
  unfold Unquote.unquote_plus.
  assert (H : forall n,
             (length (Urllib.quote_plus query) <= n)%nat ->
             Unquote.decode n (Urllib.quote_plus query) = Some query).
  { induction query as [|c query IH]; intros n Hn.
    - destruct n; reflexivity.
    - cbn [Urllib.quote_plus] in *. rewrite length_append in Hn.
      pose proof (quote_char_length c) as Hc.
      destruct n as [|n]; [lia|].
      cbn [Unquote.decode]. rewrite unquote_first_quote_char.
      rewrite IH by lia. reflexivity. }
  apply H. lia.
Qed.

Lemma append_cancel_l (a x y : string) : a ++ x = a ++ y -> x = y.
Proof. induction a as [|c a IH]; simpl; [trivial | intros [= E]; auto]. Qed.

Lemma append_same_length (a b t t' : string) :
  length a = length b -> a ++ t = b ++ t' -> a = b /\ t = t'.
Proof.
  revert b; induction a as [|c a IH]; intros [|d b] Hl E; simpl in *;
    try discriminate; [now split|].
  injection E as -> E. destruct (IH b ltac:(lia) E) as [-> ->]. now split.
Qed.

Lemma append_cancel_r (a b t : string) : a ++ t = b ++ t -> a = b.
Proof.
  intros E. apply (append_same_length a b t t); [|exact E].
  apply (f_equal length) in E. rewrite !length_append in E. lia.
Qed.

Lemma split_at_amp (x : string) :
  forall x' t t',
    PyStr.all_chars not_amp x = true -> PyStr.all_chars not_amp x' = true ->
    x ++ String "&" t = x' ++ String "&" t' -> x = x' /\ t = t'.
Proof.
  induction x as [|c x IH]; intros [|d x'] t t' Hx Hx' E; simpl in *.
  - injection E as ->. now split.
  - injection E as <- _. now apply andb_prop in Hx' as [Hd _].
  - injection E as -> _. now apply andb_prop in Hx as [Hc _].
  - injection E as -> E. apply andb_prop in Hx as [_ Hx].
    apply andb_prop in Hx' as [_ Hx'].
    destruct (IH x' t t' Hx Hx' E) as [-> ->]. now split.
Qed.

(** Two URLs that are equal were built from the same query and the same
    AI-only choice. *)
Lemma build_url_query (query query' : string) (page page' : Z)
    (ai_only ai_only' : bool) :
  build_url query page ai_only = build_url query' page' ai_only' ->
  query = query' /\ ai_only = ai_only'.
Proof.
  intros E.
  assert (Hai : ai_only = ai_only').
  { apply (f_equal (PyStr.contains "&generative_ai=only")) in E.
    now rewrite !contains_ai_filter in E. }
  split; [|exact Hai].
  rewrite !build_url_parts in E. apply append_cancel_l in E.
  pose proof (head_not_amp query) as Hq. pose proof (head_not_amp query') as Hq'.
  apply quote_plus_injective.
  destruct ai_only, ai_only', (page >? 1)%Z, (page' >? 1)%Z; cbn [append] in E;
    now apply split_at_amp in E as [Eq _].
Qed.

(** The query is found in the URL, between the address and the first
    separator of parameters. *)
Lemma build_url_head (query : string) (page : Z) (ai_only : bool) :
  exists params,
    build_url query page ai_only
    = "https://trackadobestock.com/search?q=" ++ Urllib.quote_plus query
        ++ String "&" params.
Proof.
  rewrite build_url_parts.
  destruct ai_only, (page >? 1)%Z; cbn [append]; eexists; reflexivity.
Qed.

(** C5. The URL is a function of the query, the page and the AI-only
    flag: the search address with the encoded query, then the AI-only
    parameter when asked for, then the page parameter when the page is
    above 1, then the marker parameter.  The encoded query is made of
    letters, digits and [_.-~+%] only and decodes to the query, so equal
    URLs come from equal queries and equal flags; the URL holds the
    AI-only parameter exactly when [ai_only] is set and a page parameter,
    with the page number, exactly when the page is above 1; it ends with
    the marker parameter; and the one request of an invocation goes to
    this URL, whatever the network and the runtime are.  The query
    [red cat & dog] on page 3 with the filter, [nature] on page 1 without
    it and a query with an accented letter give the URLs written out. *)
Theorem request_url (query : string) (page : Z) (ai_only : bool) :
  build_url query page ai_only
  = "https://trackadobestock.com/search?q=" ++ Urllib.quote_plus query
      ++ (if ai_only then "&generative_ai=only" else "")
      ++ (if (page >? 1)%Z then "&page=" ++ PyStr.of_Z page else "")
      ++ "&_rsc=1gn38"
  /\ PyStr.all_chars Urllib.url_safe (Urllib.quote_plus query) = true
  /\ PyStr.contains "&generative_ai=only" (build_url query page ai_only)
     = ai_only
  /\ PyStr.contains "&page=" (build_url query page ai_only) = (page >? 1)%Z
  /\ PyStr.contains ("&page=" ++ PyStr.of_Z page ++ "&")
       (build_url query page ai_only) = (page >? 1)%Z
  /\ PyStr.endswith "&_rsc=1gn38" (build_url query page ai_only) = true
  /\ (forall (R : Runtime) (D : DateParser) (net : network) (raw : bool),
         exists rest,
           fst (search_adobe_stock net query page ai_only raw)
           = Print ("Searching for: " ++ query ++ " (Page "
                      ++ PyStr.of_Z page ++ ")...")
               :: ClientOpen true 30
               :: Get (build_url query page ai_only) headers cookies :: rest)
  /\ Unquote.unquote_plus (Urllib.quote_plus query) = Some query
  /\ (exists params,
         build_url query page ai_only
         = "https://trackadobestock.com/search?q=" ++ Urllib.quote_plus query
             ++ String "&" params)
  /\ (forall query' page' ai_only',
         build_url query page ai_only = build_url query' page' ai_only' ->
         query = query' /\ ai_only = ai_only')
  /\ Urllib.quote_plus "red cat & dog" = "red+cat+%26+dog"
  /\ Urllib.quote_plus ("caf" ++ String "233" " au lait/100%")
     = "caf%C3%A9+au+lait%2F100%25"
  /\ Urllib.quote_plus "A-z_0.9~" = "A-z_0.9~"
  /\ build_url "red cat & dog" 3 true
     = "https://trackadobestock.com/search?q=red+cat+%26+dog&generative_ai=only&page=3&_rsc=1gn38"
  /\ build_url "nature" 1 false
     = "https://trackadobestock.com/search?q=nature&_rsc=1gn38"
  /\ build_url "nature" 2 false
     = "https://trackadobestock.com/search?q=nature&page=2&_rsc=1gn38"
  /\ build_url "nature" 0 true
     = "https://trackadobestock.com/search?q=nature&generative_ai=only&_rsc=1gn38".
Proof.
  split; [apply build_url_parts|].
  split; [apply quote_plus_safe|].
  split; [apply contains_ai_filter|].
  split; [apply contains_page|].
  split; [apply contains_page_number|].
  split; [apply endswith_marker_param|].
  split; [intros R D net raw; apply request_sent|].
  split; [apply unquote_quote_plus|].
  split; [apply build_url_head|].
  split; [intros query' page' ai_only'; apply build_url_query|].
  repeat split; reflexivity.
Qed.

Lemma request_url_witness :
  build_url "red cat" 1 true = build_url "red cat" 0 true
  /\ "red cat" = "red cat"
  /\ Unquote.unquote_plus "red+cat" = Some "red cat".
Proof.
  split; [reflexivity|]. split.
  - exact (proj1 (proj1 (proj2 (proj2 (proj2 (proj2 (proj2 (proj2 (proj2
             (proj2 (proj2 (request_url "red cat" 1 true))))))))))
             "red cat" 0%Z true eq_refl)).
  - exact (proj1 (proj2 (proj2 (proj2 (proj2 (proj2 (proj2 (proj2
             (request_url "red cat" 1 true))))))))).
Defined.

(** ** The properties at sample inputs *)

Lemma decoder_extracts_balanced_object_witness :
  Balanced sample_inner
  /\ PyStr.startswith marker ("{" ++ sample_inner ++ "}") = true
  /\ PyStr.find marker sample_pre = (-1)%Z
  /\ extract_json_str (sample_pre ++ ("{" ++ sample_inner ++ "}") ++ sample_post)
     = Some ("{" ++ sample_inner ++ "}").
Proof.
  assert (Hbal : Balanced sample_inner).
  { pose (q := PyStr.dq).
    change sample_inner
      with ((q ++ "query" ++ q ++ ":" ++ q ++ "cats" ++ q ++ "," ++ q
               ++ "images" ++ q ++ ":[")
              ++ ("{" ++ (q ++ "id" ++ q ++ ":" ++ q ++ "1" ++ q) ++ "}" ++ "]")).
    apply Balanced_append; [|apply Balanced_nest]; vm_compute;
      repeat (apply Balanced_char; [discriminate | discriminate |]);
      apply Balanced_nil. }
  split; [exact Hbal|]. split; [reflexivity|]. split; [reflexivity|].
  exact (proj1 (proj2 (proj2 (proj2 (proj2
           (decoder_extracts_balanced_object sample_pre sample_inner sample_post
              Hbal eq_refl eq_refl)))))).
Defined.

Lemma image_fields_default_witness :
  let fields := [("title", JStr "Cat")] in
  let r := {| Img.title := JStr "Cat"; Img.isAI := JBool false;
              Img.id := JStr "N/A"; Img.downloads := JStr "N/A";
              Img.premium := JStr "N/A"; Img.creator := JStr "N/A";
              Img.creatorId := JStr ""; Img.mediaType := JStr "N/A";
              Img.category := JStr "N/A"; Img.contentType := JStr "N/A";
              Img.dimensions := JStr "N/A"; Img.creationDate := JStr "";
              Img.keywords := JStr ""; Img.thumbnailUrl := JStr "N/A" |} in
  NoDup (map fst fields)
  /\ record_of fields r
  /\ Img.keywords_typed r
  /\ @show_image sample_runtime documented_parser 1 (JObj fields)
     = ([ Print "============================================================";
          Print "  #1 Cat";
          Print "============================================================";
          Print "  Stock ID:     N/A";
          Print "  Downloads:    N/A";
          Print "  Premium:      N/A";
          Print "  Creator:      N/A";
          Print "  Type:         N/A (N/A)";
          Print "  Category:     N/A";
          Print "  Dimensions:   N/A";
          Print "  Thumbnail:    N/A";
          Print "  Stock URL:    https://stock.adobe.com/N/A";
          Print "" ], inr tt).
Proof.
  intros fields r.
  assert (Hnd : NoDup (map fst fields))
    by (repeat constructor; cbn; intuition discriminate).
  assert (Hr : record_of fields r).
  { unfold record_of.
    split; [left; cbn; intuition|].
    repeat split;
      try (right; split; [cbn; intuition discriminate | reflexivity]). }
  assert (Hk : Img.keywords_typed r) by (left; reflexivity).
  split; [exact Hnd|]. split; [exact Hr|]. split; [exact Hk|].
  exact (proj1 (proj2 (proj2 (proj2
           (@image_fields_default sample_runtime documented_parser))))
           1%Z fields r Hnd Hr Hk).
Defined.



Lemma unclosed_object_preview_witness :
  PyStr.find marker sample_unclosed = 2%Z
  /\ scan_from sample_unclosed 2 = None
  /\ snd (@search_adobe_stock sample_runtime documented_parser
            (answering (Response 200 sample_unclosed)) "cats" 1 false false)
     = inr tt.
Proof.
  split; [reflexivity|]. split; [reflexivity|].
  rewrite (proj2 (proj2 (@unclosed_object_preview sample_runtime documented_parser
                    (answering (Response 200 sample_unclosed))
                    "cats" 1 false false 200 sample_unclosed
                    eq_refl eq_refl ltac:(vm_compute; discriminate) eq_refl))).
  reflexivity.
Defined.


(** * Further properties of the code *)

(** ** The stream decoder, on any body *)

Lemma startswith_split (sub s : string) :
  PyStr.startswith sub s = true -> exists r, s = sub ++ r.
Proof.
  revert s; induction sub as [|c sub IH]; intros s Hs; [now exists s|].
  destruct s as [|b s]; [discriminate|]. simpl in Hs.
  apply andb_prop in Hs as [Hc Hs]. apply Ascii.eqb_eq in Hc as ->.
  destruct (IH s Hs) as [r ->]. now exists r.
Qed.

Lemma find_from_found (sub s : string) :
  forall i k,
    PyStr.find_from sub s i = Some k ->
    exists pre rest, s = pre ++ sub ++ rest /\ k = i + length pre.
Proof.
  induction s as [|c s IH]; intros i k Hf; cbn [PyStr.find_from] in Hf.
  - destruct (PyStr.startswith sub "") eqn:Hs; [|discriminate].
    injection Hf as <-. destruct (startswith_split _ _ Hs) as [r Hr].
    exists "", r. split; [exact Hr | simpl; lia].
  - destruct (PyStr.startswith sub (String c s)) eqn:Hs.
    + injection Hf as <-. destruct (startswith_split _ _ Hs) as [r Hr].
      exists "", r. split; [exact Hr | simpl; lia].
    + destruct (IH _ _ Hf) as [pre [rest [E Hk]]].
      exists (String c pre), rest. subst. simpl. split; [reflexivity | lia].
Qed.

(** From a positive depth the scan stops at the first closing brace that
    brings the depth to 0: the text before it keeps the depth positive. *)
Lemma scan_stops (rest : string) :
  forall i depth k,
    (0 < depth)%Z ->
    scan rest i depth = Some k ->
    exists a b,
      rest = a ++ "}" ++ b /\ k = i + length a
      /\ (depth + brace_depth a = 1)%Z
      /\ forall n, (0 < depth + brace_depth (PyStr.take n a))%Z.
Proof.
  induction rest as [|c rest IH]; intros i depth k Hd Hs; [discriminate|].
  cbn [scan] in Hs.
  destruct (Ascii.eqb c "{") eqn:Ho.
  - apply Ascii.eqb_eq in Ho as ->.
    apply IH in Hs as [a [b [-> [-> [Hda Hp]]]]]; [|lia].
    exists (String "{" a), b. repeat split.
    + simpl. lia.
    + cbn [brace_depth]. rewrite Ascii.eqb_refl. lia.
    + intros [|n]; cbn [PyStr.take brace_depth]; [lia|].
      rewrite Ascii.eqb_refl. specialize (Hp n). lia.
  - destruct (Ascii.eqb c "}") eqn:Hc.
    + apply Ascii.eqb_eq in Hc as ->. cbv zeta in Hs.
      destruct (depth - 1 =? 0)%Z eqn:Hz.
      * injection Hs as <-. apply Z.eqb_eq in Hz.
        exists "", rest. repeat split.
        -- simpl. lia.
        -- simpl. lia.
        -- intros n. destruct n; simpl; lia.
      * apply Z.eqb_neq in Hz.
        apply IH in Hs as [a [b [-> [-> [Hda Hp]]]]]; [|lia].
        exists (String "}" a), b. repeat split.
        -- simpl. lia.
        -- cbn [brace_depth]. replace (Ascii.eqb "}" "{") with false by reflexivity.
           rewrite Ascii.eqb_refl. lia.
        -- intros [|n]; cbn [PyStr.take brace_depth]; [lia|].
           replace (Ascii.eqb "}" "{") with false by reflexivity.
           rewrite Ascii.eqb_refl. specialize (Hp n). lia.
    + apply IH in Hs as [a [b [-> [-> [Hda Hp]]]]]; [|lia].
      exists (String c a), b. repeat split.
      * simpl. lia.
      * cbn [brace_depth]. rewrite Ho, Hc. lia.
      * intros [|n]; cbn [PyStr.take brace_depth]; [lia|].
        rewrite Ho, Hc. specialize (Hp n). lia.
Qed.

Lemma scan_marker (rest : string) (i : nat) :
  scan (marker ++ rest) i 0 = scan rest (10 + i) 1.
Proof. reflexivity. Qed.

Lemma marker_prefix_depth (n : nat) :
  0 < n -> n <= 10 -> brace_depth (PyStr.take n marker) = 1%Z.
Proof.
  intros Hn Hm.
  do 11 (destruct n as [|n]; [try lia; reflexivity|]). lia.
Qed.

Lemma extract_found (content s : string) :
  extract_json_str content = Some s ->
  exists pre a post,
    content = pre ++ s ++ post
    /\ PyStr.find marker content = Z.of_nat (length pre)
    /\ s = marker ++ a ++ "}"
    /\ brace_depth a = 0%Z
    /\ forall n, (0 <= brace_depth (PyStr.take n a))%Z.
Proof.
  unfold extract_json_str, PyStr.find, scan_from.
  destruct (PyStr.find_from marker content 0) as [k|] eqn:Hf; [|discriminate].
  replace (Z.of_nat k =? -1)%Z with false by (symmetry; apply Z.eqb_neq; lia).
  rewrite Nat2Z.id.
  destruct (find_from_found _ _ _ _ Hf) as [pre [rest [-> Hk]]].
  simpl in Hk. subst k. rewrite drop_append, scan_marker.
  destruct (scan rest (10 + length pre) 1) as [k|] eqn:Hs; [|discriminate].
  apply scan_stops in Hs as [a [b [-> [-> [Hda Hp]]]]]; [|lia].
  assert (Hslice : PyStr.slice (length pre) (10 + length pre + length a + 1)
                     (pre ++ marker ++ a ++ "}" ++ b) = marker ++ a ++ "}").
  { unfold PyStr.slice. rewrite drop_append.
    replace (marker ++ a ++ "}" ++ b) with ((marker ++ a ++ "}") ++ b)
      by (rewrite !append_assoc; reflexivity).
    replace (10 + length pre + length a + 1 - length pre)
      with (length (marker ++ a ++ "}"))
      by (rewrite !length_append; change (length marker) with 10;
          change (length "}") with 1; lia).
    apply take_append. }
  rewrite Hslice. intros Hs.
  assert (s = marker ++ a ++ "}") as -> by congruence.
  exists pre, a, b. repeat split.
  - rewrite !append_assoc. reflexivity.
  - lia.
  - intros n. specialize (Hp n). lia.
Qed.

(** X1. Whatever the body, a text the decoder extracts is a piece of the
    body that begins at the first occurrence of the marker and ends with a
    closing brace; its braces balance, and no shorter prefix of it has as
    many closing braces as opening ones. *)
Theorem extract_sound (content s : string) :
  extract_json_str content = Some s ->
  exists pre post,
    content = pre ++ s ++ post
    /\ PyStr.find marker content = Z.of_nat (length pre)
    /\ PyStr.startswith marker s = true
    /\ PyStr.endswith "}" s = true
    /\ brace_depth s = 0%Z
    /\ forall n, 0 < n < length s -> (0 < brace_depth (PyStr.take n s))%Z.
Proof.
  intros He. destruct (extract_found content s He)
    as [pre [a [post [Hc [Hf [-> [Hd Hp]]]]]]].
  exists pre, post.
  split; [assumption|]. split; [assumption|].
  split; [apply startswith_append|]. split; [|split].
  - rewrite <- append_assoc. apply endswith_append.
  - rewrite !brace_depth_append, Hd. reflexivity.
  - intros n [Hn Hlen]. rewrite !length_append in Hlen.
    change (length marker) with 10 in Hlen. change (length "}") with 1 in Hlen.
    destruct (Nat.le_gt_cases n 10) as [Hle|Hgt].
    + rewrite take_append_le by exact Hle.
      rewrite marker_prefix_depth by assumption. lia.
    + rewrite take_append_ge by (change (length marker) with 10; lia).
      change (length marker) with 10.
      rewrite brace_depth_append, take_append_le by lia.
      specialize (Hp (n - 10)).
      change (brace_depth marker) with 1%Z. lia.
Qed.

Lemma extract_sound_witness :
  extract_json_str (sample_pre ++ ("{" ++ sample_inner ++ "}") ++ sample_post)
  = Some ("{" ++ sample_inner ++ "}")
  /\ brace_depth ("{" ++ sample_inner ++ "}") = 0%Z.
Proof.
  split; [reflexivity|].
  destruct (extract_sound
              (sample_pre ++ ("{" ++ sample_inner ++ "}") ++ sample_post)
              ("{" ++ sample_inner ++ "}") eq_refl)
    as [pre [post [_ [_ [_ [_ [Hd _]]]]]]].
  exact Hd.
Defined.

Lemma scan_shift (rest : string) (j : nat) :
  forall i depth,
    scan rest (i + j) depth = option_map (fun k => k + j) (scan rest i depth).
Proof.
  induction rest as [|c rest IH]; intros i depth; [reflexivity|].
  cbn [scan]. change (S (i + j)) with (S i + j).
  destruct (Ascii.eqb c "{"); [apply IH|].
  destruct (Ascii.eqb c "}"); [|apply IH].
  cbv zeta. destruct (depth - 1 =? 0)%Z; [reflexivity | apply IH].
Qed.

Lemma find_at_start (sub s : string) :
  PyStr.startswith sub s = true -> PyStr.find sub s = 0%Z.
Proof.
  intros Hs. unfold PyStr.find.
  destruct s; cbn [PyStr.find_from]; now rewrite Hs.
Qed.

(** X2. Text put before a body that opens with the marker, if it holds no
    marker itself, changes nothing to what the decoder extracts: the same
    text, or nothing when the body's object is never closed. *)
Theorem extract_ignores_prefix (pre content : string) :
  PyStr.find marker pre = (-1)%Z ->
  PyStr.startswith marker content = true ->
  extract_json_str (pre ++ content) = extract_json_str content.
Proof.
  intros Hpre Hc. unfold extract_json_str, scan_from.
  pose proof (find_marker_at pre content "" Hc Hpre) as Hf.
  rewrite append_nil_r in Hf. rewrite Hf, (find_at_start _ _ Hc).
  replace (Z.of_nat (length pre) =? -1)%Z with false
    by (symmetry; apply Z.eqb_neq; lia).
  cbn [Z.eqb]. rewrite Nat2Z.id, drop_append.
  change (Z.to_nat 0) with 0. change (PyStr.drop 0 content) with content.
  change (scan content (length pre) 0) with (scan content (0 + length pre) 0).
  rewrite (scan_shift content (length pre) 0 0).
  destruct (scan content 0 0) as [k|]; [|reflexivity].
  cbn [option_map]. f_equal. unfold PyStr.slice.
  rewrite drop_append. change (PyStr.drop 0 content) with content.
  f_equal. lia.
Qed.

Lemma extract_ignores_prefix_witness :
  PyStr.find marker sample_pre = (-1)%Z
  /\ extract_json_str (sample_pre ++ sample_unclosed) = None.
Proof.
  split; [reflexivity|].
  assert (Hu : sample_unclosed = "0:" ++ PyStr.drop 2 sample_unclosed)
    by reflexivity.
  rewrite Hu, <- append_assoc.
  rewrite (extract_ignores_prefix (sample_pre ++ "0:")
             (PyStr.drop 2 sample_unclosed) eq_refl eq_refl).
  reflexivity.
Defined.

Lemma startswith_false_append (sub s more : string) :
  PyStr.startswith sub s = false -> length sub <= length s ->
  PyStr.startswith sub (s ++ more) = false.
Proof.
  revert s; induction sub as [|c sub IH]; intros [|b s] Hs Hl; simpl in *;
    try discriminate; try lia.
  destruct (Ascii.eqb c b); [|reflexivity]. simpl in *. apply IH; [exact Hs | lia].
Qed.

Lemma find_from_append (sub s more : string) :
  forall i k,
    PyStr.find_from sub s i = Some k ->
    PyStr.find_from sub (s ++ more) i = Some k.
Proof.
  induction s as [|c s IH]; intros i k Hf; cbn [PyStr.find_from] in Hf.
  - destruct (PyStr.startswith sub "") eqn:Hs; [|discriminate].
    destruct sub; [|discriminate]. destruct more; exact Hf.
  - change (String c s ++ more) with (String c (s ++ more)).
    cbn [PyStr.find_from].
    destruct (PyStr.startswith sub (String c s)) eqn:Hs.
    + change (String c (s ++ more)) with (String c s ++ more).
      now rewrite (startswith_append_r _ _ more Hs).
    + change (String c (s ++ more)) with (String c s ++ more).
      rewrite startswith_false_append; [now apply IH | exact Hs |].
      destruct (find_from_found _ _ _ _ Hf) as [pre [rest [-> _]]].
      simpl. rewrite !length_append. lia.
Qed.

Lemma scan_append (rest more : string) :
  forall i depth k,
    scan rest i depth = Some k -> scan (rest ++ more) i depth = Some k.
Proof.
  induction rest as [|c rest IH]; intros i depth k Hs; [discriminate|].
  cbn [append scan] in *.
  destruct (Ascii.eqb c "{"); [now apply IH|].
  destruct (Ascii.eqb c "}"); [|now apply IH].
  cbv zeta in *. destruct (depth - 1 =? 0)%Z; [exact Hs | now apply IH].
Qed.

Lemma scan_bound (rest : string) :
  forall i depth k, scan rest i depth = Some k -> i <= k < i + length rest.
Proof.
  induction rest as [|c rest IH]; intros i depth k Hs; [discriminate|].
  cbn [scan] in Hs. cbn [length].
  destruct (Ascii.eqb c "{"); [apply IH in Hs; lia|].
  destruct (Ascii.eqb c "}"); [|apply IH in Hs; lia].
  cbv zeta in Hs. destruct (depth - 1 =? 0)%Z; [|apply IH in Hs; lia].
  injection Hs as <-. lia.
Qed.

Lemma length_drop (n : nat) (s : string) :
  length (PyStr.drop n s) = length s - n.
Proof.
  revert s; induction n as [|n IH]; intros [|c s]; simpl; auto.
Qed.

Lemma drop_append_le (n : nat) (s more : string) :
  n <= length s -> PyStr.drop n (s ++ more) = PyStr.drop n s ++ more.
Proof.
  revert s; induction n as [|n IH]; intros [|c s] Hn; simpl in *;
    try reflexivity; try lia.
  apply IH. lia.
Qed.

(** X3. Once the decoder extracts a text from a body, it extracts the same
    text from that body with anything appended: what follows the closing
    brace is never looked at. *)
Theorem extract_ignores_suffix (content more s : string) :
  extract_json_str content = Some s ->
  extract_json_str (content ++ more) = Some s.
Proof.
  unfold extract_json_str, PyStr.find, scan_from.
  destruct (PyStr.find_from marker content 0) as [k0|] eqn:Hf; [|discriminate].
  rewrite (find_from_append _ _ more _ _ Hf).
  replace (Z.of_nat k0 =? -1)%Z with false by (symmetry; apply Z.eqb_neq; lia).
  rewrite Nat2Z.id.
  assert (Hk0 : k0 <= length content).
  { destruct (find_from_found _ _ _ _ Hf) as [pre [rest [-> ->]]].
    rewrite length_append. simpl. lia. }
  rewrite drop_append_le by exact Hk0.
  destruct (scan (PyStr.drop k0 content) k0 0) as [k|] eqn:Hs; [|discriminate].
  rewrite (scan_append _ more _ _ _ Hs).
  apply scan_bound in Hs. rewrite length_drop in Hs.
  intros E. rewrite <- E. f_equal. unfold PyStr.slice.
  rewrite drop_append_le by exact Hk0.
  apply take_append_le. rewrite length_drop. lia.
Qed.

Lemma extract_ignores_suffix_witness :
  extract_json_str (sample_pre ++ ("{" ++ sample_inner ++ "}"))
  = Some ("{" ++ sample_inner ++ "}")
  /\ extract_json_str
       ((sample_pre ++ ("{" ++ sample_inner ++ "}")) ++ sample_unclosed)
     = Some ("{" ++ sample_inner ++ "}").
Proof.
  split; [reflexivity|].
  apply (extract_ignores_suffix (sample_pre ++ ("{" ++ sample_inner ++ "}"))
           sample_unclosed). reflexivity.
Defined.

(** ** The invocation, on every path *)

Lemma prints_only_ret {A} (a : A) : prints_only (ret a).
Proof. constructor. Qed.

Lemma prints_only_raise {A} (e : exn) : prints_only (raise e : run A).
Proof. constructor. Qed.

Lemma prints_only_print (line : string) : prints_only (print line).
Proof. repeat constructor. Qed.

Lemma prints_only_bind {A B} (m : run A) (k : A -> run B) :
  prints_only m -> (forall a, prints_only (k a)) -> prints_only (bind m k).
Proof.
  unfold prints_only, bind. destruct m as [out [e|a]]; intros Hm Hk; [exact Hm|].
  specialize (Hk a). destruct (k a) as [out' r]. cbn [fst] in *.
  apply Forall_app. now split.
Qed.

Ltac prints :=
  repeat first
    [ apply prints_only_ret | apply prints_only_raise | apply prints_only_print
    | apply prints_only_bind; [|intros ?] ].

Lemma prints_only_py_get (v : json) (key : string) (default : json) :
  prints_only (py_get v key default).
Proof. destruct v; prints. Qed.

Lemma prints_only_py_len (v : json) : prints_only (py_len v).
Proof. destruct v; prints. Qed.

Lemma prints_only_py_iter (v : json) : prints_only (py_iter v).
Proof. destruct v; prints. Qed.

Lemma prints_only_py_first (v : json) : prints_only (py_first v).
Proof. destruct v as [| | | |[|c s]|[|x l]|]; prints. Qed.

Lemma prints_only_py_slice20 (v : json) : prints_only (py_slice20 v).
Proof. destruct v; prints. Qed.

Lemma prints_only_py_join (sep : string) (v : json) :
  prints_only (py_join sep v).
Proof.
  unfold py_join. apply prints_only_bind; [apply prints_only_py_iter|].
  intros items. destruct (strings_of items); prints.
Qed.

Lemma prints_only_show_keywords (keywords : json) :
  prints_only (show_keywords keywords).
Proof.
  unfold show_keywords. destruct (truthy keywords); [|prints].
  apply prints_only_bind; [apply prints_only_py_slice20 | intros shown].
  apply prints_only_bind; [apply prints_only_py_join | intros joined].
  apply prints_only_bind; [prints | intros _].
  apply prints_only_bind; [apply prints_only_py_len | intros count]. prints.
Qed.

Section EveryPath.

Context `{Runtime} `{DateParser}.

Lemma prints_only_show_image (idx : Z) (img : json) :
  prints_only (show_image idx img).
Proof.
  unfold show_image.
  repeat first
    [ apply prints_only_print
    | apply prints_only_show_keywords
    | apply prints_only_bind;
      [first [ apply prints_only_py_get | apply prints_only_print
             | apply prints_only_show_keywords
             | match goal with
               | |- prints_only (if ?b then _ else _) => destruct b; prints
               end ]
      | intros ?] ].
Qed.

Lemma prints_only_show_images (images : list json) :
  forall idx, prints_only (show_images idx images).
Proof.
  induction images as [|img images IH]; intros idx; cbn [show_images]; [prints|].
  apply prints_only_bind; [apply prints_only_show_image | intros _; apply IH].
Qed.

Lemma prints_only_show_summary (page : Z) (raw : bool) (data images usage : json) :
  prints_only (show_summary page raw data images usage).
Proof.
  unfold show_summary.
  apply prints_only_bind; [apply prints_only_py_len | intros found].
  do 3 (apply prints_only_bind; [apply prints_only_py_get | intros ?]).
  apply prints_only_bind; [prints | intros _].
  destruct (raw && truthy images); [|prints].
  do 3 (apply prints_only_bind; [prints | intros _]).
  apply prints_only_bind; [apply prints_only_py_first | intros first].
  do 2 (apply prints_only_bind; [prints | intros _]).
  apply prints_only_bind; [apply prints_only_py_iter | intros keys]. prints.
Qed.

Lemma prints_only_show_results (page : Z) (raw : bool) (data : json) :
  prints_only (show_results page raw data).
Proof.
  unfold show_results.
  do 2 (apply prints_only_bind; [apply prints_only_py_get | intros ?]).
  apply prints_only_bind; [apply prints_only_show_summary | intros _].
  apply prints_only_bind; [apply prints_only_py_iter | intros items].
  apply prints_only_show_images.
Qed.

Lemma prints_only_decode (content : string) : prints_only (decode content).
Proof.
  unfold decode. destruct (extract_json_str content) as [s|]; [|prints].
  destruct (json_loads s); prints.
Qed.

Lemma prints_only_handler (e : exn) :
  exists out, handler e = Some (out, inr tt)
              /\ Forall (fun ev => is_print ev = true) out.
Proof.
  destruct e; eexists; (split; [reflexivity | repeat constructor]).
Qed.

(** The body of [try] is one request followed by printing. *)
Lemma try_body_shape (net : network) (url : string) (page : Z) (raw : bool) :
  exists out r,
    try_body net url page raw = (Get url headers cookies :: out, r)
    /\ Forall (fun e => is_print e = true) out.
Proof.
  unfold try_body, client_get.
  assert (Hrest : forall response,
             prints_only
               (bind (raise_for_status response)
                  (fun _ => bind (decode (response_text response))
                     (fun data => if truthy data
                                  then show_results page raw data
                                  else show_preview (response_text response))))).
  { intros response. apply prints_only_bind.
    - destruct response as [msg|status_code text]; cbn [raise_for_status];
        [prints | destruct (is_success status_code); prints].
    - intros _. apply prints_only_bind; [apply prints_only_decode|].
      intros data. destruct (truthy data);
        [apply prints_only_show_results | unfold show_preview; prints]. }
  assert (Hget : exists r0, bind (emit (Get url headers cookies))
                              (fun _ => match net url with
                                        | Failed msg => raise (RequestError msg)
                                        | r => ret r
                                        end)
                            = ([Get url headers cookies], r0)).
  { destruct (net url); eexists; reflexivity. }
  destruct Hget as [r0 ->].
  destruct r0 as [e|response]; cbn [bind].
  - exists [], (inl e). split; [reflexivity | constructor].
  - specialize (Hrest response). unfold prints_only in Hrest.
    destruct (bind (raise_for_status response) _) as [out r].
    exists out, r. split; [reflexivity | exact Hrest].
Qed.


End EveryPath.

Section Paths.

Context `{Runtime} `{DateParser}.

Variables (net : network) (query : string) (page : Z) (ai_only raw : bool).

(** X5. When the request itself fails, the invocation prints the one line
    [An error occurred: ...] with the text of the exception, closes the
    client and returns; nothing of the response is looked at. *)
Theorem request_failure_reported (msg : string) :
  net (build_url query page ai_only) = Failed msg ->
  search_adobe_stock net query page ai_only raw
  = ([ Print ("Searching for: " ++ query ++ " (Page " ++ PyStr.of_Z page ++ ")...");
       ClientOpen true 30;
       Get (build_url query page ai_only) headers cookies;
       Print ("An error occurred: " ++ exn_str (RequestError msg));
       ClientClose ], inr tt).
Proof.
  intros Hnet. unfold search_adobe_stock, try_body, client_get.
  rewrite Hnet. reflexivity.
Qed.

(** X6. When the text between the marker and its closing brace is not
    JSON, the invocation prints the one line [An error occurred: ...] with
    the parser's message and stops: no preview of the body, no result. *)
Theorem decode_error_reported (status_code : Z) (text json_str msg : string) :
  net (build_url query page ai_only) = Response status_code text ->
  is_success status_code = true ->
  extract_json_str text = Some json_str ->
  json_loads json_str = inl msg ->
  search_adobe_stock net query page ai_only raw
  = ([ Print ("Searching for: " ++ query ++ " (Page " ++ PyStr.of_Z page ++ ")...");
       ClientOpen true 30;
       Get (build_url query page ai_only) headers cookies;
       Print ("An error occurred: " ++ exn_str (JSONDecodeError msg));
       ClientClose ], inr tt).
Proof.
  intros Hnet Hok He Hj. unfold search_adobe_stock, try_body, client_get.
  rewrite Hnet.
  cbv beta iota delta [bind emit ret raise_for_status response_text].
  rewrite Hok. unfold decode. rewrite He, Hj. reflexivity.
Qed.

(** X7. End to end: when the response is a 2xx one, the text extracted
    from its body parses to a non-empty object whose images are a list of
    image objects and whose usage data is a mapping, the invocation prints
    the opening line, sends the request, prints the summary line with the
    number of images and the usage figures, then one record per image in
    the order of the list, and closes the client. *)
Theorem results_end_to_end (status_code : Z) (text json_str : string)
    (dfields ufields : list (string * json))
    (records : list (list (string * json)))
    (plan searches_used searches_limit : json) :
  net (build_url query page ai_only) = Response status_code text ->
  is_success status_code = true ->
  extract_json_str text = Some json_str ->
  json_loads json_str = inr (JObj dfields) ->
  dfields <> [] ->
  NoDup (map fst dfields) ->
  reads dfields "images" (JArr []) (JArr (map JObj records)) ->
  reads dfields "usageData" (JObj []) (JObj ufields) ->
  NoDup (map fst ufields) ->
  reads ufields "plan" (JStr "N/A") plan ->
  reads ufields "searchesUsed" (JStr "?") searches_used ->
  reads ufields "searchesLimit" (JStr "?") searches_limit ->
  Forall typed_object records ->
  search_adobe_stock net query page ai_only raw
  = (([ Print ("Searching for: " ++ query ++ " (Page " ++ PyStr.of_Z page ++ ")...");
        ClientOpen true 30;
        Get (build_url query page ai_only) headers cookies ]
      ++ summary_lines page raw dfields records plan searches_used
           searches_limit
      ++ List.concat (record_blocks 1 records)
      ++ [ClientClose])%list, inr tt).
Proof.
  intros Hnet Hok He Hj Hne Hnd Hi Hu Hnu Hp Hsu Hsl Hk.
  pose proof (show_results_lines page raw dfields ufields records plan
                searches_used searches_limit Hnd Hi Hu Hnu Hp Hsu Hsl Hk)
    as Hres.
  unfold search_adobe_stock, try_body, client_get. rewrite Hnet.
  cbv beta iota delta [bind emit ret raise_for_status response_text].
  rewrite Hok. unfold decode. rewrite He, Hj.
  assert (Ht : truthy (JObj dfields) = true)
    by (destruct dfields; [contradiction | reflexivity]).
  cbv beta iota zeta delta [bind emit ret]. rewrite Ht, Hres.
  unfold try_except_finally. cbn [app]. rewrite <- !app_assoc. reflexivity.
Qed.

End Paths.

Lemma request_failure_reported_witness :
  answering (Failed "connection refused") (build_url "cats" 1 false)
  = Failed "connection refused"
  /\ @search_adobe_stock sample_runtime documented_parser
       (answering (Failed "connection refused")) "cats" 1 false false
     = ([ Print "Searching for: cats (Page 1)...";
          ClientOpen true 30;
          Get "https://trackadobestock.com/search?q=cats&_rsc=1gn38"
            headers cookies;
          Print "An error occurred: connection refused";
          ClientClose ], inr tt).
Proof.
  split; [reflexivity|].
  exact (@request_failure_reported sample_runtime documented_parser
           (answering (Failed "connection refused")) "cats" 1 false false
           "connection refused" eq_refl).
Defined.

Lemma decode_error_reported_witness :
  is_success 200 = true
  /\ extract_json_str sample_body = Some ("{" ++ sample_inner ++ "}")
  /\ @search_adobe_stock sample_runtime documented_parser
       (answering (Response 200 sample_body)) "cats" 1 false false
     = ([ Print "Searching for: cats (Page 1)...";
          ClientOpen true 30;
          Get "https://trackadobestock.com/search?q=cats&_rsc=1gn38"
            headers cookies;
          Print "An error occurred: Expecting value";
          ClientClose ], inr tt).
Proof.
  split; [reflexivity|]. split; [reflexivity|].
  exact (@decode_error_reported sample_runtime documented_parser
           (answering (Response 200 sample_body)) "cats" 1 false false
           200 sample_body ("{" ++ sample_inner ++ "}") "Expecting value"
           eq_refl eq_refl eq_refl eq_refl).
Defined.

Lemma sample_images_typed : Forall image_object sample_images.
Proof.
  repeat constructor.
  - exists [("id", JStr "1"); ("title", JStr "Cat")].
    split; [reflexivity | left; reflexivity].
  - exists [("id", JStr "2"); ("keywords", JStr "a, b ,c")].
    split; [reflexivity | right; apply keywords_string].
Defined.

Lemma results_end_to_end_witness :
  let records := [[("id", JStr "1"); ("title", JStr "Cat")]] in
  let ufields :=
    [("plan", JStr "free"); ("searchesUsed", JInt 1);
     ("searchesLimit", JInt 10)] in
  is_success 200 = true
  /\ extract_json_str example_body = Some example_text
  /\ @json_loads example_runtime example_text = inr (JObj example_payload)
  /\ NoDup (map fst example_payload)
  /\ reads example_payload "images" (JArr []) (JArr (map JObj records))
  /\ reads example_payload "usageData" (JObj []) (JObj ufields)
  /\ NoDup (map fst ufields)
  /\ reads ufields "plan" (JStr "N/A") (JStr "free")
  /\ reads ufields "searchesUsed" (JStr "?") (JInt 1)
  /\ reads ufields "searchesLimit" (JStr "?") (JInt 10)
  /\ Forall typed_object records
  /\ @search_adobe_stock example_runtime documented_parser
       (answering (Response 200 example_body)) "cats" 1 false false
     = ([ Print "Searching for: cats (Page 1)...";
          ClientOpen true 30;
          Get "https://trackadobestock.com/search?q=cats&_rsc=1gn38"
            headers cookies;
          Print ("Page 1 " ++ em_dash
                   ++ " Found 1 results (Plan: free, Searches: 1/10)"
                   ++ PyStr.nl);
          Print "============================================================";
          Print "  #1 Cat";
          Print "============================================================";
          Print "  Stock ID:     1";
          Print "  Downloads:    N/A";
          Print "  Premium:      N/A";
          Print "  Creator:      N/A";
          Print "  Type:         N/A (N/A)";
          Print "  Category:     N/A";
          Print "  Dimensions:   N/A";
          Print "  Thumbnail:    N/A";
          Print "  Stock URL:    https://stock.adobe.com/1";
          Print "";
          ClientClose ], inr tt).
Proof.
  intros records ufields.
  assert (He : extract_json_str example_body = Some example_text)
    by reflexivity.
  assert (Hj : @json_loads example_runtime example_text
               = inr (JObj example_payload)) by reflexivity.
  assert (Hnd : NoDup (map fst example_payload))
    by (repeat constructor; cbn; intuition discriminate).
  assert (Hi : reads example_payload "images" (JArr [])
                 (JArr (map JObj records)))
    by (left; cbn; intuition).
  assert (Hu : reads example_payload "usageData" (JObj []) (JObj ufields))
    by (left; cbn; intuition).
  assert (Hnu : NoDup (map fst ufields))
    by (repeat constructor; cbn; intuition discriminate).
  assert (Hp : reads ufields "plan" (JStr "N/A") (JStr "free"))
    by (left; cbn; intuition).
  assert (Hsu : reads ufields "searchesUsed" (JStr "?") (JInt 1))
    by (left; cbn; intuition).
  assert (Hsl : reads ufields "searchesLimit" (JStr "?") (JInt 10))
    by (left; cbn; intuition).
  assert (Hk : Forall typed_object records)
    by (apply Forall_cons; [left; reflexivity | apply Forall_nil]).
  split; [reflexivity|].
  repeat (split; [assumption|]).
  exact (@results_end_to_end example_runtime documented_parser
           (answering (Response 200 example_body)) "cats" 1%Z false false
           200%Z example_body example_text example_payload ufields records
           (JStr "free") (JInt 1) (JInt 10)
           eq_refl eq_refl He Hj ltac:(discriminate)
           Hnd Hi Hu Hnu Hp Hsu Hsl Hk).
Defined.

(** ** Records that cannot be shown *)

Lemma strings_of_all (l : list json) :
  forallb is_str l = true -> exists strs, strings_of l = inr strs.
Proof.
  induction l as [|v l IH]; [now exists []|].
  cbn [forallb]. intros [Hv Hl]%andb_prop.
  destruct v; try discriminate. destruct (IH Hl) as [strs Hs].
  exists (s :: strs). cbn [strings_of]. now rewrite Hs.
Qed.

Lemma strings_of_some (l : list json) :
  forallb is_str l = false ->
  exists v, strings_of l = inl (TypeError "join" v)
            /\ In v l /\ is_str v = false.
Proof.
  induction l as [|v l IH]; [discriminate|].
  cbn [forallb]. intros Hf.
  destruct (is_str v) eqn:Hv.
  - destruct v; try discriminate. destruct (IH Hf) as [w [Hs [Hin Hw]]].
    exists w. cbn [strings_of]. rewrite Hs. repeat split; [now right | exact Hw].
  - exists v. destruct v; try discriminate;
      (split; [reflexivity | split; [now left | reflexivity]]).
Qed.

Lemma show_keywords_ok (v : json) :
  keywords_ok v = true -> snd (show_keywords v) = inr tt.
Proof.
  unfold keywords_ok, show_keywords. destruct (truthy v) eqn:Ht; [|reflexivity].
  cbn [negb orb]. destruct v; try discriminate.
  - intros _. cbn [keyword_list py_slice20 bind ret].
    unfold py_join. cbn [py_iter bind ret].
    now rewrite firstn_map, strings_of_map.
  - intros Hall. destruct (strings_of_all _ Hall) as [strs Hs].
    cbn [keyword_list py_slice20 bind ret]. unfold py_join.
    cbn [py_iter bind ret]. now rewrite Hs.
Qed.

Lemma show_keywords_not_ok (v : json) :
  keywords_ok v = false ->
  exists op w, show_keywords v = ([], inl (TypeError op w)).
Proof.
  unfold keywords_ok, show_keywords. destruct (truthy v) eqn:Ht; [|discriminate].
  cbn [negb orb]. destruct v; try discriminate; intros Hko;
    try (exists "getitem"; eexists; reflexivity).
  destruct (strings_of_some _ Hko) as [w [Hs _]].
  exists "join", w. cbn [keyword_list py_slice20 bind ret]. unfold py_join.
  cbn [py_iter bind ret]. now rewrite Hs.
Qed.

(** X8. The keywords of a record can be shown exactly when they test
    false, are a string, or are a list whose first 20 items are strings
    (what comes after the 20th is not looked at); any other value raises a
    [TypeError] before either keywords line is printed. *)
Theorem keywords_presentable (v : json) :
  (snd (show_keywords v) = inr tt <-> keywords_ok v = true)
  /\ (keywords_ok v = false ->
      exists op w, show_keywords v = ([], inl (TypeError op w))).
Proof.
  split; [split|]; [| apply show_keywords_ok | apply show_keywords_not_ok].
  intros Hs. destruct (keywords_ok v) eqn:Hk; [reflexivity|].
  destruct (show_keywords_not_ok v Hk) as [op [w Hw]].
  rewrite Hw in Hs. discriminate.
Qed.

Lemma keywords_presentable_witness :
  keywords_ok (JArr (map JStr (List.repeat "k" 20) ++ [JInt 7])) = true
  /\ snd (show_keywords (JArr (map JStr (List.repeat "k" 20) ++ [JInt 7])))
     = inr tt
  /\ keywords_ok (JInt 7) = false
  /\ show_keywords (JInt 7) = ([], inl (TypeError "getitem" (JInt 7))).
Proof.
  split; [reflexivity|]. split.
  - apply (proj1 (keywords_presentable
                    (JArr (map JStr (List.repeat "k" 20) ++ [JInt 7])))).
    reflexivity.
  - split; reflexivity.
Defined.

Section Aborts.

Context `{Runtime} `{DateParser}.

Lemma show_image_non_object (idx : Z) (v : json) :
  is_obj v = false -> show_image idx v = ([], inl (AttributeError v "get")).
Proof. destruct v; try discriminate; reflexivity. Qed.


(** X10. A payload whose usage data is present but is not an object shows
    nothing at all, whatever the images are: the summary line is never
    printed, because building it raises.  [len(images)] is evaluated
    first and raises [TypeError] when the images have no length; when they
    have one (a list, a string or an object), [usage.get] raises
    [AttributeError]. *)
Theorem usage_not_mapping (page : Z) (raw : bool)
    (dfields : list (string * json)) (images usage : json) :
  dict_get dfields "images" (JArr []) = images ->
  dict_get dfields "usageData" (JObj []) = usage ->
  is_obj usage = false ->
  show_results page raw (JObj dfields)
  = ([], inl (if has_len images then AttributeError usage "get"
              else TypeError "len" images)).
Proof.
  intros Himages Husage Hu. unfold show_results, py_get. cbn [bind ret].
  rewrite Himages, Husage. unfold show_summary.
  destruct usage; try discriminate; destruct images; reflexivity.
Qed.

End Aborts.


Lemma usage_not_mapping_witness :
  is_obj (JStr "free") = false
  /\ @show_results sample_runtime documented_parser 1 false
       (JObj (("usageData", JStr "free") :: sample_payload))
     = ([], inl (AttributeError (JStr "free") "get"))
  /\ @show_results sample_runtime documented_parser 1 false
       (JObj [("images", JNull); ("usageData", JStr "free")])
     = ([], inl (TypeError "len" JNull)).
Proof.
  split; [reflexivity|]. split.
  - exact (@usage_not_mapping sample_runtime documented_parser 1%Z false
             (("usageData", JStr "free") :: sample_payload)
             (JArr sample_images) (JStr "free") eq_refl eq_refl eq_refl).
  - exact (@usage_not_mapping sample_runtime documented_parser 1%Z false
             [("images", JNull); ("usageData", JStr "free")]
             JNull (JStr "free") eq_refl eq_refl eq_refl).
Defined.

(** ** The command line *)

Section CommandLine.

Context `{IntParser}.

Lemma parse_loop_no_page (args : list string) :
  ~ In "--page" args ->
  forall page clean_args,
    parse_loop args page clean_args
    = inr (page, (clean_args ++ positionals args)%list).
Proof.
  induction args as [|a args IH]; intros Hno page clean_args.
  - cbn [parse_loop positionals filter]. now rewrite app_nil_r.
  - assert (Ha : String.eqb a "--page" = false).
    { apply String.eqb_neq. intros ->. apply Hno. now left. }
    assert (Hargs : ~ In "--page" args) by (intros Hin; apply Hno; now right).
    cbn [parse_loop positionals filter]. rewrite Ha.
    destruct (is_flag a); cbn [negb]; rewrite (IH Hargs); [reflexivity|].
    now rewrite <- app_assoc.
Qed.

(** Arguments that parse, and do not end with [--page], can be followed by
    others: the loop goes on from where they leave it. *)
Lemma parse_loop_app (n : nat) :
  forall l1 l2 page clean_args page1 clean1,
    List.length l1 <= n ->
    parse_loop l1 page clean_args = inr (page1, clean1) ->
    last l1 "" <> "--page" ->
    parse_loop (l1 ++ l2) page clean_args = parse_loop l2 page1 clean1.
Proof.
  induction n as [|n IH]; intros l1 l2 page clean_args page1 clean1 Hn Hp Hlast.
  - destruct l1; [|simpl in Hn; lia]. cbn in Hp. now injection Hp as <- <-.
  - destruct l1 as [|a rest]; [cbn in Hp; now injection Hp as <- <-|].
    cbn [app parse_loop] in *.
    destruct (String.eqb a "--page") eqn:Ha.
    + destruct rest as [|v rest'].
      * apply String.eqb_eq in Ha. subst a. now cbn in Hlast.
      * cbn [app]. destruct (py_int v) as [m|]; [|discriminate].
        apply (IH rest' l2 m clean_args); [simpl in Hn; lia | exact Hp |].
        destruct rest'; [discriminate | exact Hlast].
    + assert (Hrest : last rest "" <> "--page").
      { destruct rest; [discriminate | exact Hlast]. }
      assert (Hlen : List.length rest <= n) by (simpl in Hn; lia).
      destruct rest as [|b rest'].
      * cbn [app]. destruct l2; destruct (is_flag a); cbn [parse_loop] in Hp;
          injection Hp as <- <-; reflexivity.
      * cbn [app]. destruct (is_flag a);
          apply (IH (b :: rest') l2); assumption.
Qed.

(** X11. Without [--page] among the arguments the page is 1, the query is
    the first argument that is not [--raw] or [--ai-only] ([nature] when
    there is none), and the two flags are set when they occur anywhere. *)
Theorem cli_without_page (prog : string) (args : list string) :
  ~ In "--page" args ->
  parse_args (prog :: args)
  = inr (hd "nature" (positionals args), 1%Z,
         existsb (String.eqb "--ai-only") (prog :: args),
         existsb (String.eqb "--raw") (prog :: args)).
Proof.
  intros Hno. unfold parse_args. cbn [tl].
  rewrite (parse_loop_no_page args Hno). cbn [app].
  now destruct (positionals args).
Qed.

(** X12. [--page v] sets the page to [int(v)] wherever it stands, and
    overrides a page given before it: when the arguments before it parse
    and do not end with [--page], and none after it is [--page], the page
    is [int(v)] and the query is the first positional argument, those
    before [--page v] first. *)
Theorem cli_page (prog : string) (before after : list string) (v : string)
    (n page0 : Z) (clean0 : list string) :
  parse_loop before 1 [] = inr (page0, clean0) ->
  last before "" <> "--page" ->
  py_int v = Some n ->
  ~ In "--page" after ->
  parse_args (prog :: before ++ "--page" :: v :: after)
  = inr (hd "nature" (clean0 ++ positionals after), n,
         existsb (String.eqb "--ai-only")
           (prog :: before ++ "--page" :: v :: after),
         existsb (String.eqb "--raw")
           (prog :: before ++ "--page" :: v :: after)).
Proof.
  intros Hb Hlast Hv Hafter. unfold parse_args. cbn [tl].
  rewrite (parse_loop_app (List.length before) before _ 1%Z [] page0 clean0
             (Nat.le_refl _) Hb Hlast).
  cbn [parse_loop]. rewrite Hv, (parse_loop_no_page after Hafter).
  now destruct (clean0 ++ positionals after)%list.
Qed.

(** X14. [--page] as the last argument has no value to take and is kept
    as a positional argument: it becomes the query when no other
    positional argument stands before it, and the page stays as it was. *)
Theorem cli_trailing_page (prog : string) (before : list string)
    (page0 : Z) (clean0 : list string) :
  parse_loop before 1 [] = inr (page0, clean0) ->
  last before "" <> "--page" ->
  parse_args (prog :: before ++ ["--page"])
  = inr (hd "--page" clean0, page0,
         existsb (String.eqb "--ai-only") (prog :: before ++ ["--page"]),
         existsb (String.eqb "--raw") (prog :: before ++ ["--page"])).
Proof.
  intros Hb Hlast. unfold parse_args. cbn [tl].
  rewrite (parse_loop_app (List.length before) before _ 1%Z [] page0 clean0
             (Nat.le_refl _) Hb Hlast).
  cbn [parse_loop String.eqb Ascii.eqb Bool.eqb is_flag orb].
  now destruct clean0.
Qed.

End CommandLine.

Section CommandLineRun.

Context `{Runtime} `{DateParser} `{IntParser}.

(** X13. When the text after [--page] is no integer, the program ends
    with the [ValueError] of [int] before it prints anything, opens a
    client or sends a request. *)
Theorem cli_page_invalid (net : network) (prog : string)
    (before after : list string) (v : string) (page0 : Z)
    (clean0 : list string) :
  parse_loop before 1 [] = inr (page0, clean0) ->
  last before "" <> "--page" ->
  py_int v = None ->
  main net (prog :: before ++ "--page" :: v :: after)
  = ([], inl (InvalidLiteral v)).
Proof.
  intros Hb Hlast Hv. unfold main, parse_args. cbn [tl].
  rewrite (parse_loop_app (List.length before) before _ 1%Z [] page0 clean0
             (Nat.le_refl _) Hb Hlast).
  cbn [parse_loop]. now rewrite Hv.
Qed.

End CommandLineRun.

Lemma cli_without_page_witness :
  ~ In "--page" ["--raw"; "red cat"; "--ai-only"; "dog"]
  /\ @parse_args decimal_int ["prog"; "--raw"; "red cat"; "--ai-only"; "dog"]
     = inr ("red cat", 1%Z, true, true).
Proof.
  assert (Hno : ~ In "--page" ["--raw"; "red cat"; "--ai-only"; "dog"]).
  { simpl. intros [E|[E|[E|[E|[]]]]]; discriminate E. }
  split; [exact Hno|].
  exact (@cli_without_page decimal_int "prog"
           ["--raw"; "red cat"; "--ai-only"; "dog"] Hno).
Defined.

Lemma cli_page_witness :
  @parse_args decimal_int
    ["prog"; "--page"; "2"; "cats"; "--page"; "7"; "--raw"; "dogs"]
  = inr ("cats", 7%Z, false, true).
Proof.
  exact (@cli_page decimal_int "prog" ["--page"; "2"; "cats"]
           ["--raw"; "dogs"] "7" 7 2 ["cats"] eq_refl
           ltac:(discriminate) eq_refl
           ltac:(simpl; intros [E|[E|[]]]; discriminate E)).
Defined.

Lemma cli_trailing_page_witness :
  @parse_args decimal_int ["prog"; "--raw"; "--page"]
  = inr ("--page", 1%Z, false, true).
Proof.
  exact (@cli_trailing_page decimal_int "prog" ["--raw"] 1 [] eq_refl
           ltac:(discriminate)).
Defined.

Lemma cli_page_invalid_witness :
  @py_int decimal_int "--raw" = None
  /\ @main sample_runtime documented_parser decimal_int
       (answering (Response 200 sample_body)) ["prog"; "cats"; "--page"; "--raw"]
     = ([], inl (InvalidLiteral "--raw")).
Proof.
  split; [reflexivity|].
  exact (@cli_page_invalid sample_runtime documented_parser decimal_int
           (answering (Response 200 sample_body)) "prog" ["cats"] [] "--raw"
           1 ["cats"] eq_refl ltac:(discriminate) eq_refl).
Defined.

(** ** The URL determines the request *)

Lemma read_Z_of_Z (n : Z) : read_Z (PyStr.of_Z n) = Some n.
Proof.
  unfold read_Z, PyStr.of_Z.
  pose proof (DecimalZ.of_to n) as Hn.
  destruct (Z.to_int n) as [d|d] eqn:E.
  - destruct d; try (rewrite NilZero.isi by discriminate; cbn [option_map];
                     now rewrite Hn).
    cbn in *. now rewrite <- Hn.
  - destruct d; try (rewrite NilZero.isi by discriminate; cbn [option_map];
                     now rewrite Hn).
    cbn in *. now rewrite <- Hn.
Qed.

Ltac strip_literal E :=
  repeat match type of E with
         | String _ _ = String _ _ => injection E as E
         end.

(** X15. The URL determines the request: two calls that build the same URL
    have the same query, the same AI-only choice and the same effective
    page (the page itself when above 1, the first page otherwise). *)
Theorem build_url_injective (query query' : string) (page page' : Z)
    (ai_only ai_only' : bool) :
  build_url query page ai_only = build_url query' page' ai_only' ->
  query = query' /\ ai_only = ai_only'
  /\ effective_page page = effective_page page'.
Proof.
  intros E.
  assert (Hai : ai_only = ai_only').
  { apply (f_equal (PyStr.contains "&generative_ai=only")) in E.
    now rewrite !contains_ai_filter in E. }
  assert (Hpg : (page >? 1)%Z = (page' >? 1)%Z).
  { apply (f_equal (PyStr.contains "&page=")) in E.
    now rewrite !contains_page in E. }
  subst ai_only'. unfold effective_page. rewrite !build_url_parts in E.
  rewrite <- Hpg in *. apply append_cancel_l in E.
  pose proof (head_not_amp query) as Hq. pose proof (head_not_amp query') as Hq'.
  destruct ai_only, (page >? 1)%Z; cbn [append] in E;
    apply split_at_amp in E as [Eq Et]; try assumption;
    apply quote_plus_injective in Eq; (split; [exact Eq|]);
    (split; [reflexivity|]); try reflexivity;
    strip_literal Et; apply append_cancel_r in Et;
    apply (f_equal read_Z) in Et; rewrite !read_Z_of_Z in Et;
    now injection Et.
Qed.

Lemma build_url_injective_witness :
  build_url "cats" 0 false = build_url "cats" (-3) false
  /\ effective_page 0 = effective_page (-3).
Proof.
  split; [reflexivity|].
  exact (proj2 (proj2 (build_url_injective "cats" "cats" 0 (-3) false false
                         eq_refl))).
Defined.

(** ** Keywords, piece by piece *)

Lemma split_append (a b : string) :
  split "," (a ++ "," ++ b) = (split "," a ++ split "," b)%list.
Proof.
  induction a as [|c a IH]; [reflexivity|].
  change (String c a ++ "," ++ b) with (String c (a ++ "," ++ b)).
  cbn [split]. rewrite IH.
  destruct (Ascii.eqb c ","); [reflexivity|].
  pose proof (split_not_nil "," a) as Hne.
  destruct (split "," a) as [|x l]; [contradiction | reflexivity].
Qed.

(** X16. Keywords are normalized piece by piece: the keywords of two texts
    joined by a comma are the keywords of the first followed by the
    keywords of the second. *)
Theorem split_keywords_append (a b : string) :
  split_keywords (a ++ "," ++ b) = (split_keywords a ++ split_keywords b)%list.
Proof.
  unfold split_keywords. now rewrite split_append, filter_app, map_app.
Qed.

Lemma split_no_sep (s : string) :
  Forall (fun k => PyStr.all_chars not_comma k = true) (split "," s).
Proof.
  induction s as [|c s IH]; [repeat constructor|].
  cbn [split]. destruct (Ascii.eqb c ",") eqn:Hc; [now constructor|].
  destruct (split "," s) as [|x l]; [repeat constructor; simpl;
                                      unfold not_comma; now rewrite Hc|].
  inversion IH as [|? ? Hx Hl]; subst. constructor; [|exact Hl].
  simpl. unfold not_comma at 1. now rewrite Hc.
Qed.

Lemma lstrip_all_chars (p : ascii -> bool) (s : string) :
  PyStr.all_chars p s = true -> PyStr.all_chars p (lstrip s) = true.
Proof.
  induction s as [|c s IH]; [trivial|]. intros Hs. cbn [lstrip].
  destruct (isspace c); [|exact Hs].
  apply IH. simpl in Hs. now apply andb_prop in Hs as [_ Hs].
Qed.

Lemma rstrip_all_chars (p : ascii -> bool) (s : string) :
  PyStr.all_chars p s = true -> PyStr.all_chars p (rstrip s) = true.
Proof.
  induction s as [|c s IH]; [trivial|]. intros Hs. simpl in Hs.
  apply andb_prop in Hs as [Hc Hs]. specialize (IH Hs). cbn [rstrip].
  destruct (rstrip s) as [|x r].
  - destruct (isspace c); [reflexivity | simpl; now rewrite Hc].
  - cbn [PyStr.all_chars] in *. now rewrite Hc, IH.
Qed.

(** X17. No keyword of a normalized keywords string holds a comma, so the
    displayed line, joined with commas, shows where each keyword ends. *)
Theorem split_keywords_no_comma (s : string) :
  Forall (fun k => PyStr.all_chars not_comma k = true) (split_keywords s).
Proof.
  unfold split_keywords. apply Forall_forall. intros k Hk.
  apply in_map_iff in Hk as [k0 [<- Hk0]]. apply filter_In in Hk0 as [Hin _].
  pose proof (split_no_sep s) as Hall. rewrite Forall_forall in Hall.
  unfold strip. apply lstrip_all_chars, rstrip_all_chars, Hall, Hin.
Qed.

(** * The prompt splitter *)

Module SplitPromptsFacts.

Import SplitPrompts.

Lemma read_Z_zfill (n : Z) : read_Z (zfill 2 (PyStr.of_Z n)) = Some n.
Proof.
  pose proof (read_Z_of_Z n) as Hs.
  destruct (PyStr.of_Z n) as [|c [|d r]].
  - discriminate Hs.
  - destruct c as [[] [] [] [] [] [] [] []]; vm_compute in Hs |- *;
      first [discriminate Hs | exact Hs].
  - unfold zfill. cbn [length Nat.sub PyStr.repeat_char append].
    now destruct (Ascii.eqb c "+" || Ascii.eqb c "-").
Qed.

Section Facts.

Context `{Runtime} `{World}.

Lemma file_name_default (i : Z) (fields : list (string * json)) :
  unnumbered fields = true ->
  file_name i fields
  = done ("valentines-prompt-" ++ zfill 2 (PyStr.of_Z (i + 1)) ++ ".json").
Proof.
  unfold unnumbered, file_name.
  destruct (truthy (dict_get fields "metadata" JNull)).
  - destruct (dict_get fields "metadata" JNull); try discriminate.
    destruct (dict_get fields0 "scene_number" JNull); try discriminate.
    reflexivity.
  - reflexivity.
Qed.

(** X18. Entries without a scene number never share a file name: the name
    given to such an entry is read back as its index plus one, so two of
    them at different indexes are written to different files. *)
Theorem default_names_distinct (i j : Z) (fields fields' : list (string * json)) :
  unnumbered fields = true ->
  unnumbered fields' = true ->
  file_name i fields = file_name j fields' ->
  i = j.
Proof.
  intros Hf Hf' E. rewrite (file_name_default i fields Hf) in E.
  rewrite (file_name_default j fields' Hf') in E.
  injection E as E. apply append_cancel_r in E.
  apply (f_equal read_Z) in E. rewrite !read_Z_zfill in E.
  injection E as E. lia.
Qed.

Lemma file_name_plain (i : Z) (fields : list (string * json)) :
  plain_metadata (JObj fields) = true ->
  exists name, file_name i fields = done name.
Proof.
  unfold plain_metadata, file_name.
  destruct (truthy (dict_get fields "metadata" JNull)); cbn [negb orb].
  - destruct (dict_get fields "metadata" JNull); try discriminate.
    intros _. eexists. reflexivity.
  - intros _. eexists. reflexivity.
Qed.

Lemma write_items_plain (output_dir : string) (items : list json) :
  forallb plain_metadata items = true ->
  (forall p, open_w p = None) ->
  forall i, exists out,
    write_items output_dir i items = (out, inr tt)
    /\ map snd (written out) = objects items.
Proof.
  intros Hplain Hopen. induction items as [|item items IH]; intros i.
  - exists []. split; reflexivity.
  - cbn [forallb] in Hplain. apply andb_prop in Hplain as [Hitem Hitems].
    destruct (IH Hitems (i + 1)%Z) as [out [Hout Hw]].
    cbn [write_items]. rewrite Hout.
    destruct (is_obj item) eqn:Ho.
    + destruct item; try discriminate.
      destruct (file_name_plain i fields Hitem) as [name Hname].
      cbn [write_item]. rewrite Hname. cbn [andthen done].
      rewrite Hopen. eexists. split; [reflexivity|].
      change (JObj fields :: map snd (written out)
              = JObj fields :: objects items).
      now rewrite Hw.
    + exists (Err ("Warning: Skipping non-object at index "
                    ++ PyStr.of_Z i ++ ".") :: out).
      split; [destruct item; try discriminate; reflexivity|].
      unfold objects. cbn [filter]. rewrite Ho. exact Hw.
Qed.

(** X19. The three checks of the splitter each end it with exit code 1 and
    one line on the error stream, and no file is written: a missing source
    before the user is asked anything; an empty or blank answer before any
    directory is made; a source that is not an array only after the output
    directory has been made. *)
Theorem splitter_checks (argv : list string) :
  (exists_ (chosen_source argv) = false ->
   main argv
   = ([Err ("Error: Source file not found: " ++ chosen_source argv)],
      inl (SystemExit 1)))
  /\ (forall line,
         exists_ (chosen_source argv) = true ->
         input = inr line ->
         strip line = "" ->
         main argv
         = ([ Ask "Enter output folder path: ";
              Err "Error: Output folder path is required." ],
            inl (SystemExit 1)))
  /\ (forall line data,
         exists_ (chosen_source argv) = true ->
         input = inr line ->
         strip line <> "" ->
         mkdir (Path (strip line)) = None ->
         load (chosen_source argv) = inr data ->
         (forall items, data <> JArr items) ->
         main argv
         = ([ Ask "Enter output folder path: ";
              MakeDirs (Path (strip line));
              ReadJson (chosen_source argv);
              Err "Error: Source JSON must be an array of prompt objects." ],
            inl (SystemExit 1))).
Proof.
  split; [|split].
  - intros He. unfold main. now rewrite He.
  - intros line He Hin Hs. unfold main. rewrite He, Hin.
    cbn [andthen done perform app]. now rewrite Hs.
  - intros line data He Hin Hs Hmk Hld Hdata. unfold main. rewrite He, Hin.
    cbn [andthen done perform app].
    apply String.eqb_neq in Hs. rewrite Hs, Hmk, Hld.
    destruct data; try reflexivity. now destruct (Hdata items).
Qed.

(** X20. When every check passes, every object has metadata that are
    absent, false or an object, and every file can be opened, the splitter
    writes exactly the entries that are objects, in their order, and then
    reports the number of all entries of the array: the count in its last
    line is the number of files written only when every entry is an
    object. *)
Theorem splitter_writes_objects (argv : list string) (line : string)
    (items : list json) :
  exists_ (chosen_source argv) = true ->
  input = inr line ->
  strip line <> "" ->
  mkdir (Path (strip line)) = None ->
  load (chosen_source argv) = inr (JArr items) ->
  forallb plain_metadata items = true ->
  (forall p, open_w p = None) ->
  exists out,
    main argv
    = (([ Ask "Enter output folder path: ";
          MakeDirs (Path (strip line));
          ReadJson (chosen_source argv) ]
        ++ out
        ++ [Out ("Wrote " ++ PyStr.of_Z (Z.of_nat (List.length items))
                   ++ " files to " ++ Path (strip line))])%list, inr tt)
    /\ map snd (written out) = objects items
    /\ List.length (written out) <= List.length items.
Proof.
  intros He Hin Hs Hmk Hld Hplain Hopen.
  destruct (write_items_plain (Path (strip line)) items Hplain Hopen 0%Z)
    as [out [Hout Hw]].
  exists out. split; [|split; [exact Hw|]].
  - unfold main. rewrite He, Hin. cbn [andthen done perform app].
    apply String.eqb_neq in Hs. rewrite Hs, Hmk, Hld.
    cbn [andthen done perform app]. rewrite Hout. reflexivity.
  - rewrite <- (length_map snd), Hw. apply filter_length_le.
Qed.

(** X21. An object whose metadata test true but are no object stops the
    splitter with [AttributeError]: the objects before it are written, it
    and the entries after it are not. *)
Theorem splitter_stops_at_bad_metadata (output_dir : string)
    (good rest : list json) (fields : list (string * json)) (metadata : json) :
  forallb plain_metadata good = true ->
  (forall p, open_w p = None) ->
  dict_get fields "metadata" JNull = metadata ->
  truthy metadata = true ->
  is_obj metadata = false ->
  forall i, exists out,
    write_items output_dir i (good ++ JObj fields :: rest)
    = (out, inl (NoGet metadata))
    /\ map snd (written out) = objects good.
Proof.
  intros Hplain Hopen Hm Ht Ho.
  assert (Hbad : forall i, write_item output_dir i (JObj fields)
                           = ([], inl (NoGet metadata))).
  { intros i. cbn [write_item]. unfold file_name. rewrite Hm, Ht.
    destruct metadata; try discriminate; reflexivity. }
  induction good as [|item good IH]; intros i.
  - exists []. cbn [app write_items]. rewrite Hbad. split; reflexivity.
  - cbn [forallb] in Hplain. apply andb_prop in Hplain as [Hitem Hgood].
    destruct (IH Hgood (i + 1)%Z) as [out [Hout Hw]].
    destruct (write_items_plain output_dir [item]
                ltac:(cbn [forallb]; now rewrite Hitem) Hopen i)
      as [out1 [Hout1 Hw1]].
    cbn [write_items] in Hout1.
    destruct (write_item output_dir i item) as [o1 [f|[]]] eqn:Hwi;
      cbn [andthen done] in Hout1; [discriminate|].
    rewrite app_nil_r in Hout1. injection Hout1 as ->.
    exists (out1 ++ out)%list. cbn [app write_items]. rewrite Hwi, Hout.
    split; [reflexivity|].
    unfold written in *. rewrite flat_map_app, map_app, Hw1, Hw.
    cbn [objects filter]. now destruct (is_obj item).
Qed.

End Facts.

Lemma default_names_distinct_witness :
  unnumbered [("prompt", JStr "a")] = true
  /\ unnumbered [("metadata", JObj [("mood", JStr "warm")])] = true
  /\ @file_name sample_runtime 4 [("prompt", JStr "a")]
     = @file_name sample_runtime 4 [("metadata", JObj [("mood", JStr "warm")])]
  /\ 4%Z = 4%Z.
Proof.
  split; [reflexivity|]. split; [reflexivity|]. split; [reflexivity|].
  exact (@default_names_distinct sample_runtime 4 4 [("prompt", JStr "a")]
           [("metadata", JObj [("mood", JStr "warm")])] eq_refl eq_refl
           eq_refl).
Defined.

Lemma splitter_checks_witness :
  @main sample_runtime (sample_world (JObj []) "   ") ["prog"; "prompts.json"]
  = ([ Ask "Enter output folder path: ";
       Err "Error: Output folder path is required." ], inl (SystemExit 1))
  /\ @main sample_runtime (sample_world (JObj []) " out ") ["prog"; "prompts.json"]
     = ([ Ask "Enter output folder path: ";
          MakeDirs "out";
          ReadJson "prompts.json";
          Err "Error: Source JSON must be an array of prompt objects." ],
        inl (SystemExit 1)).
Proof.
  split.
  - exact (proj1 (proj2 (@splitter_checks sample_runtime
                           (sample_world (JObj []) "   ")
                           ["prog"; "prompts.json"]))
             "   " eq_refl eq_refl eq_refl).
  - exact (proj2 (proj2 (@splitter_checks sample_runtime
                           (sample_world (JObj []) " out ")
                           ["prog"; "prompts.json"]))
             " out " (JObj []) eq_refl eq_refl ltac:(discriminate) eq_refl
             eq_refl ltac:(discriminate)).
Defined.

Lemma splitter_writes_objects_witness :
  let items := [JObj [("prompt", JStr "a")]; JStr "note";
                JObj [("metadata", JObj [("scene_number", JInt 7)])]] in
  forallb plain_metadata items = true
  /\ exists out,
       @main sample_runtime (sample_world (JArr items) "out") ["prog"]
       = (([ Ask "Enter output folder path: "; MakeDirs "out";
             ReadJson "/home/user/Downloads/nano-banana-pro-prompts-valentines-day.json" ]
           ++ out ++ [Out "Wrote 3 files to out"])%list, inr tt)
       /\ List.length (written out) = 2.
Proof.
  intros items. split; [reflexivity|].
  destruct (@splitter_writes_objects sample_runtime
              (sample_world (JArr items) "out") ["prog"] "out" items
              eq_refl eq_refl ltac:(discriminate) eq_refl eq_refl eq_refl
              (fun _ => eq_refl)) as [out [Hmain [Hw _]]].
  exists out. split; [exact Hmain|].
  rewrite <- (length_map snd), Hw. reflexivity.
Defined.

Lemma splitter_stops_at_bad_metadata_witness :
  truthy (JStr "scene 3") = true
  /\ is_obj (JStr "scene 3") = false
  /\ exists out,
       @write_items sample_runtime (sample_world JNull "out") "out" 0
         ([JObj [("prompt", JStr "a")]]
            ++ JObj [("metadata", JStr "scene 3")] :: [JObj []])
       = (out, inl (NoGet (JStr "scene 3")))
       /\ List.length (written out) = 1.
Proof.
  split; [reflexivity|]. split; [reflexivity|].
  destruct (@splitter_stops_at_bad_metadata sample_runtime
              (sample_world JNull "out") "out" [JObj [("prompt", JStr "a")]]
              [JObj []] [("metadata", JStr "scene 3")] (JStr "scene 3")
              eq_refl (fun _ => eq_refl) eq_refl eq_refl eq_refl 0%Z)
    as [out [Hout Hw]].
  exists out. split; [exact Hout|].
  rewrite <- (length_map snd), Hw. reflexivity.
Defined.

End SplitPromptsFacts.

(** * Records cut short *)

Section CutShort.

Context `{Runtime} `{DateParser}.

(** X22. A record whose keywords cannot be shown is printed up to the
    keywords and then raises [TypeError]: everything of the record is on
    the output except the keywords lines and the three lines that close
    it (thumbnail, stock URL, blank line). *)
Theorem record_cut_at_keywords (idx : Z) (fields : list (string * json)) :
  keywords_ok (dict_get fields "keywords" (JStr "")) = false ->
  exists op w,
    snd (show_image idx (JObj fields)) = inl (TypeError op w)
    /\ (fst (show_image idx (JObj fields))
        ++ [ Print ("  Thumbnail:    "
                      ++ py_str (dict_get fields "thumbnailUrl" (JStr "N/A")));
             Print ("  Stock URL:    https://stock.adobe.com/"
                      ++ py_str (dict_get fields "id" (JStr "N/A")));
             Print "" ])%list
       = present_image idx (Img.read fields).
Proof.
  intros Hko. destruct (show_keywords_not_ok _ Hko) as [op [w Hw]].
  exists op, w. unfold show_image, present_image, py_get.
  cbn [Img.read Img.title Img.isAI Img.id Img.downloads Img.premium
       Img.creator Img.creatorId Img.mediaType Img.category Img.contentType
       Img.dimensions Img.creationDate Img.keywords Img.thumbnailUrl
       Img.defaults].
  unfold bind, ret, print, emit. rewrite Hw.
  destruct (truthy (dict_get fields "creationDate" (JStr "")));
    split; reflexivity.
Qed.

End CutShort.

Lemma record_cut_at_keywords_witness :
  keywords_ok (dict_get [("title", JStr "Cat"); ("keywords", JInt 7)]
                 "keywords" (JStr "")) = false
  /\ snd (@show_image sample_runtime documented_parser 1
            (JObj [("title", JStr "Cat"); ("keywords", JInt 7)]))
     = inl (TypeError "getitem" (JInt 7)).
Proof.
  split; [reflexivity|].
  destruct (@record_cut_at_keywords sample_runtime documented_parser 1
              [("title", JStr "Cat"); ("keywords", JInt 7)] eq_refl)
    as [op [w [Hs _]]].
  reflexivity.
Defined.
